(** * SISL CRM: a shallow embedding of the save paths, forms and inventory sync

    The development follows the layout of the application:
    - [Py]          the few Python built-ins the code relies on (exceptions,
                    truthiness, [str] methods, [int()], [Decimal], [float]);
    - [Apps]        crm/apps.py: whether crm/signals.py is imported;
    - [Models]      crm/models.py: [Lead] and the body of [Lead.save];
    - [LeadSignals] crm/signals.py: [lead_pre_save], and [Lead.save] with
                    its [super().save()];
    - [LeadViews]   crm/views.py: [lead_approve_view];
    - [Employment]  contacts and [ContactCompanyHistory]: the receiver
                    [contact_company_history_post_save] of crm/signals.py
                    and [ContactUpdateView.form_valid] of crm/views.py;
    - [Forms]       crm/forms.py: [ContactForm] and [DocumentUploadForm];
    - [ManagerApi]  crm/services/manager_api.py: the paginated fetch and
                    [sync_products];
    - [Validators]  crm/validators.py: the number and file validators;
    - [LeadForms]   crm/forms.py: [LeadForm.clean_probability];
    - [Documents], [LeadItems]
                    crm/models.py: [Document.save] and [LeadProduct.save];
    - [LeadAdmin]   crm/admin.py: the action [approve_leads];
    - [ManagerQueries]
                    crm/services/manager_api.py: [search_products] and
                    [check_product_availability];
    - [ContactViews], [Activities]
                    crm/views.py: [ContactCreateView.form_valid] and
                    [activity_complete], with [Activity.mark_complete].
    Definitions come first, the properties afterwards.

    The database is modelled by the tables that the code reads and writes,
    with the constraints declared in crm/models.py (unique columns, NOT
    NULL, foreign keys where a save depends on them); column widths and
    the number formats of a particular backend are not modelled.  Audit
    entries and notification mail, which no property below reads, are
    left out.

    The receivers of crm/signals.py act on a save only once that module
    has been imported.  crm/apps.py keeps the import in a comment and no
    other module imports it, so in the application as it is configured
    no receiver runs ([Apps.signals_imported]).  The save paths take
    that as a parameter: [Lead_save], [history_save] and [form_valid]
    are the saves of the application as configured, and the statements
    about a receiver say so and use the variant with the module
    imported. *)

From Stdlib Require Import ZArith List String Ascii Bool Lia.
From Stdlib Require Import Floats.SpecFloat.
From stdpp Require Import base option list gmap strings.
From Equations Require Import Equations.

Set Warnings "-register-all,-abstract-large-number".
Open Scope string_scope.
Open Scope Z_scope.

(* ===================================================================== *)
(** ** Python built-ins *)
(* ===================================================================== *)

Module Py.

(** Exceptions that the modelled code can raise or let through. *)
Inductive exn : Type :=
| TypeError
| ValueError
| OverflowError
| ZeroDivisionError
| AttributeError
| NameError
| InvalidOperation
| DoesNotExist
| IntegrityError
| Http404
| RequestException
| ValidationError (msg : string).

(** A computation either returns or raises. *)
Inductive result (A : Type) : Type :=
| Ok (a : A)
| Raise (e : exn).
Arguments Ok {A} a.
Arguments Raise {A} e.

Definition bind {A B} (m : result A) (k : A -> result B) : result B :=
  match m with
  | Ok a => k a
  | Raise e => Raise e
  end.

Definition raised {A} (m : result A) : bool :=
  match m with Ok _ => false | Raise _ => true end.

(** *** [str] *)

Definition is_lower_ascii (c : ascii) : bool :=
  let n := nat_of_ascii c in (97 <=? n)%nat && (n <=? 122)%nat.
Definition is_upper_ascii (c : ascii) : bool :=
  let n := nat_of_ascii c in (65 <=? n)%nat && (n <=? 90)%nat.
Definition is_digit_ascii (c : ascii) : bool :=
  let n := nat_of_ascii c in (48 <=? n)%nat && (n <=? 57)%nat.

Definition upper_ascii (c : ascii) : ascii :=
  if is_lower_ascii c then ascii_of_nat (nat_of_ascii c - 32) else c.
Definition lower_ascii (c : ascii) : ascii :=
  if is_upper_ascii c then ascii_of_nat (nat_of_ascii c + 32) else c.

Fixpoint map_str (f : ascii -> ascii) (s : string) : string :=
  match s with
  | EmptyString => EmptyString
  | String c r => String (f c) (map_str f r)
  end.

(** [s.upper()] and [s.lower()] on strings of 8-bit characters: the
    letters a-z and A-Z change case, every other character is kept. *)
Definition upper : string -> string := map_str upper_ascii.
Definition lower : string -> string := map_str lower_ascii.

(** [s.startswith(p)] *)
Definition startswith (s p : string) : bool := String.prefix p s.

(** [sub in s] *)
Fixpoint contains (s sub : string) : bool :=
  String.prefix sub s ||
  match s with
  | EmptyString => false
  | String _ r => contains r sub
  end.

(** [s.endswith(p)] *)
Fixpoint endswith (s p : string) : bool :=
  String.eqb s p ||
  match s with
  | EmptyString => false
  | String _ r => endswith r p
  end.

(** [s.split(sep)] for a one-character separator: never an empty list. *)
Fixpoint split (sep : ascii) (s : string) : list string :=
  match s with
  | EmptyString => [EmptyString]
  | String c r =>
      if Ascii.eqb c sep then EmptyString :: split sep r
      else match split sep r with
           | [] => [String c EmptyString]
           | w :: ws => String c w :: ws
           end
  end.

(** [xs[-1]] on a list known to be non-empty ([d] is never returned for
    the result of [split]). *)
Definition last_item (xs : list string) : string := List.last xs EmptyString.

(** [s.replace(c, '')] for a one-character [c]. *)
Fixpoint remove_char (c : ascii) (s : string) : string :=
  match s with
  | EmptyString => EmptyString
  | String d r => if Ascii.eqb d c then remove_char c r else String d (remove_char c r)
  end.

(** [s.lstrip(c)] for a one-character [c]. *)
Fixpoint lstrip_char (c : ascii) (s : string) : string :=
  match s with
  | EmptyString => EmptyString
  | String d r => if Ascii.eqb d c then lstrip_char c r else s
  end.

Definition is_space_ascii (c : ascii) : bool :=
  let n := nat_of_ascii c in
  ((9 <=? n)%nat && (n <=? 13)%nat) || (n =? 32)%nat.

Fixpoint lstrip (s : string) : string :=
  match s with
  | EmptyString => EmptyString
  | String c r => if is_space_ascii c then lstrip r else s
  end.

Fixpoint rstrip (s : string) : string :=
  match s with
  | EmptyString => EmptyString
  | String c r =>
      match rstrip r with
      | EmptyString => if is_space_ascii c then EmptyString else String c EmptyString
      | t => String c t
      end
  end.

(** [s.strip()] *)
Definition strip (s : string) : string := rstrip (lstrip s).

(** [not s] for a string. *)
Definition str_truthy (s : string) : bool :=
  match s with EmptyString => false | _ => true end.

(** *** [int] and its decimal notation *)

Definition digit_of_ascii (c : ascii) : Z := Z.of_nat (nat_of_ascii c) - 48.

Fixpoint digits_value (acc : Z) (s : string) : option Z :=
  match s with
  | EmptyString => Some acc
  | String c r =>
      if is_digit_ascii c then digits_value (10 * acc + digit_of_ascii c) r
      else None
  end.

(** [int(s)] on an optional sign followed by decimal digits; anything
    else raises ValueError. *)
Definition int_of_str (s : string) : result Z :=
  let unsigned (t : string) (sign : Z) :=
    match t with
    | EmptyString => Raise ValueError
    | _ => match digits_value 0 t with
           | Some v => Ok (sign * v)
           | None => Raise ValueError
           end
    end in
  match s with
  | String "-"%char r => unsigned r (-1)
  | String "+"%char r => unsigned r 1
  | _ => unsigned s 1
  end.

Definition ascii_of_digit (d : Z) : ascii := ascii_of_nat (Z.to_nat (48 + d)).

Fixpoint digits_of_pos (fuel : nat) (n : Z) (acc : string) : string :=
  match fuel with
  | O => acc
  | S f =>
      let acc' := String (ascii_of_digit (n mod 10)) acc in
      if n <? 10 then acc' else digits_of_pos f (n / 10) acc'
  end.

(** [str(n)] for [0 <= n]. *)
Definition str_of_nonneg (n : Z) : string :=
  digits_of_pos (S (Z.to_nat (Z.log2 n))) n EmptyString.

Fixpoint zeros (k : nat) : string :=
  match k with O => EmptyString | S j => String "0"%char (zeros j) end.

(** [f"{n:0{w}d}"]: zero fill to a minimum width, the sign counted in. *)
Definition format_0d (w : nat) (n : Z) : string :=
  if n <? 0 then
    let d := str_of_nonneg (- n) in
    String "-"%char (zeros (w - 1 - String.length d) ++ d)
  else
    let d := str_of_nonneg n in
    zeros (w - String.length d) ++ d.

(** *** Numbers: [int], [float], [decimal.Decimal] *)

(** A [decimal.Decimal]: sign, coefficient and exponent, or a special. *)
Inductive Decimal : Type :=
| DFinite (negative : bool) (coefficient : N) (exponent : Z)
| DInfinity (negative : bool)
| DNaN.

(** A Python number as an attribute may hold it. *)
Inductive num : Type :=
| PInt (n : Z)
| PFloat (f : spec_float)
| PDecimal (d : Decimal).

(** IEEE binary64, Python's [float]. *)
Definition prec : Z := 53.
Definition emax : Z := 1024.

(** [float(n)]: correctly rounded, OverflowError beyond the range. *)
Definition float_of_int (n : Z) : result spec_float :=
  match binary_normalize prec emax n 0 false with
  | S754_infinity _ => Raise OverflowError
  | f => Ok f
  end.

(** [a / b] on two [int]s is a [float] (the quotient of the two
    conversions, which is the correctly rounded quotient for operands
    below 2^53; a probability is a 32-bit column). *)
Definition int_truediv (a b : Z) : result spec_float :=
  if b =? 0 then Raise ZeroDivisionError
  else
    bind (float_of_int a) (fun fa =>
    bind (float_of_int b) (fun fb =>
    Ok (SFdiv prec emax fa fb))).

Definition float_is_zero (f : spec_float) : bool :=
  match f with S754_zero _ => true | _ => false end.

Definition Decimal_is_zero (d : Decimal) : bool :=
  match d with DFinite _ 0%N _ => true | _ => false end.

(** [bool(x)] *)
Definition num_truthy (x : num) : bool :=
  match x with
  | PInt n => negb (n =? 0)
  | PFloat f => negb (float_is_zero f)
  | PDecimal d => negb (Decimal_is_zero d)
  end.

Definition opt_truthy {A} (truthy : A -> bool) (o : option A) : bool :=
  match o with None => false | Some a => truthy a end.

Definition Decimal_of_int (n : Z) : Decimal :=
  DFinite (n <? 0) (Z.to_N (Z.abs n)) 0.

(** Product of two decimals (exact; the operands met here stay far below
    the 28 digits of the default context). *)
Definition Decimal_times (a b : Decimal) : result Decimal :=
  match a, b with
  | DNaN, _ | _, DNaN => Ok DNaN
  | DInfinity s, DInfinity t => Ok (DInfinity (xorb s t))
  | DInfinity s, DFinite t c _ | DFinite t c _, DInfinity s =>
      if (c =? 0)%N then Raise InvalidOperation else Ok (DInfinity (xorb s t))
  | DFinite s c e, DFinite t d f => Ok (DFinite (xorb s t) (c * d) (e + f))
  end.

(** [Decimal.__mul__(self, other)]: [None] stands for NotImplemented,
    which is what a [float] operand gets. *)
Definition Decimal___mul__ (self : Decimal) (other : num) : option (result num) :=
  match other with
  | PInt n => Some (bind (Decimal_times self (Decimal_of_int n)) (fun d => Ok (PDecimal d)))
  | PDecimal d => Some (bind (Decimal_times self d) (fun r => Ok (PDecimal r)))
  | PFloat _ => None
  end.

(** [float.__mul__] / [float.__rmul__]: NotImplemented for a Decimal. *)
Definition float___mul__ (self : spec_float) (other : num) : option (result num) :=
  match other with
  | PInt n => Some (bind (float_of_int n) (fun g => Ok (PFloat (SFmul prec emax self g))))
  | PFloat g => Some (Ok (PFloat (SFmul prec emax self g)))
  | PDecimal _ => None
  end.

Definition int___mul__ (self : Z) (other : num) : option (result num) :=
  match other with
  | PInt n => Some (Ok (PInt (self * n)))
  | _ => None
  end.

Definition dunder_mul (x y : num) : option (result num) :=
  match x with
  | PInt n => int___mul__ n y
  | PFloat f => float___mul__ f y
  | PDecimal d => Decimal___mul__ d y
  end.

(** [x * y]: the left operand's [__mul__], then the right operand's
    [__rmul__], and TypeError when both decline. *)
Definition mul (x y : num) : result num :=
  match dunder_mul x y with
  | Some r => r
  | None =>
      match dunder_mul y x with
      | Some r => r
      | None => Raise TypeError
      end
  end.

End Py.

Import Py.

Notation "'let*' x ':=' m 'in' k" := (Py.bind m (fun x => k))
(at level 10, x name, m at level 100, k at level 200).

(* ===================================================================== *)
(** ** crm/apps.py *)
(* ===================================================================== *)

Module Apps.

(** [@receiver] connects a function when the module that defines it is
    imported.  The only import of crm/signals.py is the one in
    [CrmConfig.ready], and crm/apps.py has that method in a comment:
    the module is never imported. *)
Definition signals_imported : bool := false.

End Apps.

(* ===================================================================== *)
(** ** crm/models.py: leads *)
(* ===================================================================== *)

Module Models.

(** [timezone.now()]: the calendar month and the instant. *)
Record datetime := {
  year : Z;
  month : Z;
  instant : Z
}.

(** [today.strftime('%Y%m')] *)
Definition strftime_Ym (today : datetime) : string :=
  format_0d 4 (year today) ++ format_0d 2 (month today).

Record LeadStatus := {
  status_name : string;
  status_requires_approval : bool
}.

(** The attributes of a [Lead] instance that [Lead.save], the lead
    receivers and the approval view read or write.  [status] is the
    foreign key; [estimated_value] and [weighted_value] hold whatever
    number the instance carries (a [Decimal] after form cleaning or
    after loading the row). *)
Record Lead := {
  pk : N;
  lead_number : string;
  status : option positive;
  estimated_value : option num;
  probability : Z;
  weighted_value : option num;
  requires_approval : bool;
  approved_by : option N;
  approved_at : option Z;
  approval_notes : string;
  is_deleted : bool
}.

Definition with_lead_number (v : string) (l : Lead) : Lead :=
  {| pk := pk l; lead_number := v; status := status l;
     estimated_value := estimated_value l; probability := probability l;
     weighted_value := weighted_value l;
     requires_approval := requires_approval l; approved_by := approved_by l;
     approved_at := approved_at l; approval_notes := approval_notes l;
     is_deleted := is_deleted l |}.

Definition with_weighted_value (v : option num) (l : Lead) : Lead :=
  {| pk := pk l; lead_number := lead_number l; status := status l;
     estimated_value := estimated_value l; probability := probability l;
     weighted_value := v;
     requires_approval := requires_approval l; approved_by := approved_by l;
     approved_at := approved_at l; approval_notes := approval_notes l;
     is_deleted := is_deleted l |}.

Definition with_requires_approval (v : bool) (l : Lead) : Lead :=
  {| pk := pk l; lead_number := lead_number l; status := status l;
     estimated_value := estimated_value l; probability := probability l;
     weighted_value := weighted_value l;
     requires_approval := v; approved_by := approved_by l;
     approved_at := approved_at l; approval_notes := approval_notes l;
     is_deleted := is_deleted l |}.

Definition with_approved_by (v : option N) (l : Lead) : Lead :=
  {| pk := pk l; lead_number := lead_number l; status := status l;
     estimated_value := estimated_value l; probability := probability l;
     weighted_value := weighted_value l;
     requires_approval := requires_approval l; approved_by := v;
     approved_at := approved_at l; approval_notes := approval_notes l;
     is_deleted := is_deleted l |}.

Definition with_approved_at (v : option Z) (l : Lead) : Lead :=
  {| pk := pk l; lead_number := lead_number l; status := status l;
     estimated_value := estimated_value l; probability := probability l;
     weighted_value := weighted_value l;
     requires_approval := requires_approval l; approved_by := approved_by l;
     approved_at := v; approval_notes := approval_notes l;
     is_deleted := is_deleted l |}.

Definition with_approval_notes (v : string) (l : Lead) : Lead :=
  {| pk := pk l; lead_number := lead_number l; status := status l;
     estimated_value := estimated_value l; probability := probability l;
     weighted_value := weighted_value l;
     requires_approval := requires_approval l; approved_by := approved_by l;
     approved_at := approved_at l; approval_notes := v;
     is_deleted := is_deleted l |}.

(** The tables: lead rows in storage order, statuses by primary key. *)
Record DB := {
  leads : list Lead;
  statuses : gmap positive LeadStatus
}.

Definition with_leads (rows : list Lead) (db : DB) : DB :=
  {| leads := rows; statuses := statuses db |}.

(** [Lead.objects.get(pk=k)] *)
Definition get_lead (db : DB) (k : N) : result Lead :=
  match find (fun l => (pk l =? k)%N) (leads db) with
  | Some l => Ok l
  | None => Raise DoesNotExist
  end.

(** [instance.status]: the related row, [None] for a null key. *)
Definition related_status (db : DB) (l : Lead) : result (option LeadStatus) :=
  match status l with
  | None => Ok None
  | Some k =>
      match statuses db !! k with
      | Some s => Ok (Some s)
      | None => Raise DoesNotExist
      end
  end.

(** [.order_by('-lead_number').first()]: a row whose [lead_number] is
    greatest in the string order of the column. *)
Definition greatest_lead_number (rows : list Lead) : option Lead :=
  fold_left
    (fun best l =>
       match best with
       | None => Some l
       | Some b => if String.ltb (lead_number b) (lead_number l) then Some l else Some b
       end)
    rows None.

(** [Lead.objects.filter(lead_number__startswith=prefix)
        .order_by('-lead_number').first()] *)
Definition last_lead_with_prefix (db : DB) (prefix : string) : option Lead :=
  greatest_lead_number
    (List.filter (fun l => startswith (lead_number l) prefix) (leads db)).

(** The number block of [Lead.save]: [LEAD-YYYYMM-XXXX]. *)
Definition generate_lead_number (db : DB) (today : datetime) : result string :=
  let prefix := "LEAD-" ++ strftime_Ym today in
  let* new_number :=
    match last_lead_with_prefix db prefix with
    | Some last_lead =>
        let* last_number :=
          int_of_str (last_item (split "-" (lead_number last_lead))) in
        Ok (last_number + 1)
    | None => Ok 1
    end in
  Ok (prefix ++ "-" ++ format_0d 4 new_number).

(** [Lead.save] up to its call of [super().save()]. *)
Definition Lead_save_fields (db : DB) (today : datetime) (self : Lead) : result Lead :=
  let* self :=
    if negb (str_truthy (lead_number self)) then
      let* n := generate_lead_number db today in
      Ok (with_lead_number n self)
    else Ok self in
  let* self :=
    if opt_truthy num_truthy (estimated_value self)
       && negb (probability self =? 0) then
      match estimated_value self with
      | Some v =>
          let* ratio := int_truediv (probability self) 100 in
          let* w := mul v (PFloat ratio) in
          Ok (with_weighted_value (Some w) self)
      | None => Ok self
      end
    else Ok self in
  let* st := related_status db self in
  Ok (match st with
      | Some s =>
          if status_requires_approval s then with_requires_approval true self
          else self
      | None => self
      end).

(** The write of [Model.save] on the lead table: [lead_number] is a
    unique column; a row with the instance's key is replaced, otherwise
    the instance is inserted. *)
Definition unique_violation (db : DB) (self : Lead) : bool :=
  existsb
    (fun l => negb (pk l =? pk self)%N
              && String.eqb (lead_number l) (lead_number self))
    (leads db).

Definition write_lead (db : DB) (self : Lead) : result DB :=
  if unique_violation db self then Raise IntegrityError
  else if existsb (fun l => (pk l =? pk self)%N) (leads db) then
    Ok (with_leads
          (map (fun l => if (pk l =? pk self)%N then self else l) (leads db)) db)
  else Ok (with_leads (leads db ++ [self]) db).

End Models.

(* ===================================================================== *)
(** ** crm/signals.py: the lead receiver *)
(* ===================================================================== *)

Module LeadSignals.
Import Models.

(** [lead_pre_save].  A lead always has a key (the UUID default), so the
    guard [if instance.pk] holds; [track_field_changes] only prepares the
    audit entries.  [Lead.objects.get] raises DoesNotExist when no row
    has the key. *)
Definition lead_pre_save (db : DB) (instance : Lead) : result Lead :=
  let* old_lead := get_lead db (pk instance) in
  let* st := related_status db instance in
  let changed := negb (bool_decide (status instance = status old_lead)) in
  match st with
  | Some s =>
      if changed && status_requires_approval s then
        let instance := with_requires_approval true instance in
        if opt_truthy (fun _ => true) (approved_by old_lead) then
          Ok (with_approved_at None (with_approved_by None instance))
        else Ok instance
      else Ok instance
  | None => Ok instance
  end.

(** [pre_save.send(sender=Lead, instance=...)]: the receiver runs when
    the module that connects it has been imported. *)
Definition send_pre_save (imported : bool) (db : DB) (instance : Lead)
  : result Lead :=
  if imported then lead_pre_save db instance else Ok instance.

(** [Lead.save] as a whole: the field block, then [super().save()],
    which sends [pre_save], writes the row and sends [post_save] (whose
    receivers write audit entries and mail, which touch neither
    table). *)
Definition Lead_save_when (imported : bool) (db : DB) (today : datetime)
    (self : Lead) : result (DB * Lead) :=
  let* self := Lead_save_fields db today self in
  let* self := send_pre_save imported db self in
  let* db' := write_lead db self in
  Ok (db', self).

(** [Lead.save] in the application as it is configured. *)
Definition Lead_save : DB -> datetime -> Lead -> result (DB * Lead) :=
  Lead_save_when Apps.signals_imported.

End LeadSignals.

(* ===================================================================== *)
(** ** crm/views.py: approving a lead *)
(* ===================================================================== *)

Module LeadViews.
Import Models LeadSignals.

Inductive http_method := GET | POST.

(** [lead_approve_view]: without the permission or on a GET nothing is
    written; on a POST the three approval attributes are set and the
    lead is saved. *)
Definition lead_approve_view (db : DB) (today : datetime)
    (user : N) (can_approve_leads : bool) (method : http_method)
    (posted_notes : option string) (k : N) : result DB :=
  if negb can_approve_leads then Ok db
  else
    let* lead :=
      match find (fun l => (pk l =? k)%N && negb (is_deleted l)) (leads db) with
      | Some l => Ok l
      | None => Raise Http404
      end in
    match method with
    | POST =>
        let approval_notes := default "" posted_notes in
        let lead := with_approved_by (Some user) lead in
        let lead := with_approved_at (Some (instant today)) lead in
        let lead := with_approval_notes approval_notes lead in
        let* r := Lead_save db today lead in
        Ok (fst r)
    | GET => Ok db
    end.

End LeadViews.

(* ===================================================================== *)
(** ** Contacts and their employment history *)
(* ===================================================================== *)

Module Employment.

(** crm/models.py: the attributes of a [Contact] that the history
    receiver and the contact views write (the key is kept apart: rows
    are stored under it). *)
Record Contact := {
  name : string;
  phone : string;
  email : string;
  designation : option N;
  current_company : option N
}.

Definition with_employment (company : option N) (desig : option N) (c : Contact)
  : Contact :=
  {| name := name c; phone := phone c; email := email c;
     designation := desig; current_company := company |}.

(** A [ContactCompanyHistory] row. *)
Record History := {
  contact_id : N;
  company : N;
  h_designation : option N;
  start_date : option Z;
  end_date : option Z;
  is_current : bool
}.

Definition ended (today : Z) (r : History) : History :=
  {| contact_id := contact_id r; company := company r;
     h_designation := h_designation r; start_date := start_date r;
     end_date := Some today; is_current := false |}.

Definition not_current (r : History) : History :=
  {| contact_id := contact_id r; company := company r;
     h_designation := h_designation r; start_date := start_date r;
     end_date := end_date r; is_current := false |}.

(** A [ContactCompanyHistory] instance: the key ([None] until the first
    save), the column values, and the related contact object when the
    instance carries one ([instance.contact] was assigned or has been
    loaded); the object's key is [contact_id] of the row. *)
Record Instance := {
  h_pk : option positive;
  row : History;
  contact_cache : option Contact
}.

Record DB := {
  contacts : gmap N Contact;
  histories : gmap positive History
}.

Definition empty_db : DB := {| contacts := ∅; histories := ∅ |}.

(** [instance.contact]: the cached object, else the row of the key. *)
Definition related_contact (db : DB) (instance : Instance) : result Contact :=
  match contact_cache instance with
  | Some c => Ok c
  | None =>
      match contacts db !! contact_id (row instance) with
      | Some c => Ok c
      | None => Raise DoesNotExist
      end
  end.

(** crm/signals.py, [contact_company_history_post_save]:
    [filter(contact=instance.contact).exclude(pk=instance.pk)
       .update(is_current=False)], then the contact is given the
    instance's company and designation and saved. *)
Definition contact_company_history_post_save
    (db : DB) (k : positive) (instance : Instance) : result DB :=
  if is_current (row instance) then
    let* contact := related_contact db instance in
    let others :=
      map_imap
        (fun j r =>
           Some (if bool_decide (contact_id r = contact_id (row instance))
                    && negb (bool_decide (j = k))
                 then not_current r else r))
        (histories db) in
    let contact :=
      with_employment (Some (company (row instance)))
                      (h_designation (row instance)) contact in
    Ok {| contacts := <[contact_id (row instance) := contact]> (contacts db);
          histories := others |}
  else Ok db.

(** [post_save.send(sender=ContactCompanyHistory, instance=...)]: the
    receiver runs when the module that connects it has been imported. *)
Definition send_post_save (imported : bool) (db : DB) (k : positive)
    (instance : Instance) : result DB :=
  if imported then contact_company_history_post_save db k instance else Ok db.

(** [Model.save] of a history instance ([ContactCompanyHistory] has no
    [save] of its own): the contact key must name a stored contact (the
    foreign key); the row is written under the instance's key (a fresh
    key on the first save), then [post_save] is sent. *)
Definition instance_key (db : DB) (instance : Instance) : positive :=
  match h_pk instance with
  | Some k => k
  | None => fresh (dom (histories db))
  end.

Definition history_save_when (imported : bool) (db : DB) (instance : Instance)
  : result DB :=
  match contacts db !! contact_id (row instance) with
  | None => Raise IntegrityError
  | Some _ =>
      let k := instance_key db instance in
      let db1 := {| contacts := contacts db;
                    histories := <[k := row instance]> (histories db) |} in
      send_post_save imported db1 k instance
  end.

(** The save of a history instance in the application as it is
    configured. *)
Definition history_save : DB -> Instance -> result DB :=
  history_save_when Apps.signals_imported.

(** crm/views.py, [ContactUpdateView.form_valid].  [who] is the key of
    [self.object] and [form_instance] its attributes, already carrying
    the cleaned values; [changed_data] lists the fields whose posted
    value differs from the initial one. *)
Definition end_current_employment (today : Z) (who : N) (old_company : N)
    (rows : gmap positive History) : gmap positive History :=
  (fun r => if bool_decide (contact_id r = who)
               && bool_decide (company r = old_company)
               && is_current r
            then ended today r else r) <$> rows.

Definition form_valid_when (imported : bool) (db : DB) (today : Z)
    (changed_data : list string) (who : N) (form_instance : Contact)
  : result DB :=
  let* db :=
    if existsb (String.eqb "current_company") changed_data then
      let* stored :=
        match contacts db !! who with
        | Some c => Ok c
        | None => Raise DoesNotExist
        end in
      let old_company := current_company stored in
      let new_company := current_company form_instance in
      if negb (bool_decide (old_company = new_company)) then
        let db :=
          match old_company with
          | Some oc =>
              {| contacts := contacts db;
                 histories :=
                   end_current_employment today who oc (histories db) |}
          | None => db
          end in
        match new_company with
        | Some nc =>
            history_save_when imported db
              {| h_pk := None;
                 row := {| contact_id := who;
                           company := nc;
                           h_designation := designation form_instance;
                           start_date := Some today;
                           end_date := None;
                           is_current := true |};
                 contact_cache := Some form_instance |}
        | None => Ok db
        end
      else Ok db
    else Ok db in
  Ok {| contacts := <[who := form_instance]> (contacts db);
        histories := histories db |}.

(** [ContactUpdateView.form_valid] in the application as it is
    configured. *)
Definition form_valid : DB -> Z -> list string -> N -> Contact -> result DB :=
  form_valid_when Apps.signals_imported.

(** Writes to the history table that the application performs. *)
Inductive op :=
| SaveHistory (instance : Instance)
| UpdateContact (today : Z) (changed_data : list string)
                (who : N) (form_instance : Contact).

Definition perform_when (imported : bool) (db : DB) (o : op) : result DB :=
  match o with
  | SaveHistory i => history_save_when imported db i
  | UpdateContact t ch who c => form_valid_when imported db t ch who c
  end.

(** A request that raises does so before its first write and leaves
    the tables as they were. *)
Definition step_when (imported : bool) (db : DB) (o : op) : DB :=
  match perform_when imported db o with
  | Ok db' => db'
  | Raise _ => db
  end.

Definition run_when (imported : bool) (ops : list op) (db : DB) : DB :=
  fold_left (step_when imported) ops db.

(** The same in the application as it is configured. *)
Definition step : DB -> op -> DB := step_when Apps.signals_imported.
Definition run : list op -> DB -> DB := run_when Apps.signals_imported.

(** At most one row of contact [c] is flagged current. *)
Definition at_most_one_current (db : DB) (c : N) : Prop :=
  forall j1 j2 r1 r2,
    histories db !! j1 = Some r1 -> histories db !! j2 = Some r2 ->
    contact_id r1 = c -> contact_id r2 = c ->
    is_current r1 = true -> is_current r2 = true ->
    j1 = j2.

(** The keys of the rows of contact [c] flagged current, for running
    examples. *)
Definition current_keys (db : DB) (c : N) : list positive :=
  map fst
    (List.filter
       (fun kr => bool_decide (contact_id (snd kr) = c) && is_current (snd kr))
       (map_to_list (histories db))).

End Employment.

(* ===================================================================== *)
(** ** crm/forms.py *)
(* ===================================================================== *)

Module Forms.

(** *** Django's character fields *)

(** A form error: the field it is attached to ([None] for the errors of
    [clean]) and its message. *)
Definition error : Type := option string * string.

(** [forms.CharField(required, max_length).clean]: [to_python] strips
    the value, then the required check and the validators (length, null
    characters). *)
Definition CharField_clean (required : bool) (max_length : nat) (raw : string)
  : result string :=
  let value := strip raw in
  if negb (str_truthy value) then
    if required then Raise (ValidationError "This field is required.")
    else Ok value
  else if (max_length <? String.length value)%nat then
    Raise (ValidationError "Ensure this value has at most the allowed number of characters.")
  else if contains value (String zero EmptyString) then
    Raise (ValidationError "Null characters are not allowed.")
  else Ok value.

(** *** [ContactForm] *)

(** A posted contact form.  The model declares [phone] without
    [blank=True], so its form field is required, and [email] with
    [blank=True].  The verdicts of the parts of the framework that are
    not re-implemented here come with the submission: whether
    [EmailValidator] accepts the stripped address, and whether the
    remaining fields ([name], [status], ...) pass. *)
Record Submission := {
  posted_phone : string;
  posted_email : string;
  email_validator_accepts : bool;
  other_fields_pass : bool
}.

(** [cleaned_data]: a key is absent when its field raised. *)
Record cleaned_data := {
  cleaned_phone : option string;
  cleaned_email : option string
}.

(** [ContactForm.clean_phone] *)
Definition clean_phone (phone : string) : string :=
  if str_truthy phone then
    let phone := remove_char "-" (remove_char " " phone) in
    if negb (startswith phone "+") then "+880" ++ lstrip_char "0" phone
    else phone
  else phone.

(** [ContactForm.clean_email] *)
Definition clean_email (email : string) : string :=
  if str_truthy email then lower email else email.

Definition phone_field (raw : string) : result string :=
  let* v := CharField_clean true 20 raw in
  Ok (clean_phone v).

Definition email_field (raw : string) (validator_accepts : bool) : result string :=
  let* v := CharField_clean false 254 raw in
  let* v :=
    if str_truthy v && negb validator_accepts
    then Raise (ValidationError "Enter a valid email address.")
    else Ok v in
  Ok (clean_email v).

(** [ContactForm.clean]: the cross-field rule. *)
Definition ContactForm_clean (data : cleaned_data) : result cleaned_data :=
  let phone := cleaned_phone data in
  let email := cleaned_email data in
  if negb (opt_truthy str_truthy phone) && negb (opt_truthy str_truthy email) then
    Raise (ValidationError "Please provide at least phone number or email address.")
  else Ok data.

Definition field_errors (field : string) {A} (r : result A) : list error :=
  match r with
  | Raise (ValidationError m) => [(Some field, m)]
  | Raise _ => [(Some field, "")]
  | Ok _ => []
  end.

Definition field_value {A} (r : result A) : option A :=
  match r with Ok v => Some v | Raise _ => None end.

(** [full_clean]: every field is cleaned, then [clean] runs on what the
    fields produced, then the instance is validated against the model
    ([phone] holds at most 20 characters there as well). *)
Definition full_clean (s : Submission) : list error * cleaned_data :=
  let p := phone_field (posted_phone s) in
  let e := email_field (posted_email s) (email_validator_accepts s) in
  let data := {| cleaned_phone := field_value p; cleaned_email := field_value e |} in
  let form_errors : list error :=
    match ContactForm_clean data with
    | Raise (ValidationError m) => [(None, m)]
    | _ => []
    end in
  let model_errors : list error :=
    match cleaned_phone data with
    | Some v =>
        if (20 <? String.length v)%nat
        then [(Some "phone", "Ensure this value has at most 20 characters.")]
        else []
    | None => []
    end in
  let other_errors : list error :=
    if other_fields_pass s then [] else [(Some "__other__", "")] in
  ((field_errors "phone" p ++ field_errors "email" e ++ other_errors
      ++ form_errors ++ model_errors)%list,
   data).

(** [form.is_valid()] *)
Definition is_valid (s : Submission) : bool :=
  match fst (full_clean s) with [] => true | _ => false end.

Definition cross_field_error : error :=
  (None, "Please provide at least phone number or email address.").

(** *** [DocumentUploadForm] *)

Record UploadedFile := {
  file_name : string;
  size : Z
}.

(** [bool(file)] is [bool(file.name)]. *)
Definition file_truthy (f : UploadedFile) : bool := str_truthy (file_name f).

Definition allowed_extensions : list string :=
  [".pdf"; ".doc"; ".docx"; ".xls"; ".xlsx"; ".png"; ".jpg"; ".jpeg"].

(** [", ".join(xs)] *)
Fixpoint join_comma (xs : list string) : string :=
  match xs with
  | [] => ""
  | [x] => x
  | x :: r => x ++ ", " ++ join_comma r
  end.

(** [file.name.lower().split('.')[-1]] *)
Definition file_ext (f : UploadedFile) : string :=
  last_item (split "." (lower (file_name f))).

Definition size_limit : Z := 10 * 1024 * 1024.

(** [DocumentUploadForm.clean_file] *)
Definition clean_file (file : option UploadedFile) : result (option UploadedFile) :=
  match file with
  | Some f =>
      if file_truthy f then
        if size_limit <? size f then
          Raise (ValidationError "File size cannot exceed 10MB")
        else
          let ext := file_ext f in
          if negb (existsb (String.eqb ("." ++ ext)) allowed_extensions) then
            Raise (ValidationError
                     ("File type ." ++ ext ++ " is not allowed. Allowed types: "
                      ++ join_comma allowed_extensions))
          else Ok file
      else Ok file
  | None => Ok file
  end.

(** The extension in words: what follows the last dot of the lower-cased
    name, the whole name when it has no dot. *)
Fixpoint after_last_dot (s : string) : string :=
  match s with
  | EmptyString => EmptyString
  | String c r =>
      if contains r "." then after_last_dot r
      else if Ascii.eqb c "." then r
      else s
  end.

End Forms.

(* ===================================================================== *)
(** ** crm/services/manager_api.py *)
(* ===================================================================== *)

Module ManagerApi.

(** *** Decoded JSON *)

(** What [response.json()] returns.  An object is given by its items in
    insertion order (each key once); a float by the decimal that its
    [repr] prints, which is all the code looks at. *)
Inductive json : Type :=
| JNull
| JBool (b : bool)
| JInt (n : Z)
| JFloat (d : Decimal)
| JStr (s : string)
| JArr (xs : list json)
| JObj (items : list (string * json)).

(** [bool(v)] *)
Definition truthy (v : json) : bool :=
  match v with
  | JNull => false
  | JBool b => b
  | JInt n => negb (n =? 0)
  | JFloat d => negb (Decimal_is_zero d)
  | JStr s => str_truthy s
  | JArr xs => match xs with [] => false | _ => true end
  | JObj items => match items with [] => false | _ => true end
  end.

(** [a or b] *)
Definition py_or (a b : json) : json := if truthy a then a else b.

Fixpoint lookup_key (k : string) (items : list (string * json)) : option json :=
  match items with
  | [] => None
  | (k', v) :: r => if String.eqb k' k then Some v else lookup_key k r
  end.

(** [d.get(k)] and [d.get(k, dflt)] *)
Definition get (d : list (string * json)) (k : string) : json :=
  default JNull (lookup_key k d).
Definition get_or (d : list (string * json)) (k : string) (dflt : json) : json :=
  default dflt (lookup_key k d).

(** [k in d] *)
Definition has_key (d : list (string * json)) (k : string) : bool :=
  match lookup_key k d with Some _ => true | None => false end.

Fixpoint chars (s : string) : list json :=
  match s with
  | EmptyString => []
  | String c r => JStr (String c EmptyString) :: chars r
  end.

(** The elements that [list.extend(v)] appends: those of a list, the
    characters of a string, the keys of a dict; other values are not
    iterable. *)
Definition iterate (v : json) : result (list json) :=
  match v with
  | JArr xs => Ok xs
  | JStr s => Ok (chars s)
  | JObj items => Ok (map (fun kv => JStr (fst kv)) items)
  | _ => Raise TypeError
  end.

(** [len(v)] *)
Definition len (v : json) : result Z :=
  match v with
  | JArr xs => Ok (Z.of_nat (List.length xs))
  | JStr s => Ok (Z.of_nat (String.length s))
  | JObj items => Ok (Z.of_nat (List.length items))
  | _ => Raise TypeError
  end.

(** *** [_fetch_all_inventory_items] *)

(** [self._make_request('GET', 'inventory-items', params)] for the
    parameters [pageSize] and [skip]: the decoded body ([JNull] for an
    empty one) or the exception it lets through. *)
Definition endpoint : Type := Z -> Z -> result json.

Definition page_size : Z := 100.
Definition max_iterations : Z := 50.

(** The variables of the loop, and a log of the requests sent. *)
Record loop_state := {
  all_items : list json;
  skip : Z;
  iterations : Z;
  requests : list (Z * Z)
}.

Definition initial : loop_state :=
  {| all_items := []; skip := 0; iterations := 0; requests := [] |}.

Inductive control : Type :=
| Next (s : loop_state)
| Break (s : loop_state)
| Throw (e : exn).

(** [page_items] as the loop extracts it from a response. *)
Definition extract_page_items (response : json) : json :=
  match response with
  | JObj d => if has_key d "inventoryItems" then get d "inventoryItems" else JArr []
  | JArr _ => response
  | _ => JArr []
  end.

(** One pass through the body of the [while]. *)
Definition loop_body (api : endpoint) (s : loop_state) : control :=
  match api page_size (skip s) with
  | Raise e => Throw e
  | Ok response =>
      let s := {| all_items := all_items s; skip := skip s;
                  iterations := iterations s;
                  requests := (requests s ++ [(page_size, skip s)])%list |} in
      if negb (truthy response) then Break s
      else
        let page_items := extract_page_items response in
        if negb (truthy page_items) then Break s
        else
          match iterate page_items with
          | Raise e => Throw e
          | Ok elements =>
              let s := {| all_items := (all_items s ++ elements)%list;
                          skip := skip s; iterations := iterations s;
                          requests := requests s |} in
              match len page_items with
              | Raise e => Throw e
              | Ok n =>
                  if n <? page_size then Break s
                  else Next {| all_items := all_items s;
                               skip := skip s + page_size;
                               iterations := iterations s + 1;
                               requests := requests s |}
              end
          end
  end.

Definition keep {A} (x : A) : {y : A | x = y} := exist _ x eq_refl.

(** [while iterations < max_iterations: ...]. *)
Equations? fetch_loop (api : endpoint) (s : loop_state) : result loop_state
  by wf (Z.to_nat (max_iterations - iterations s)) lt :=
  fetch_loop api s with Z_lt_dec (iterations s) max_iterations := {
    | left _ with keep (loop_body api s) := {
        | exist _ (Next s') H => fetch_loop api s'
        | exist _ (Break s') _ => Ok s'
        | exist _ (Throw e) _ => Raise e };
    | right _ => Ok s }.
Proof.
  (* a pass that asks for another one has counted it *)
  assert (Hnext : iterations s' = iterations s + 1).
  { unfold loop_body in H.
    repeat match type of H with
           | context [match ?x with _ => _ end] => destruct x; try discriminate
           end.
    by inversion H. }
  lia.
Qed.

(** [_fetch_all_inventory_items]: [return all_items]; an exception is
    logged and raised again. *)
Definition _fetch_all_inventory_items (api : endpoint) : result (list json) :=
  let* s := fetch_loop api initial in
  Ok (all_items s).



(** *** [Decimal] conversions *)

Fixpoint span_digits (s : string) : string * string :=
  match s with
  | EmptyString => (EmptyString, EmptyString)
  | String c r =>
      if is_digit_ascii c then
        let (d, t) := span_digits r in (String c d, t)
      else (EmptyString, s)
  end.

(** [Decimal(s)] for a string: surrounding blanks, a sign, then digits
    with an optional fraction and exponent, or inf, infinity, nan, snan
    in any case.  [None] stands for InvalidOperation. *)
Definition Decimal_of_str (s : string) : option Decimal :=
  let s := strip s in
  let (negative, body) :=
    match s with
    | String "-"%char r => (true, r)
    | String "+"%char r => (false, r)
    | _ => (false, s)
    end in
  let word := lower body in
  if String.eqb word "inf" || String.eqb word "infinity" then Some (DInfinity negative)
  else if String.eqb word "nan" || String.eqb word "snan" then Some DNaN
  else
    let (int_part, rest) := span_digits body in
    let (frac_part, rest) :=
      match rest with
      | String "."%char r => span_digits r
      | _ => (EmptyString, rest)
      end in
    if negb (str_truthy (int_part ++ frac_part)) then None
    else
      let exponent :=
        match rest with
        | EmptyString => Some 0
        | String c r =>
            if Ascii.eqb c "e" || Ascii.eqb c "E" then
              match int_of_str r with Ok e => Some e | Raise _ => None end
            else None
        end in
      match exponent, digits_value 0 (int_part ++ frac_part) with
      | Some e, Some c =>
          Some (DFinite negative (Z.to_N c) (e - Z.of_nat (String.length frac_part)))
      | _, _ => None
      end.

(** [Decimal(str(value))] for a decoded value other than [None]: the
    text of a bool, a list or a dict is no number. *)
Definition Decimal_of_json (value : json) : result Decimal :=
  match value with
  | JInt n => Ok (Decimal_of_int n)
  | JFloat d => Ok d
  | JStr s =>
      match Decimal_of_str s with
      | Some d => Ok d
      | None => Raise InvalidOperation
      end
  | _ => Raise InvalidOperation
  end.

(** [_safe_decimal(value)]: [None] gives zero; only ValueError and
    TypeError are caught, which the conversion never raises. *)
Definition _safe_decimal (value : json) : result Decimal :=
  match value with
  | JNull => Ok (Decimal_of_int 0)
  | _ => Decimal_of_json value
  end.

(** [int(d)]: truncation; NaN and the infinities cannot be converted. *)
Definition int_of_Decimal (d : Decimal) : result Z :=
  match d with
  | DNaN => Raise ValueError
  | DInfinity _ => Raise OverflowError
  | DFinite negative c e =>
      let magnitude :=
        if 0 <=? e then Z.of_N c * 10 ^ e else Z.of_N c / 10 ^ (- e) in
      Ok (if negative then - magnitude else magnitude)
  end.

(** [_extract_sales_price] *)
Definition _extract_sales_price (item : list (string * json)) : result Decimal :=
  let direct :=
    fix direct (fields : list string) : result Decimal :=
      match fields with
      | [] => Ok (Decimal_of_int 0)
      | field :: more =>
          if has_key item field && truthy (get item field)
          then _safe_decimal (get item field)
          else direct more
      end in
  match lookup_key "salePrice" item with
  | Some (JObj sale_price) =>
      if has_key sale_price "value" then _safe_decimal (get sale_price "value")
      else direct ["DefaultSalesUnitPrice"; "salesPrice"; "SalesPrice"]
  | _ => direct ["DefaultSalesUnitPrice"; "salesPrice"; "SalesPrice"]
  end.

(** *** The tables *)

Record Brand := {
  is_mitsubishi : bool;
  website : string;
  brand_is_active : bool
}.

Record ProductCategory := {
  category_name : string;
  category_is_active : bool
}.

(** A [Product] row.  [brand] and [category] are the foreign keys, by
    brand name and category code; [name], [description] and
    [mitsubishi_api_id] keep the value that the sync hands to the ORM. *)
Record Product := {
  sku : option string;
  name : json;
  brand : string;
  model : string;
  category : option string;
  description : json;
  price : option Decimal;
  stock_quantity : Z;
  is_active : bool;
  is_from_api : bool;
  mitsubishi_api_id : json
}.

(** Brands by their unique name, categories by their unique code,
    products in storage order. *)
Record DB := {
  brands : gmap string Brand;
  categories : gmap string ProductCategory;
  products : list Product
}.

Definition with_products (rows : list Product) (db : DB) : DB :=
  {| brands := brands db; categories := categories db; products := rows |}.

(** [Brand.objects.get_or_create(name=n, defaults=d)] *)
Definition get_or_create_brand (db : DB) (n : string) (defaults : Brand) : DB :=
  match brands db !! n with
  | Some _ => db
  | None => {| brands := <[n := defaults]> (brands db);
               categories := categories db; products := products db |}
  end.

(** [ProductCategory.objects.get_or_create(code=c, defaults={'name': n,
    'is_active': True})]: [name] is a unique column as well, so the
    insert fails when another code already carries the name. *)
Definition name_taken (db : DB) (n : string) : bool :=
  existsb (fun kv => String.eqb (category_name (snd kv)) n)
          (map_to_list (categories db)).

Definition get_or_create_category (db : DB) (c n : string) : result DB :=
  match categories db !! c with
  | Some _ => Ok db
  | None =>
      if name_taken db n then Raise IntegrityError
      else Ok {| brands := brands db;
                 categories :=
                   <[c := {| category_name := n; category_is_active := true |}]>
                     (categories db);
                 products := products db |}
  end.

(** *** Classification by item code *)

Definition mitsubishi_markers : list string := ["FX"; "MR"; "QY"; "QX"; "FR-"].

(** [any(prefix in item_code.upper() for prefix in [...])] *)
Definition looks_mitsubishi (item_code : string) : bool :=
  existsb (fun prefix => contains (upper item_code) prefix) mitsubishi_markers.

(** The branch of [_get_or_create_category]: category code and the name
    given to a new row. *)
Definition category_for (item_code : string) : string * string :=
  let code_upper := upper item_code in
  if startswith code_upper "FX" || startswith code_upper "Q" then
    ("PLC", "Programmable Logic Controllers")
  else if startswith code_upper "FR-" then
    ("VFD", "Variable Frequency Drives")
  else if startswith code_upper "MR-" || contains code_upper "SERVO" then
    ("SERVO", "Servo Systems")
  else if startswith code_upper "GOT" || contains code_upper "HMI" then
    ("HMI", "HMI & SCADA")
  else
    ("OTHER", "Other Products").

(** [_get_or_create_category] *)
Definition _get_or_create_category (db : DB) (item_code : string)
  : result (DB * string) :=
  let (c, n) := category_for item_code in
  let* db := get_or_create_category db c n in
  Ok (db, c).

(** *** [Product.objects.update_or_create(sku=..., defaults=...)] *)

Definition has_sku (code : string) (p : Product) : bool :=
  match sku p with Some s => String.eqb s code | None => false end.

(** [name] and [description] are NOT NULL columns. *)
Definition not_null_violation (p : Product) : bool :=
  match name p, description p with
  | JNull, _ | _, JNull => true
  | _, _ => false
  end.

Fixpoint replace_sku (code : string) (new : Product) (rows : list Product)
  : list Product :=
  match rows with
  | [] => []
  | p :: r => if has_sku code p then new :: r else p :: replace_sku code new r
  end.

(** The row with the sku takes the defaults, or a row is inserted;
    the flag tells which.  [Product.save] leaves a non-empty sku as it
    is. *)
Definition update_or_create (db : DB) (code : string) (defaults : Product)
  : result (DB * bool) :=
  if not_null_violation defaults then Raise IntegrityError
  else if existsb (has_sku code) (products db) then
    Ok (with_products (replace_sku code defaults (products db)) db, false)
  else
    Ok (with_products (products db ++ [defaults])%list db, true).

(** *** [sync_products] *)

Definition manager_brand : string := "Manager.io Import".
Definition mitsubishi_brand : string := "Mitsubishi Electric".

Inductive outcome : Type :=
| Created
| Updated
| Skipped.

(** The body of the [try] for one item: the tables as the statements
    executed so far leave them, and how the body ended. *)
Definition try_item (db : DB) (item : json) : DB * result outcome :=
  match item with
  | JObj d =>
      let manager_id := py_or (get d "id") (get d "Key") in
      let item_code := py_or (get d "ItemCode") (get_or d "Code" (JStr "")) in
      let item_name := py_or (get d "ItemName") (get_or d "Name" (JStr "")) in
      if negb (truthy manager_id) || negb (truthy item_code) then (db, Ok Skipped)
      else
        match item_code with
        | JStr code =>
            let brand :=
              if looks_mitsubishi code then mitsubishi_brand else manager_brand in
            match _safe_decimal (py_or (get d "qtyOnHand") (get_or d "qty" (JInt 0))) with
            | Raise e => (db, Raise e)
            | Ok quantity =>
                match _extract_sales_price d with
                | Raise e => (db, Raise e)
                | Ok sales_price =>
                    match _get_or_create_category db code with
                    | Raise e => (db, Raise e)
                    | Ok (db, category) =>
                        match int_of_Decimal quantity with
                        | Raise e => (db, Raise e)
                        | Ok stock =>
                            let product_data :=
                              {| sku := Some code;
                                 name := item_name;
                                 brand := brand;
                                 model := code;
                                 category := Some category;
                                 description := get_or d "Description" (JStr "");
                                 price := Some sales_price;
                                 stock_quantity := stock;
                                 is_active := true;
                                 is_from_api := true;
                                 mitsubishi_api_id := manager_id |} in
                            match update_or_create db code product_data with
                            | Raise e => (db, Raise e)
                            | Ok (db, created) =>
                                (db, Ok (if created then Created else Updated))
                            end
                        end
                    end
                end
            end
        | _ => (db, Raise AttributeError)
        end
  | _ => (db, Raise AttributeError)
  end.

Record counts := {
  created_count : Z;
  updated_count : Z
}.

(** The [except Exception] clause logs [item.get('ItemCode', 'Unknown')],
    which needs [item] to be a dict, and continues. *)
Definition handler (item : json) : result unit :=
  match item with
  | JObj _ => Ok tt
  | _ => Raise AttributeError
  end.

(** [for item in all_items: try: ... except Exception: ...; continue];
    the tables are returned as the loop leaves them, also when it is
    left by an exception. *)
Fixpoint sync_loop (db : DB) (n : counts) (items : list json)
  : DB * result counts :=
  match items with
  | [] => (db, Ok n)
  | item :: rest =>
      match try_item db item with
      | (db, Ok Created) =>
          sync_loop db {| created_count := created_count n + 1;
                          updated_count := updated_count n |} rest
      | (db, Ok Updated) =>
          sync_loop db {| created_count := created_count n;
                          updated_count := updated_count n + 1 |} rest
      | (db, Ok Skipped) => sync_loop db n rest
      | (db, Raise _) =>
          match handler item with
          | Ok _ => sync_loop db n rest
          | Raise e => (db, Raise e)
          end
      end
  end.

Record summary := {
  created : Z;
  updated : Z;
  total_items : option Z;
  message : option string
}.

(** The two [Brand.objects.get_or_create] calls at the start. *)
Definition with_import_brands (db : DB) : DB :=
  let db := get_or_create_brand db manager_brand
              {| is_mitsubishi := false; website := "";
                 brand_is_active := true |} in
  get_or_create_brand db mitsubishi_brand
    {| is_mitsubishi := true;
       website := "https://www.mitsubishielectric.com";
       brand_is_active := true |}.

Definition zero_counts : counts := {| created_count := 0; updated_count := 0 |}.

(** The dict returned after the loop. *)
Definition report (items : list json) (r : DB * result counts)
  : DB * result summary :=
  match r with
  | (db, Raise e) => (db, Raise e)
  | (db, Ok n) =>
      (db, Ok {| created := created_count n;
                 updated := updated_count n;
                 total_items := Some (Z.of_nat (List.length items));
                 message := None |})
  end.

(** [sync_products]: the two brands, the fetch, the loop, the report;
    an exception outside the per-item [try] is logged and raised
    again. *)
Definition sync_products (api : endpoint) (db : DB) : DB * result summary :=
  let db := with_import_brands db in
  match _fetch_all_inventory_items api with
  | Raise e => (db, Raise e)
  | Ok items =>
      match items with
      | [] => (db, Ok {| created := 0; updated := 0; total_items := None;
                         message := Some "No items found in Manager.io" |})
      | _ => report items (sync_loop db zero_counts items)
      end
  end.

(** The sku column is unique: no two rows carry the same sku. *)
Definition skus (db : DB) : list string :=
  omap sku (products db).

Definition rows_with_sku (db : DB) (code : string) : list Product :=
  List.filter (has_sku code) (products db).

End ManagerApi.

(* ===================================================================== *)
(** ** crm/validators.py *)
(* ===================================================================== *)

Module Validators.

(** [validate_positive_number] *)
Definition validate_positive_number (value : Z) : result unit :=
  if value <=? 0 then Raise (ValidationError "Value must be greater than zero.")
  else Ok tt.

(** [validate_percentage] *)
Definition validate_percentage (value : Z) : result unit :=
  if (value <? 0) || (100 <? value) then
    Raise (ValidationError "Percentage must be between 0 and 100.")
  else Ok tt.

Definition limit_mb : Z := 10.

(** [validate_file_size] *)
Definition validate_file_size (file : Forms.UploadedFile) : result unit :=
  let file_size := Forms.size file in
  if limit_mb * 1024 * 1024 <? file_size then
    Raise (ValidationError "File size cannot exceed 10MB.")
  else Ok tt.

Definition allowed_extensions : list string :=
  [".pdf"; ".doc"; ".docx"; ".xls"; ".xlsx"; ".png"; ".jpg"; ".jpeg"; ".txt"].

(** [validate_file_extension] *)
Definition validate_file_extension (file : Forms.UploadedFile) : result unit :=
  let file_name := lower (Forms.file_name file) in
  if negb (existsb (fun ext => endswith file_name ext) allowed_extensions) then
    Raise (ValidationError
             ("File type not allowed. Allowed types: "
              ++ Forms.join_comma allowed_extensions))
  else Ok tt.

End Validators.

(* ===================================================================== *)
(** ** crm/forms.py: [LeadForm] *)
(* ===================================================================== *)

Module LeadForms.

(** [LeadForm.clean_probability]: the cleaned value of the integer
    field, [None] when the field did not produce one. *)
Definition clean_probability (probability : option Z) : result (option Z) :=
  match probability with
  | Some p =>
      if (p <? 0) || (100 <? p) then
        Raise (ValidationError "Probability must be between 0 and 100")
      else Ok probability
  | None => Ok probability
  end.

End LeadForms.

(* ===================================================================== *)
(** ** crm/models.py: documents and lead items *)
(* ===================================================================== *)

Module Documents.

(** The attributes of a [Document] that [Document.save] reads or
    writes.  [file] is the field file: its name and size. *)
Record Document := {
  file : Forms.UploadedFile;
  file_name : string;
  file_type : string;
  file_size : Z
}.

(** [Document.save] up to its call of [super().save()]. *)
Definition Document_save_fields (self : Document) : Document :=
  if Forms.file_truthy (file self) then
    {| file := file self;
       file_name := Forms.file_name (file self);
       file_type := upper (last_item (split "." (Forms.file_name (file self))));
       file_size := Forms.size (file self) |}
  else self.

End Documents.

Module LeadItems.

(** The attributes of a [LeadProduct] that [LeadProduct.save] reads or
    writes: an integer column and two decimal columns that may be
    null. *)
Record LeadProduct := {
  quantity : Z;
  unit_price : option num;
  total_price : option num
}.

(** [LeadProduct.save] up to its call of [super().save()]. *)
Definition LeadProduct_save_fields (self : LeadProduct) : result LeadProduct :=
  if opt_truthy num_truthy (unit_price self) && negb (quantity self =? 0) then
    match unit_price self with
    | Some price =>
        let* total := mul price (PInt (quantity self)) in
        Ok {| quantity := quantity self;
              unit_price := unit_price self;
              total_price := Some total |}
    | None => Ok self
    end
  else Ok self.

End LeadItems.

(* ===================================================================== *)
(** ** crm/admin.py: the approval action *)
(* ===================================================================== *)

Module LeadAdmin.
Import Models LeadSignals.

(** [queryset.filter(requires_approval=True, approved_by__isnull=True)] *)
Definition awaiting_approval (l : Lead) : bool :=
  requires_approval l
  && match approved_by l with None => true | Some _ => false end.

(** [timezone.now()] as crm/admin.py evaluates it in [approve_leads]:
    the module binds the name [timezone] nowhere at its top level (it is
    imported inside two other functions only), so looking it up raises
    NameError. *)
Definition timezone_now : result datetime := Raise NameError.

(** The loop of [LeadAdmin.approve_leads] over the rows that the query
    returned: the approver is assigned on the instance, then the time
    is asked for, then the lead is saved.  An exception leaves the
    loop. *)
Fixpoint approve_each (db : DB) (user : N) (rows : list Lead) (count : Z)
  : result (DB * Z) :=
  match rows with
  | [] => Ok (db, count)
  | lead :: rest =>
      let lead := with_approved_by (Some user) lead in
      let* now := timezone_now in
      let lead := with_approved_at (Some (instant now)) lead in
      let* r := Lead_save db now lead in
      approve_each (fst r) user rest (count + 1)
  end.

(** [approve_leads]: the tables afterwards and the count reported. *)
Definition approve_leads (db : DB) (user : N) (queryset : list Lead)
  : result (DB * Z) :=
  approve_each db user (List.filter awaiting_approval queryset) 0.

End LeadAdmin.

(* ===================================================================== *)
(** ** crm/services/manager_api.py: the look-ups *)
(* ===================================================================== *)

Module ManagerQueries.
Import ManagerApi.

(** [(v or '').lower()]: only a string has the method. *)
Definition lowered (v : json) : result string :=
  match py_or v (JStr "") with
  | JStr s => Ok (lower s)
  | _ => Raise AttributeError
  end.

(** The test of [search_products] on one item. *)
Definition item_matches (query_lower : string) (item : json) : result bool :=
  match item with
  | JObj d =>
      let* item_code := lowered (get d "ItemCode") in
      let* item_name := lowered (get d "ItemName") in
      Ok (contains item_code query_lower || contains item_name query_lower)
  | _ => Raise AttributeError
  end.

(** The loop that collects [matching_items]. *)
Fixpoint matching_items (query_lower : string) (all_items : list json)
  : result (list json) :=
  match all_items with
  | [] => Ok []
  | item :: rest =>
      let* hit := item_matches query_lower item in
      let* more := matching_items query_lower rest in
      Ok (if hit then item :: more else more)
  end.

(** [search_products]: any exception is logged and gives the empty
    list. *)
Definition search_products (api : endpoint) (query : string) : list json :=
  match (let* all_items := _fetch_all_inventory_items api in
         matching_items (lower query) all_items) with
  | Ok matching => firstn 50 matching
  | Raise _ => []
  end.

(** The dict that [check_product_availability] returns, without its
    time stamp. *)
Record availability := {
  available : bool;
  quantity : Z
}.

(** [item.get('ItemCode') == sku] for a string [sku]. *)
Definition code_is (d : list (string * json)) (sku : string) : bool :=
  match get d "ItemCode" with
  | JStr s => String.eqb s sku
  | _ => false
  end.

(** The loop of [check_product_availability]. *)
Fixpoint availability_of (sku : string) (all_items : list json)
  : result availability :=
  match all_items with
  | [] => Ok {| available := false; quantity := 0 |}
  | item :: rest =>
      match item with
      | JObj d =>
          if code_is d sku then
            let* on_hand := _safe_decimal (get_or d "qtyOnHand" (JInt 0)) in
            let* n := int_of_Decimal on_hand in
            Ok {| available := true; quantity := n |}
          else availability_of sku rest
      | _ => Raise AttributeError
      end
  end.

(** [check_product_availability]: [None] after any exception. *)
Definition check_product_availability (api : endpoint) (sku : string)
  : option availability :=
  match (let* all_items := _fetch_all_inventory_items api in
         availability_of sku all_items) with
  | Ok a => Some a
  | Raise _ => None
  end.

End ManagerQueries.

(* ===================================================================== *)
(** ** crm/views.py: creating a contact, completing an activity *)
(* ===================================================================== *)

Module ContactViews.
Import Employment.

(** [ContactCreateView.form_valid].  [super().form_valid(form)] stores
    the contact under its new key [who]; when a company was chosen a
    history row is created for it, which sends [post_save].  The
    warning about similar contacts writes nothing. *)
Definition form_valid (db : DB) (today : Z) (who : N) (form_instance : Contact)
  : result DB :=
  let db := {| contacts := <[who := form_instance]> (contacts db);
               histories := histories db |} in
  match current_company form_instance with
  | Some company =>
      history_save db
        {| h_pk := None;
           row := {| contact_id := who;
                     company := company;
                     h_designation := designation form_instance;
                     start_date := Some today;
                     end_date := None;
                     is_current := true |};
           contact_cache := Some form_instance |}
  | None => Ok db
  end.

End ContactViews.

Module Activities.

(** crm/models.py: the attributes of an [Activity] that completing it
    reads or writes. *)
Record Activity := {
  status : string;
  assigned_to : option N;
  outcome : string;
  next_action : string;
  completed_at : option Z;
  completed_by : option N
}.

(** [Activity.mark_complete] up to its [self.save()]. *)
Definition mark_complete (now : Z) (user : N) (outcome' : string) (self : Activity)
  : Activity :=
  {| status := "completed";
     assigned_to := assigned_to self;
     outcome := if str_truthy outcome' then outcome' else outcome self;
     next_action := next_action self;
     completed_at := Some now;
     completed_by := Some user |}.

Definition with_next_action (v : string) (a : Activity) : Activity :=
  {| status := status a; assigned_to := assigned_to a; outcome := outcome a;
     next_action := v; completed_at := completed_at a;
     completed_by := completed_by a |}.

(** [activity.assigned_to != request.user]: [None] stands for no
    assignee on the left and for the anonymous user on the right, which
    equals no stored user. *)
Definition is_assignee (a : Activity) (request_user : option N) : bool :=
  match assigned_to a, request_user with
  | Some x, Some y => bool_decide (x = y)
  | _, _ => false
  end.

(** crm/views.py, [activity_complete]: the activity table, by key,
    after the request.  [Activity] has no [save] of its own, and no
    receiver runs ([Apps.signals_imported]). *)
Definition activity_complete (db : gmap N Activity) (now : Z)
    (request_user : option N) (is_superuser : bool)
    (method : LeadViews.http_method)
    (posted_outcome posted_next_action : option string) (pk : N)
  : result (gmap N Activity) :=
  match db !! pk with
  | None => Raise Http404
  | Some activity =>
      let is_superuser :=
        match request_user with Some _ => is_superuser | None => false end in
      if negb (is_assignee activity request_user) && negb is_superuser then Ok db
      else
        match method, request_user with
        | LeadViews.POST, Some user =>
            let outcome := default "" posted_outcome in
            let next_action := default "" posted_next_action in
            let activity := mark_complete now user outcome activity in
            let db := <[pk := activity]> db in
            if str_truthy next_action then
              Ok (<[pk := with_next_action next_action activity]> db)
            else Ok db
        | _, _ => Ok db
        end
  end.

End Activities.

(* ===================================================================== *)
(** * Properties *)
(* ===================================================================== *)

(** ** Leads: weighted value *)

Section WeightedValue.
Import Models LeadSignals.

(** 1000.00 and 500.00 as the form field and the column deliver them. *)
Definition d_1000_00 : Decimal := DFinite false 100000 (-2).

Definition january : datetime := {| year := 2024; month := 1; instant := 1704067200 |}.

(** A stored lead worth 1000.00 at probability 0. *)
Definition stored_lead : Lead :=
  {| pk := 1; lead_number := "LEAD-202401-0001"; status := None;
     estimated_value := Some (PDecimal d_1000_00); probability := 0;
     weighted_value := None; requires_approval := false;
     approved_by := None; approved_at := None; approval_notes := "";
     is_deleted := false |}.

Definition one_lead_db : DB := {| leads := [stored_lead]; statuses := ∅ |}.

(** The same lead after the lead form set its probability to 50. *)
Definition edited_lead : Lead :=
  {| pk := 1; lead_number := "LEAD-202401-0001"; status := None;
     estimated_value := Some (PDecimal d_1000_00); probability := 50;
     weighted_value := None; requires_approval := false;
     approved_by := None; approved_at := None; approval_notes := "";
     is_deleted := false |}.

(** A Decimal never multiplies with a float. *)
Lemma Decimal_times_float d f : mul (PDecimal d) (PFloat f) = Raise TypeError.
Proof. reflexivity. Qed.

(** With a Decimal value that is not zero and a probability that is not
    zero, the field block of [Lead.save] always raises: the product of
    the Decimal and the float [probability / 100] is a TypeError. *)
Lemma Lead_save_fields_Decimal_raises db today self d :
  estimated_value self = Some (PDecimal d) ->
  Decimal_is_zero d = false ->
  probability self <> 0 ->
  raised (Lead_save_fields db today self) = true.
Proof.
  intros He Hd Hp. unfold Lead_save_fields.
  set (numbered := if negb (str_truthy (lead_number self)) then _ else _).
  assert (Hnum : forall l, numbered = Ok l ->
                   estimated_value l = estimated_value self
                   /\ probability l = probability self).
  { subst numbered. intros l.
    destruct (negb (str_truthy (lead_number self))).
    - destruct (generate_lead_number db today); cbn; intros [= <-]; auto.
    - intros [= <-]; auto. }
  destruct numbered as [l|e]; [|reflexivity].
  destruct (Hnum l eq_refl) as [El Pl]. cbn [bind].
  rewrite El, Pl, He. cbn [opt_truthy num_truthy]. rewrite Hd.
  destruct (Z.eqb_spec (probability self) 0) as [|_]; [contradiction|].
  cbn [negb andb].
  destruct (int_truediv (probability self) 100); reflexivity.
Qed.

(** The product itself is computed when the value is held as an [int]:
    1000 * (50 / 100) is the float 500.0. *)
Example int_value_times_ratio :
  (let* ratio := int_truediv 50 100 in mul (PInt 1000) (PFloat ratio))
  = Ok (PFloat (S754_finite false 8796093022208000 (-44)))
  /\ float_of_int 500 = Ok (S754_finite false 8796093022208000 (-44)).
Proof. split; vm_compute; reflexivity. Qed.

(** C1 (evaluation at the failing inputs).  Saving the stored lead,
    whose value 1000.00 and probability 0 are both present, leaves
    [weighted_value] empty instead of storing 0; saving it with the
    probability set to 50 raises TypeError at [Decimal * float] and
    stores nothing. *)
Theorem C1_weighted_value_not_stored :
  (exists db' l',
      Lead_save one_lead_db january stored_lead = Ok (db', l')
      /\ estimated_value l' = Some (PDecimal d_1000_00)
      /\ probability l' = 0
      /\ weighted_value l' = None
      /\ leads db' = [l'])
  /\ Lead_save one_lead_db january edited_lead = Raise TypeError.
Proof.
  split.
  - exists one_lead_db, stored_lead. repeat split; reflexivity.
  - reflexivity.
Qed.

End WeightedValue.

(** ** Leads: numbering *)

Section LeadNumbers.
Import Models LeadSignals.

(** A lead of January 2024 with the given number: as [Lead.save] numbers
    the leads of that month. *)
Definition numbered_lead (n : Z) : Lead :=
  {| pk := Z.to_N n;
     lead_number := "LEAD-202401-" ++ format_0d 4 n;
     status := None; estimated_value := None; probability := 0;
     weighted_value := None; requires_approval := false;
     approved_by := None; approved_at := None; approval_notes := "";
     is_deleted := false |}.

(** The lead table after the first [k] leads of that month. *)
Definition month_table (k : nat) : DB :=
  {| leads := map (fun n => numbered_lead (Z.of_nat n)) (seq 1 k); statuses := ∅ |}.

(** A new lead, not numbered yet. *)
Definition fresh_lead (key : N) : Lead :=
  {| pk := key; lead_number := ""; status := None;
     estimated_value := None; probability := 0;
     weighted_value := None; requires_approval := false;
     approved_by := None; approved_at := None; approval_notes := "";
     is_deleted := false |}.

(** In an empty month the first number is 0001, and the numbers follow
    one another while they have four digits. *)
Example first_number :
  generate_lead_number (month_table 0) january = Ok "LEAD-202401-0001".
Proof. reflexivity. Qed.

Example number_after_41 :
  generate_lead_number (month_table 41) january = Ok "LEAD-202401-0042".
Proof. vm_compute. reflexivity. Qed.

Example number_after_9999 :
  generate_lead_number {| leads := [numbered_lead 9998; numbered_lead 9999];
                          statuses := ∅ |} january
  = Ok "LEAD-202401-10000".
Proof. vm_compute. reflexivity. Qed.

(** The column order is the order of strings: 9999 sorts above 10000. *)
Example order_of_9999_and_10000 :
  String.ltb "LEAD-202401-9999" "LEAD-202401-10000" = false
  /\ String.ltb "LEAD-202401-10000" "LEAD-202401-9999" = true.
Proof. split; reflexivity. Qed.

(** *** The first 9999 numbers of a month *)

(** Number [n] sorts below number [n + 1] and reads back as [n]. *)
Definition number_ok (n : Z) : bool :=
  String.ltb (lead_number (numbered_lead n)) (lead_number (numbered_lead (n + 1)))
  && match int_of_str (last_item (split "-" (lead_number (numbered_lead n)))) with
     | Ok v => v =? n
     | Raise _ => false
     end.

Fixpoint numbers_ok (count : nat) (from : Z) : bool :=
  match count with
  | O => true
  | S c => number_ok from && numbers_ok c (from + 1)
  end.

Lemma numbers_ok_spec count : forall from i,
  numbers_ok count from = true ->
  from <= i < from + Z.of_nat count ->
  number_ok i = true.
Proof.
  induction count as [|c IH]; intros from i H Hi; [lia|].
  cbn [numbers_ok] in H. apply andb_true_iff in H as [H0 H].
  destruct (Z.eq_dec i from) as [->|Hne]; [exact H0|].
  apply (IH (from + 1)); [exact H|lia].
Qed.

(** Checked by running the code on the numbers 1 to 9998. *)
Lemma numbers_1_to_9998_ok : numbers_ok 9998 1 = true.
Proof. vm_compute. reflexivity. Qed.

Lemma number_ok_upto n : 1 <= n <= 9998 -> number_ok n = true.
Proof.
  intros Hn. apply (numbers_ok_spec 9998 1); [exact numbers_1_to_9998_ok|].
  change (Z.of_nat 9998) with 9998. lia.
Qed.

Lemma month_table_succ k :
  leads (month_table (S k))
  = (leads (month_table k) ++ [numbered_lead (Z.of_nat (S k))])%list.
Proof. unfold month_table. cbn [leads]. by rewrite seq_S, map_app. Qed.

Lemma month_table_prefix k :
  List.filter (fun l => startswith (lead_number l) "LEAD-202401") (leads (month_table k))
  = leads (month_table k).
Proof.
  unfold month_table. cbn [leads].
  induction (seq 1 k) as [|n ns IH]; [done|].
  cbn [map List.filter]. rewrite IH. reflexivity.
Qed.

(** After [k] leads of the month the row that sorts first is number [k]. *)
Lemma greatest_of_month k :
  1 <= Z.of_nat k <= 9999 ->
  greatest_lead_number (leads (month_table k)) = Some (numbered_lead (Z.of_nat k)).
Proof.
  induction k as [|k IH]; [lia|]. intros Hk.
  destruct k as [|k]; [reflexivity|].
  rewrite month_table_succ. unfold greatest_lead_number in *.
  rewrite fold_left_app, IH by lia. cbn [fold_left].
  assert (Hok : number_ok (Z.of_nat (S k)) = true) by (apply number_ok_upto; lia).
  apply andb_true_iff in Hok as [Hlt _].
  replace (Z.of_nat (S (S k))) with (Z.of_nat (S k) + 1) by lia.
  by rewrite Hlt.
Qed.

(** While fewer than 9999 leads of the month are stored, the next lead
    gets the next number: after [k] leads it is number [k + 1], greater
    than the [k] numbers assigned before. *)
Lemma numbers_follow k :
  Z.of_nat k <= 9998 ->
  generate_lead_number (month_table k) january
  = Ok (lead_number (numbered_lead (Z.of_nat k + 1))).
Proof.
  intros Hk. unfold generate_lead_number, last_lead_with_prefix.
  change ("LEAD-" ++ strftime_Ym january) with "LEAD-202401".
  rewrite month_table_prefix.
  destruct k as [|k]; [reflexivity|].
  rewrite greatest_of_month by lia.
  assert (Hok : number_ok (Z.of_nat (S k)) = true) by (apply number_ok_upto; lia).
  apply andb_true_iff in Hok as [_ Hint].
  destruct (int_of_str _) as [v|]; [|discriminate].
  apply Z.eqb_eq in Hint as ->. reflexivity.
Qed.

(** *** Past 9999 *)

Lemma ltb_false_antisym a b :
  String.ltb a b = false -> String.ltb b a = false -> a = b.
Proof.
  unfold String.ltb. pose proof (String.compare_antisym a b) as H.
  destruct (String.compare a b) eqn:E; try discriminate.
  - intros _ _. by apply String.compare_eq_iff.
  - intros _. destruct (String.compare b a); cbn in H; discriminate.
Qed.

(** No row of [rows] sorts above [top]. *)
Definition none_above (top : string) (rows : list Lead) : Prop :=
  Forall (fun l => String.ltb top (lead_number l) = false) rows.

Definition step_greatest (best : option Lead) (l : Lead) : option Lead :=
  match best with
  | None => Some l
  | Some b => if String.ltb (lead_number b) (lead_number l) then Some l else Some b
  end.

(** The row that sorts first among rows none of which sorts above [top],
    when a row numbered [top] is among them or was met before. *)
Lemma greatest_lead_number_top top rows : forall best,
  none_above top rows ->
  (exists b, best = Some b /\ lead_number b = top)
  \/ ((best = None \/ exists b, best = Some b /\ String.ltb top (lead_number b) = false)
      /\ exists l, In l rows /\ lead_number l = top) ->
  exists b, fold_left step_greatest rows best = Some b /\ lead_number b = top.
Proof.
  induction rows as [|l rows IH]; intros best Hnone Hbest.
  - destruct Hbest as [H|(_ & l & [] & _)]. exact H.
  - apply Forall_cons in Hnone as [Hl Hnone]. cbn [fold_left].
    apply IH; [exact Hnone|].
    destruct Hbest as [(b & -> & Hb)|(Hb & l0 & Hin & Hl0)].
    + left. cbn [step_greatest]. rewrite Hb, Hl. by exists b.
    + destruct Hin as [<-|Hin].
      * left. destruct Hb as [->|(b & -> & Hb)]; cbn [step_greatest].
        -- by exists l.
        -- destruct (String.ltb (lead_number b) (lead_number l)) eqn:E.
           ++ by exists l.
           ++ exists b. split; [done|]. rewrite Hl0 in *.
              symmetry. by apply ltb_false_antisym.
      * right. split; [|by exists l0].
        right. destruct Hb as [->|(b & -> & Hb)]; cbn [step_greatest].
        -- by exists l.
        -- destruct (String.ltb (lead_number b) (lead_number l)); eauto.
Qed.

Lemma greatest_lead_number_fold rows :
  greatest_lead_number rows = fold_left step_greatest rows None.
Proof. reflexivity. Qed.

(** The leads of January 2024 in the table sort no higher than number
    9999. *)
Definition january_up_to_9999 (db : DB) : Prop :=
  Forall (fun l => startswith (lead_number l) "LEAD-202401" = true ->
                   String.ltb "LEAD-202401-9999" (lead_number l) = false)
         (leads db).

Lemma last_lead_is_9999 db :
  january_up_to_9999 db ->
  In (numbered_lead 9999) (leads db) ->
  exists b, last_lead_with_prefix db "LEAD-202401" = Some b
            /\ lead_number b = "LEAD-202401-9999".
Proof.
  intros Hup Hin. unfold last_lead_with_prefix.
  rewrite greatest_lead_number_fold.
  apply greatest_lead_number_top.
  - unfold january_up_to_9999 in Hup. unfold none_above.
    apply List.Forall_forall. intros l [Hl Hp]%filter_In.
    by apply (proj1 (List.Forall_forall _ _) Hup).
  - right. split; [by left|]. exists (numbered_lead 9999). split; [|reflexivity].
    apply filter_In. split; [exact Hin|reflexivity].
Qed.

(** C2 (evaluation at the failing input).  Take any lead table in which
    the leads LEAD-202401-9999 and LEAD-202401-10000 are stored and no
    lead of January 2024 sorts above LEAD-202401-9999, as it is once
    10000 leads were numbered in that month.  The row that sorts first is
    LEAD-202401-9999, so [Lead.save] gives the next lead of the month the
    number LEAD-202401-10000 again: not a number greater than every
    number assigned before but the number of a stored lead, and the
    write is refused by the unique column. *)
Theorem C2_lead_number_repeats db key :
  january_up_to_9999 db ->
  In (numbered_lead 9999) (leads db) ->
  In (numbered_lead 10000) (leads db) ->
  key <> pk (numbered_lead 10000) ->
  exists l',
    Lead_save_fields db january (fresh_lead key) = Ok l'
    /\ lead_number l' = lead_number (numbered_lead 10000)
    /\ write_lead db l' = Raise IntegrityError.
Proof.
  intros Hup H9999 H10000 Hkey.
  destruct (last_lead_is_9999 db Hup H9999) as (b & Hb & Hnum).
  exists (with_lead_number "LEAD-202401-10000" (fresh_lead key)).
  assert (Hgen : generate_lead_number db january = Ok "LEAD-202401-10000").
  { unfold generate_lead_number.
    change ("LEAD-" ++ strftime_Ym january) with "LEAD-202401".
    rewrite Hb, Hnum. reflexivity. }
  split; [|split].
  - unfold Lead_save_fields. cbn [fresh_lead lead_number str_truthy negb].
    rewrite Hgen. reflexivity.
  - reflexivity.
  - unfold write_lead.
    assert (Hv : unique_violation db
                   (with_lead_number "LEAD-202401-10000" (fresh_lead key)) = true).
    { unfold unique_violation. apply existsb_exists.
      exists (numbered_lead 10000). split; [exact H10000|].
      cbn [with_lead_number fresh_lead pk lead_number].
      apply andb_true_iff. split; [|reflexivity].
      apply negb_true_iff, N.eqb_neq. congruence. }
    by rewrite Hv.
Qed.

(** The theorem on a small table of that shape. *)
Definition late_january : DB :=
  {| leads := [numbered_lead 1; numbered_lead 2; numbered_lead 9999;
               numbered_lead 10000;
               with_lead_number "LEAD-202402-0001" (fresh_lead 20001)];
     statuses := ∅ |}.

Lemma C2_lead_number_repeats_witness :
  january_up_to_9999 late_january
  /\ In (numbered_lead 9999) (leads late_january)
  /\ In (numbered_lead 10000) (leads late_january)
  /\ 10001%N <> pk (numbered_lead 10000)
  /\ exists l',
       Lead_save_fields late_january january (fresh_lead 10001) = Ok l'
       /\ lead_number l' = lead_number (numbered_lead 10000)
       /\ write_lead late_january l' = Raise IntegrityError.
Proof.
  assert (H1 : january_up_to_9999 late_january).
  { repeat constructor; intros H; solve [reflexivity | discriminate H]. }
  assert (H2 : In (numbered_lead 9999) (leads late_january)) by (cbn; tauto).
  assert (H3 : In (numbered_lead 10000) (leads late_january)) by (cbn; tauto).
  assert (H4 : 10001%N <> pk (numbered_lead 10000)) by discriminate.
  split; [exact H1|]. split; [exact H2|]. split; [exact H3|]. split; [exact H4|].
  exact (C2_lead_number_repeats late_january 10001%N H1 H2 H3 H4).
Defined.

End LeadNumbers.

(** ** Leads: approval *)

Section Approval.
Import Models LeadSignals LeadViews.

(** The approval recorded on a lead. *)
Definition approval (l : Lead) : option N * option Z * string :=
  (approved_by l, approved_at l, approval_notes l).

Definition approval_satisfied (l : Lead) : Prop :=
  approved_by l <> None /\ approved_at l <> None.

(** The second half of the claim as the specification words it: once
    the approval of a stored lead is satisfied, a later save of the
    lead leaves the three attributes of the stored lead as they
    were. *)
Definition approval_is_immutable : Prop :=
  forall db today l old db' l',
    get_lead db (pk l) = Ok old ->
    approval_satisfied old ->
    Lead_save db today l = Ok (db', l') ->
    exists stored,
      get_lead db' (pk l) = Ok stored /\ approval stored = approval old.

(** Two statuses; the second one asks for approval. *)
Definition two_statuses : gmap positive LeadStatus :=
  {[ 1%positive := {| status_name := "Qualified"; status_requires_approval := false |};
     2%positive := {| status_name := "Negotiation"; status_requires_approval := true |} ]}.

(** A stored lead, approved by user 7. *)
Definition approved_lead : Lead :=
  {| pk := 1; lead_number := "LEAD-202401-0001"; status := Some 1%positive;
     estimated_value := None; probability := 0; weighted_value := None;
     requires_approval := false;
     approved_by := Some 7%N; approved_at := Some 1704067200;
     approval_notes := "ok"; is_deleted := false |}.

Definition approval_db : DB :=
  {| leads := [approved_lead]; statuses := two_statuses |}.

(** The instance that [lead_approve_view] saves when user 9 posts the
    notes "again" for that lead: the stored lead with the three
    attributes assigned anew. *)
Definition approved_again : Lead :=
  with_approval_notes "again"
    (with_approved_at (Some (instant january))
       (with_approved_by (Some 9%N) approved_lead)).

Lemma approved_again_save :
  Lead_save approval_db january approved_again
  = Ok ({| leads := [approved_again]; statuses := two_statuses |}, approved_again).
Proof. reflexivity. Qed.

(** C4 (counterexample).  The save that [lead_approve_view] performs on
    a second POST for an approved lead stores another approver, time
    and notes: nothing guards an approval that has been given. *)
Lemma C4_later_approval_overwrites : ~ approval_is_immutable.
Proof.
  intros H.
  assert (Hold : get_lead approval_db (pk approved_again) = Ok approved_lead)
    by reflexivity.
  assert (Hs : approval_satisfied approved_lead) by (split; discriminate).
  destruct (H _ _ _ _ _ _ Hold Hs approved_again_save) as (stored & Hget & Hap).
  injection Hget as <-. discriminate Hap.
Qed.

(** [lead_approve_view] reaches that save: a second POST on an approved
    lead replaces approver, time and notes. *)
Example second_approval_overwrites :
  exists db' l',
    lead_approve_view approval_db january 9%N true POST (Some "again") 1%N = Ok db'
    /\ get_lead db' 1%N = Ok l'
    /\ approval l' = (Some 9%N, Some (instant january), "again").
Proof. eexists _, _. repeat split; reflexivity. Qed.

Ltac step_in H :=
  match type of H with
  | context [bind ?m _] =>
      lazymatch m with
      | bind _ _ => fail
      | match _ with _ => _ end => fail
      | Ok _ => fail
      | Raise _ => fail
      | _ => destruct m eqn:?
      end
  | context [match ?x with _ => _ end] => destruct x eqn:?
  end;
  cbn [bind pk lead_number status estimated_value probability weighted_value
       requires_approval approved_by approved_at approval_notes is_deleted
       with_lead_number with_weighted_value with_requires_approval
       with_approved_by with_approved_at with_approval_notes] in H;
  try discriminate H.

(** The field block of [Lead.save] keeps key, status and approval, and
    raises the flag for a status that requires approval. *)
Lemma Lead_save_fields_approval db today l l' :
  Lead_save_fields db today l = Ok l' ->
  pk l' = pk l /\ status l' = status l /\ approval l' = approval l
  /\ (forall s, related_status db l = Ok (Some s) ->
                status_requires_approval s = true -> requires_approval l' = true)
  /\ (requires_approval l = true -> requires_approval l' = true).
Proof.
  unfold Lead_save_fields, related_status, approval. intros H.
  repeat step_in H.
  all: injection H as <-.
  all: cbn; repeat split; try done.
  all: intros s [= <-] Hs; congruence.
Qed.

Lemma related_status_ext db l1 l2 :
  status l1 = status l2 -> related_status db l1 = related_status db l2.
Proof. unfold related_status. by intros ->. Qed.

(** The row written for an instance is the row read back under its
    key. *)
Lemma write_lead_read_back db l db' :
  write_lead db l = Ok db' -> get_lead db' (pk l) = Ok l.
Proof.
  unfold get_lead, write_lead.
  destruct (unique_violation db l); [discriminate|].
  destruct (existsb (fun r => (pk r =? pk l)%N) (leads db)) eqn:Hex;
    intros [= <-]; cbn [leads with_leads].
  - induction (leads db) as [|r rows IH]; [discriminate|].
    cbn [map find existsb] in *.
    destruct (N.eqb_spec (pk r) (pk l)) as [E|E].
    + by rewrite N.eqb_refl.
    + cbn [orb] in Hex. apply N.eqb_neq in E. rewrite E. auto.
  - induction (leads db) as [|r rows IH]; cbn [app find existsb] in *.
    + by rewrite N.eqb_refl.
    + apply orb_false_elim in Hex as [Hr Hrows]. rewrite Hr. auto.
Qed.

Lemma write_lead_stored db l old db' :
  get_lead db (pk l) = Ok old ->
  write_lead db l = Ok db' ->
  get_lead db' (pk l) = Ok l.
Proof. intros _. apply write_lead_read_back. Qed.

(** [Lead.save] as configured: the field block, then the write. *)
Lemma Lead_save_inv db today l db' l' :
  Lead_save db today l = Ok (db', l') ->
  Lead_save_fields db today l = Ok l' /\ write_lead db l' = Ok db'.
Proof.
  unfold Lead_save, Lead_save_when, Apps.signals_imported, send_pre_save.
  destruct (Lead_save_fields db today l) as [l1|]; [|discriminate].
  cbn [bind]. destruct (write_lead db l1) as [db1|] eqn:Hw; [|discriminate].
  cbn [bind]. intros [= <- <-]. by split.
Qed.

(** C4 (amended).  On every save of a lead that succeeds: the flag
    [requires_approval] is set when the status being saved requires
    approval, and a flag that is set stays set; [approved_by],
    [approved_at] and [approval_notes] are stored as the instance being
    saved carries them, and the row stored under the key is that
    instance. *)
Theorem C4_approval_on_save db today l db' l' :
  Lead_save db today l = Ok (db', l') ->
  (forall s, related_status db l = Ok (Some s) ->
             status_requires_approval s = true -> requires_approval l' = true)
  /\ (requires_approval l = true -> requires_approval l' = true)
  /\ approval l' = approval l
  /\ get_lead db' (pk l) = Ok l'.
Proof.
  intros H. apply Lead_save_inv in H as [Hf Hw].
  apply Lead_save_fields_approval in Hf as (Hpk & _ & Hap & Hreq & Hkeep).
  repeat split; try done.
  rewrite <- Hpk. by apply write_lead_read_back with (db := db).
Qed.

(** The approved lead with its status moved to the second one, and what
    a save stores for it. *)
Definition moved_lead : Lead :=
  {| pk := 1; lead_number := "LEAD-202401-0001"; status := Some 2%positive;
     estimated_value := None; probability := 0; weighted_value := None;
     requires_approval := false;
     approved_by := Some 7%N; approved_at := Some 1704067200;
     approval_notes := "ok"; is_deleted := false |}.

Definition moved_lead_stored : Lead := with_requires_approval true moved_lead.

Lemma moved_lead_save :
  Lead_save approval_db january moved_lead
  = Ok ({| leads := [moved_lead_stored]; statuses := two_statuses |},
        moved_lead_stored).
Proof. reflexivity. Qed.

Lemma C4_approval_on_save_witness :
  Lead_save approval_db january moved_lead
  = Ok ({| leads := [moved_lead_stored]; statuses := two_statuses |},
        moved_lead_stored)
  /\ requires_approval moved_lead_stored = true
  /\ approval moved_lead_stored = (Some 7%N, Some 1704067200, "ok")
  /\ get_lead {| leads := [moved_lead_stored]; statuses := two_statuses |} 1%N
     = Ok moved_lead_stored.
Proof.
  split; [exact moved_lead_save|].
  destruct (C4_approval_on_save approval_db january moved_lead _ moved_lead_stored
              moved_lead_save) as (Hflag & _ & Hap & Hget).
  split; [|split; [exact Hap|exact Hget]].
  apply (Hflag {| status_name := "Negotiation"; status_requires_approval := true |});
    reflexivity.
Defined.

(** *** The receiver, were it connected *)

(** [lead_pre_save] resets the approval in one case: the status differs
    from the stored one, the new status requires approval and the
    stored lead has an approver. *)
Definition resets_approval (db : DB) (l old : Lead) : bool :=
  negb (bool_decide (status l = status old))
  && match related_status db l with
     | Ok (Some s) => status_requires_approval s
     | _ => false
     end
  && opt_truthy (fun _ => true) (approved_by old).

(** What [lead_pre_save] does to an instance whose row is [old]. *)
Lemma lead_pre_save_approval db l old l' :
  get_lead db (pk l) = Ok old ->
  lead_pre_save db l = Ok l' ->
  approval_notes l' = approval_notes l
  /\ (requires_approval l = true -> requires_approval l' = true)
  /\ (if resets_approval db l old
      then approved_by l' = None /\ approved_at l' = None
      else approved_by l' = approved_by l /\ approved_at l' = approved_at l).
Proof.
  unfold lead_pre_save, resets_approval. intros -> H. cbn [bind] in H.
  destruct (related_status db l) as [[s|]|]; cbn [bind] in H; try discriminate H.
  - destruct (bool_decide (status l = status old)); cbn [negb andb] in *.
    + by injection H as <-.
    + destruct (status_requires_approval s); cbn [andb] in *.
      * destruct (approved_by old); cbn [opt_truthy] in *; by injection H as <-.
      * by injection H as <-.
  - injection H as <-. by rewrite andb_false_r.
Qed.

(** With crm/signals.py imported the same save would clear approver and
    time, as the comment in [lead_pre_save] says ("Reset approval if
    status changed"); as configured it does not. *)
Definition moved_lead_reset : Lead :=
  with_approved_at None (with_approved_by None moved_lead_stored).

Example moved_lead_save_with_receiver :
  Lead_save_when true approval_db january moved_lead
  = Ok ({| leads := [moved_lead_reset]; statuses := two_statuses |},
        moved_lead_reset).
Proof. reflexivity. Qed.

End Approval.


(** ** Employment history *)

Section EmploymentHistory.
Import Employment.

Implicit Types (db : DB) (c : N) (i : Instance).

(** *** The application as it is configured *)

(** No receiver runs: the save of a history row writes that row and
    nothing else. *)
Lemma history_save_writes_the_row db i db' :
  history_save db i = Ok db' ->
  contacts db' = contacts db
  /\ histories db' = <[instance_key db i := row i]> (histories db).
Proof.
  unfold history_save, history_save_when, Apps.signals_imported, send_post_save.
  destruct (contacts db !! contact_id (row i)); [|discriminate].
  by intros [= <-].
Qed.

(** A contact without history yet. *)
Definition someone : Contact :=
  {| name := "A. Rahman"; phone := "+8801712345678"; email := "";
     designation := None; current_company := None |}.

Definition one_contact : DB :=
  {| contacts := {[ 1%N := someone ]}; histories := ∅ |}.

(** A new history row of that contact, flagged current. *)
Definition hired (company : N) (desig : option N) : Instance :=
  {| h_pk := None;
     row := {| contact_id := 1; company := company; h_designation := desig;
               start_date := Some 19723; end_date := None; is_current := true |};
     contact_cache := None |}.

(** Two such rows saved one after the other, as through the history
    inline of the contact admin. *)
Definition hired_twice : DB :=
  step (step one_contact (SaveHistory (hired 10 None)))
       (SaveHistory (hired 20 (Some 3%N))).

(** One such row saved, then the company of the contact changed through
    the contact-update view. *)
Definition hired_then_moved : DB :=
  step (step one_contact (SaveHistory (hired 10 None)))
       (UpdateContact 19800 ["current_company"] 1
          (with_employment (Some 20%N) (Some 3%N) someone)).

Definition opened (company : N) (desig : option N) (today : Z) : History :=
  {| contact_id := 1; company := company; h_designation := desig;
     start_date := Some today; end_date := None; is_current := true |}.

Example hired_twice_rows :
  histories hired_twice !! 1%positive = Some (opened 10 None 19723)
  /\ histories hired_twice !! 2%positive = Some (opened 20 (Some 3%N) 19723).
Proof. split; vm_compute; reflexivity. Qed.

Example hired_then_moved_rows :
  histories hired_then_moved !! 1%positive = Some (opened 10 None 19723)
  /\ histories hired_then_moved !! 2%positive = Some (opened 20 (Some 3%N) 19800).
Proof. split; vm_compute; reflexivity. Qed.

Lemma two_current_rows db r1 r2 :
  histories db !! 1%positive = Some r1 ->
  histories db !! 2%positive = Some r2 ->
  contact_id r1 = 1%N -> contact_id r2 = 1%N ->
  is_current r1 = true -> is_current r2 = true ->
  ~ at_most_one_current db 1.
Proof.
  intros H1 H2 C1 C2 A1 A2 Inv.
  specialize (Inv _ _ _ _ H1 H2 C1 C2 A1 A2). discriminate Inv.
Qed.

(** C3 (the code at the failing inputs).  Two history rows saved as
    current for one contact are both current afterwards; and so are the
    row saved as current and the row that the contact-update view opens
    for the next company, because the save of the first row did not
    give the contact its company and the view therefore sees no
    employment to end. *)
Theorem C3_two_current_rows :
  (histories hired_twice !! 1%positive = Some (opened 10 None 19723)
   /\ histories hired_twice !! 2%positive = Some (opened 20 (Some 3%N) 19723)
   /\ ~ at_most_one_current hired_twice 1)
  /\ (histories hired_then_moved !! 1%positive = Some (opened 10 None 19723)
      /\ histories hired_then_moved !! 2%positive = Some (opened 20 (Some 3%N) 19800)
      /\ ~ at_most_one_current hired_then_moved 1).
Proof.
  destruct hired_twice_rows as [T1 T2]. destruct hired_then_moved_rows as [M1 M2].
  split; (split; [|split]); try assumption.
  - by apply (two_current_rows _ _ _ T1 T2).
  - by apply (two_current_rows _ _ _ M1 M2).
Qed.

(** C10 (the code at the failing input).  Saving a history row flagged
    current, with company 20 and designation 3, for a stored contact
    that has neither, stores the row and leaves the contact without
    company and designation. *)
Theorem C10_contact_left_as_it_was :
  exists db',
    history_save one_contact (hired 20 (Some 3%N)) = Ok db'
    /\ histories db' !! 1%positive = Some (opened 20 (Some 3%N) 19723)
    /\ contacts db' !! 1%N = Some someone
    /\ current_company someone = None
    /\ designation someone = None.
Proof.
  destruct (history_save one_contact (hired 20 (Some 3%N))) as [db'|] eqn:H;
    [|discriminate H].
  exists db'. split; [reflexivity|].
  apply history_save_writes_the_row in H as [Hc Hh].
  rewrite Hc, Hh. repeat split; vm_compute; reflexivity.
Qed.

(** The contact of [one_contact] employed by company 10, as
    [ContactCreateView.form_valid] stores a new contact with a
    company: contact and history agree. *)
Definition employed : DB :=
  {| contacts := {[ 1%N := with_employment (Some 10%N) None someone ]};
     histories := {[ 1%positive := opened 10 None 19723 ]} |}.

Example employed_by_the_create_view :
  ContactViews.form_valid empty_db 19723 1 (with_employment (Some 10%N) None someone)
  = Ok employed.
Proof. vm_compute. reflexivity. Qed.

(** From there a company change through the contact-update view ends
    the one employment and opens the next. *)
Example company_change_through_the_view :
  exists db',
    form_valid employed 19800 ["current_company"] 1
      {| name := "A. Rahman"; phone := "+8801712345678"; email := "";
         designation := Some 3%N; current_company := Some 20%N |} = Ok db'
    /\ current_keys db' 1 = [2%positive]
    /\ (current_company <$> contacts db' !! 1%N) = Some (Some 20%N)
    /\ (end_date <$> histories db' !! 1%positive) = Some (Some 19800).
Proof. eexists. split; [vm_compute; reflexivity|]. repeat split; vm_compute; reflexivity. Qed.

(** *** The receiver, were it connected *)

Lemma empty_at_most_one c : at_most_one_current empty_db c.
Proof. intros j1 j2 r1 r2 H. cbn [histories empty_db] in H. by rewrite lookup_empty in H. Qed.

(** The receiver leaves a row current only if it is the saved row or
    belongs to another contact. *)
Lemma post_save_lookup db k i db' j r :
  contact_company_history_post_save db k i = Ok db' ->
  histories db' !! j = Some r ->
  exists r0, histories db !! j = Some r0
             /\ contact_id r = contact_id r0
             /\ (is_current r = true -> is_current r0 = true)
             /\ (is_current (row i) = true -> is_current r = true ->
                 contact_id r = contact_id (row i) -> j = k).
Proof.
  unfold contact_company_history_post_save.
  destruct (is_current (row i)) eqn:Hcur.
  - destruct (related_contact db i); [|discriminate]. cbn [bind].
    intros [= <-]. cbn [histories]. rewrite map_lookup_imap.
    destruct (histories db !! j) as [r0|]; [|discriminate]. cbn.
    intros [= <-]. exists r0. split; [done|].
    destruct (bool_decide_reflect (contact_id r0 = contact_id (row i))) as [E|E];
      destruct (bool_decide_reflect (j = k)) as [E'|E']; cbn [andb negb];
      repeat split; try done; try (intros; congruence).
  - intros [= <-] Hj. exists r. repeat split; try done.
Qed.

(** With the receiver, saving a history row keeps "at most one current
    row" for every contact. *)
Lemma connected_history_save_at_most_one db i db' c :
  at_most_one_current db c ->
  history_save_when true db i = Ok db' ->
  at_most_one_current db' c.
Proof.
  unfold history_save_when, send_post_save. intros Inv.
  destruct (contacts db !! contact_id (row i)); [|discriminate].
  set (k := instance_key db i).
  set (db1 := {| contacts := contacts db;
                 histories := <[k := row i]> (histories db) |}).
  intros Hpost j1 j2 r1 r2 H1 H2 C1 C2 A1 A2.
  destruct (post_save_lookup _ _ _ _ _ _ Hpost H1) as (s1 & L1 & E1 & K1 & U1).
  destruct (post_save_lookup _ _ _ _ _ _ Hpost H2) as (s2 & L2 & E2 & K2 & U2).
  cbn [histories db1] in L1, L2.
  destruct (is_current (row i)) eqn:Hcur.
  - (* the saved row is current *)
    destruct (decide (c = contact_id (row i))) as [->|Hc].
    + rewrite (U1 eq_refl A1 C1), (U2 eq_refl A2 C2). done.
    + assert (j1 <> k) by (intros ->; rewrite lookup_insert_eq in L1; congruence).
      assert (j2 <> k) by (intros ->; rewrite lookup_insert_eq in L2; congruence).
      rewrite lookup_insert_ne in L1, L2 by done.
      apply (Inv j1 j2 s1 s2); auto; congruence.
  - (* the saved row is not current *)
    assert (j1 <> k).
    { intros ->. rewrite lookup_insert_eq in L1. injection L1 as <-.
      rewrite (K1 A1) in Hcur. discriminate. }
    assert (j2 <> k).
    { intros ->. rewrite lookup_insert_eq in L2. injection L2 as <-.
      rewrite (K2 A2) in Hcur. discriminate. }
    rewrite lookup_insert_ne in L1, L2 by done.
    apply (Inv j1 j2 s1 s2); auto; congruence.
Qed.

(** Ending an employment only clears flags. *)
Lemma end_current_employment_at_most_one db today who oc c :
  at_most_one_current db c ->
  at_most_one_current
    {| contacts := contacts db;
       histories := end_current_employment today who oc (histories db) |} c.
Proof.
  intros Inv j1 j2 r1 r2. cbn [histories]. unfold end_current_employment.
  rewrite !lookup_fmap.
  destruct (histories db !! j1) as [s1|] eqn:L1; [|discriminate].
  destruct (histories db !! j2) as [s2|] eqn:L2; [|discriminate].
  cbn. intros [= <-] [= <-].
  destruct (_ && _ && is_current s1); [by intros _ _ ?|].
  destruct (_ && _ && is_current s2); [by intros _ _ _ ?|].
  intros. by apply (Inv j1 j2 s1 s2).
Qed.

Lemma contacts_write_at_most_one db cs c :
  at_most_one_current db c ->
  at_most_one_current {| contacts := cs; histories := histories db |} c.
Proof. done. Qed.

Lemma connected_form_valid_at_most_one db today changed who f db' c :
  at_most_one_current db c ->
  form_valid_when true db today changed who f = Ok db' ->
  at_most_one_current db' c.
Proof.
  unfold form_valid_when. intros Inv H.
  destruct (existsb _ changed); cbn [bind] in H.
  - destruct (contacts db !! who) as [stored|]; [|discriminate]. cbn [bind] in H.
    destruct (negb _); cbn [bind] in H.
    + set (db1 := match current_company stored with
                  | Some oc => _
                  | None => db
                  end) in H.
      assert (Inv1 : at_most_one_current db1 c).
      { subst db1. destruct (current_company stored); [|done].
        by apply end_current_employment_at_most_one. }
      clearbody db1.
      destruct (current_company f).
      * destruct (history_save_when true db1 _) as [db2|] eqn:Hs; [|discriminate].
        cbn [bind] in H. injection H as <-.
        apply contacts_write_at_most_one.
        by eapply connected_history_save_at_most_one.
      * cbn [bind] in H. injection H as <-. by apply contacts_write_at_most_one.
    + injection H as <-. by apply contacts_write_at_most_one.
  - injection H as <-. by apply contacts_write_at_most_one.
Qed.

(** With crm/signals.py imported, every create or update of a history
    row would keep, for every contact, at most one row flagged current:
    the receiver does what the claim asks for. *)
Lemma connected_writes_keep_at_most_one ops c :
  at_most_one_current (run_when true ops empty_db) c.
Proof.
  unfold run_when. generalize (empty_at_most_one c). generalize empty_db.
  induction ops as [|o ops IH]; intros db Inv; cbn [fold_left]; [done|].
  apply IH. unfold step_when.
  destruct (perform_when true db o) as [db'|] eqn:H; [|done].
  destruct o; cbn [perform_when] in H;
    eauto using connected_history_save_at_most_one,
                connected_form_valid_at_most_one.
Qed.

(** With it, the save of a current row would also give the contact the
    company and the designation of the row. *)
Lemma connected_save_updates_contact db i :
  is_current (row i) = true ->
  is_Some (contacts db !! contact_id (row i)) ->
  exists db' contact,
    history_save_when true db i = Ok db'
    /\ contacts db' !! contact_id (row i) = Some contact
    /\ current_company contact = Some (company (row i))
    /\ designation contact = h_designation (row i).
Proof.
  intros Hcur [c0 Hc0]. unfold history_save_when, send_post_save. rewrite Hc0.
  unfold contact_company_history_post_save. rewrite Hcur.
  unfold related_contact. cbn [contacts].
  destruct (contact_cache i) as [cached|]; [|rewrite Hc0]; cbn [bind];
    eexists _, _; (split; [reflexivity|]); cbn [contacts];
    rewrite lookup_insert_eq; done.
Qed.

Example hired_twice_with_receiver :
  current_keys
    (run_when true [SaveHistory (hired 10 None); SaveHistory (hired 20 (Some 3%N))]
       one_contact) 1
  = [2%positive].
Proof. vm_compute. reflexivity. Qed.

End EmploymentHistory.


(** ** Forms *)

Section ContactFormRules.
Import Forms.

(** A non-empty phone stays non-empty through [clean_phone]. *)
Lemma clean_phone_truthy v : str_truthy v = true -> str_truthy (clean_phone v) = true.
Proof.
  unfold clean_phone. intros ->.
  destruct (startswith _ "+") eqn:E; cbn [negb]; [|reflexivity].
  destruct (remove_char "-" (remove_char " " v)); [discriminate E|reflexivity].
Qed.

Lemma CharField_clean_blank required n raw :
  strip raw = "" ->
  CharField_clean required n raw
  = if required then Raise (ValidationError "This field is required.") else Ok "".
Proof. unfold CharField_clean. intros ->. reflexivity. Qed.

Lemma CharField_clean_truthy required n raw v :
  CharField_clean required n raw = Ok v -> required = true -> str_truthy v = true.
Proof.
  unfold CharField_clean. intros H ->.
  destruct (str_truthy (strip raw)) eqn:E; cbn [negb] in H; [|discriminate H].
  destruct (_ <? _)%nat; [discriminate H|].
  destruct (contains _ _); [discriminate H|]. by injection H as <-.
Qed.

(** The cross-field rule of [ContactForm.clean]: it raises exactly when
    the cleaned data hold neither a phone nor an email. *)
Lemma ContactForm_clean_raises data :
  raised (ContactForm_clean data) = true
  <-> opt_truthy str_truthy (cleaned_phone data) = false
      /\ opt_truthy str_truthy (cleaned_email data) = false.
Proof.
  unfold ContactForm_clean.
  destruct (opt_truthy str_truthy (cleaned_phone data));
    destruct (opt_truthy str_truthy (cleaned_email data)); cbn; intuition congruence.
Qed.

(** The claim as worded: rejected exactly when both fields are empty. *)
Definition rejected_iff_both_empty : Prop :=
  forall s, is_valid s = false <-> (posted_phone s = "" /\ posted_email s = "").

(** A submission with an email address and no phone. *)
Definition email_only : Submission :=
  {| posted_phone := ""; posted_email := "rahim@example.com";
     email_validator_accepts := true; other_fields_pass := true |}.

Example email_only_errors :
  fst (full_clean email_only) = [(Some "phone", "This field is required.")].
Proof. reflexivity. Qed.

(** C8 (counterexample).  The form refuses a submission that has an
    email address and no phone: [phone] is a required field. *)
Lemma C8_email_without_phone_rejected : ~ rejected_iff_both_empty.
Proof.
  intros H. destruct (H email_only) as [H1 _].
  destruct (H1 eq_refl) as [_ E]. discriminate E.
Qed.

(** A blank phone field alone makes the form invalid. *)
Lemma phone_is_required s : strip (posted_phone s) = "" -> is_valid s = false.
Proof.
  intros Hp. unfold is_valid, full_clean, phone_field.
  rewrite (CharField_clean_blank true 20 _ Hp). reflexivity.
Qed.

(** C8 (amended).  A submission whose phone field is empty (or blank) is
    rejected, [phone] being required; when the email field is empty as
    well, the error of the cross-field rule is among its errors.  The
    cross-field rule itself fires exactly when the cleaned data hold
    neither a phone nor an email.  An accepted submission yields a
    cleaned phone or a cleaned email that is not empty. *)
Theorem C8_contact_needs_phone_or_email s :
  (strip (posted_phone s) = "" ->
   is_valid s = false
   /\ (strip (posted_email s) = "" -> In cross_field_error (fst (full_clean s))))
  /\ (raised (ContactForm_clean (snd (full_clean s))) = true
      <-> opt_truthy str_truthy (cleaned_phone (snd (full_clean s))) = false
          /\ opt_truthy str_truthy (cleaned_email (snd (full_clean s))) = false)
  /\ (is_valid s = true ->
      opt_truthy str_truthy (cleaned_phone (snd (full_clean s))) = true
      \/ opt_truthy str_truthy (cleaned_email (snd (full_clean s))) = true).
Proof.
  split; [|split].
  - intros Hp. split; [by apply phone_is_required|].
    intros He. unfold full_clean, phone_field, email_field.
    rewrite (CharField_clean_blank true 20 _ Hp).
    rewrite (CharField_clean_blank false 254 _ He).
    cbn. destruct (other_fields_pass s); cbn; auto.
  - apply ContactForm_clean_raises.
  - intros Hv. left. unfold is_valid, full_clean in *. cbn [fst snd] in *.
    cbn [cleaned_phone].
    destruct (phone_field (posted_phone s)) as [v|e] eqn:Hp.
    + cbn [field_value opt_truthy]. unfold phone_field in Hp.
      destruct (CharField_clean true 20 (posted_phone s)) as [v0|] eqn:Hc;
        [|discriminate Hp].
      cbn [bind] in Hp. injection Hp as <-.
      apply clean_phone_truthy. by eapply CharField_clean_truthy.
    + exfalso. cbn [field_errors] in Hv. destruct e; discriminate Hv.
Qed.

(** The theorem at an empty submission and at an accepted one. *)
Definition nothing_posted : Submission :=
  {| posted_phone := "  "; posted_email := "";
     email_validator_accepts := true; other_fields_pass := true |}.

Definition phone_posted : Submission :=
  {| posted_phone := "01712-345678"; posted_email := "";
     email_validator_accepts := true; other_fields_pass := true |}.

Example phone_posted_cleaned :
  full_clean phone_posted
  = ([], {| cleaned_phone := Some "+8801712345678"; cleaned_email := Some "" |}).
Proof. reflexivity. Qed.

Lemma C8_contact_needs_phone_or_email_witness :
  (strip (posted_phone nothing_posted) = ""
   /\ strip (posted_email nothing_posted) = ""
   /\ is_valid nothing_posted = false
   /\ In cross_field_error (fst (full_clean nothing_posted)))
  /\ (is_valid phone_posted = true
      /\ (opt_truthy str_truthy (cleaned_phone (snd (full_clean phone_posted))) = true
          \/ opt_truthy str_truthy (cleaned_email (snd (full_clean phone_posted))) = true)).
Proof.
  split.
  - split; [reflexivity|]. split; [reflexivity|].
    destruct (proj1 (C8_contact_needs_phone_or_email nothing_posted) eq_refl)
      as [Hinvalid Hcross].
    split; [exact Hinvalid|exact (Hcross eq_refl)].
  - split; [reflexivity|].
    apply (proj2 (proj2 (C8_contact_needs_phone_or_email phone_posted))); reflexivity.
Defined.

End ContactFormRules.

Section DocumentUpload.
Import Forms.

(** [split] never returns an empty list, and returns the string itself
    when the separator does not occur. *)
Lemma split_not_nil sep s : split sep s <> [].
Proof.
  destruct s as [|c r]; cbn [split]; [done|].
  destruct (Ascii.eqb c sep); [done|]. by destruct (split sep r).
Qed.

Lemma contains_dot_cons c r :
  contains (String c r) "." = Ascii.eqb c "." || contains r ".".
Proof.
  cbn [contains String.prefix].
  destruct (ascii_dec "." c) as [<-|E].
  - rewrite Ascii.eqb_refl. by destruct r.
  - destruct (Ascii.eqb_spec c "."%char) as [->|_]; [done|reflexivity].
Qed.

Lemma split_no_dot s : contains s "." = false -> split "." s = [s].
Proof.
  induction s as [|c r IH]; [done|].
  rewrite contains_dot_cons. intros [Hc Hr]%orb_false_elim.
  cbn [split]. rewrite Hc, (IH Hr). done.
Qed.

Lemma split_dot_two s :
  contains s "." = true -> exists w v ws, split "." s = w :: v :: ws.
Proof.
  induction s as [|c r IH]; [discriminate|].
  rewrite contains_dot_cons. cbn [split].
  destruct (Ascii.eqb c ".") eqn:Hc; cbn [orb].
  - intros _. destruct (split "." r) as [|v ws] eqn:E;
      [by apply split_not_nil in E|]. by eexists _, _, _.
  - intros (w & v & ws & ->)%IH. by eexists _, _, _.
Qed.

(** [split('.')[-1]] is the text after the last dot. *)
Lemma last_of_split_dot s : last_item (split "." s) = after_last_dot s.
Proof.
  unfold last_item. induction s as [|c r IH]; [done|].
  cbn [split after_last_dot].
  destruct (contains r ".") eqn:Hr.
  - destruct (split_dot_two r Hr) as (w & v & ws & E). rewrite E in *.
    rewrite <- IH. by destruct (Ascii.eqb c ".").
  - rewrite (split_no_dot r Hr). by destruct (Ascii.eqb c ".").
Qed.

Definition allowed (ext : string) : Prop := In ("." ++ ext) allowed_extensions.

Lemma allowed_existsb ext :
  existsb (String.eqb ("." ++ ext)) allowed_extensions = true <-> allowed ext.
Proof.
  unfold allowed. rewrite existsb_exists. split.
  - intros (x & Hin & ->%String.eqb_eq). done.
  - intros H. eexists. split; [exact H|apply String.eqb_refl].
Qed.

(** What [clean_file] decides on, for an uploaded file whose name is
    not empty: the size, and the text after the last dot of the
    lower-cased name, which is the whole name when it has no dot. *)
Lemma clean_file_decides f :
  file_name f <> "" ->
  (size_limit < size f \/ ~ allowed (after_last_dot (lower (file_name f))) ->
   exists m, clean_file (Some f) = Raise (ValidationError m))
  /\ (size f <= size_limit -> allowed (after_last_dot (lower (file_name f))) ->
      clean_file (Some f) = Ok (Some f)).
Proof.
  intros Hname. unfold clean_file, file_truthy, file_ext.
  rewrite last_of_split_dot.
  destruct (file_name f) as [|c r] eqn:E; [done|]. cbn [str_truthy].
  rewrite <- E. clear E Hname.
  destruct (Z.ltb_spec size_limit (size f)) as [Hbig|Hsmall].
  - split; [by eexists|]. lia.
  - destruct (existsb _ allowed_extensions) eqn:Hext; cbn [negb].
    + apply allowed_existsb in Hext. split; [|done].
      intros [?|?]; [lia|done].
    + split; [by eexists|].
      intros _ Hal%allowed_existsb. congruence.
Qed.

Definition report : UploadedFile := {| file_name := "Quote.Final.PDF"; size := 482113 |}.
Definition movie : UploadedFile := {| file_name := "visit.mp4"; size := 482113 |}.
Definition scan : UploadedFile := {| file_name := "scan.png"; size := 10485761 |}.

Example clean_file_examples :
  clean_file (Some report) = Ok (Some report)
  /\ clean_file (Some movie)
     = Raise (ValidationError
                "File type .mp4 is not allowed. Allowed types: .pdf, .doc, .docx, .xls, .xlsx, .png, .jpg, .jpeg")
  /\ clean_file (Some scan) = Raise (ValidationError "File size cannot exceed 10MB")
  /\ clean_file None = Ok None.
Proof. repeat split; reflexivity. Qed.

(** The extension of a file name as the claim uses the word: what
    follows the last dot; a name without a dot has none. *)
Definition extension (name : string) : option string :=
  if contains name "." then Some (after_last_dot name) else None.

(** An upload that is named pdf and has no extension. *)
Definition named_pdf : UploadedFile := {| file_name := "pdf"; size := 1024 |}.

(** C9 (the code at the failing input).  A file of 1 KB that is named
    pdf has no extension, so none on the list; [clean_file] takes the
    whole name for the extension and lets the file pass, where
    [validate_file_extension] of crm/validators.py, which tests how the
    name ends, refuses it. *)
Theorem C9_name_without_extension_accepted :
  extension (lower (file_name named_pdf)) = None
  /\ size named_pdf <= size_limit
  /\ clean_file (Some named_pdf) = Ok (Some named_pdf)
  /\ raised (Validators.validate_file_extension named_pdf) = true.
Proof. repeat split; vm_compute; congruence. Qed.

End DocumentUpload.


(** ** Inventory: the paginated fetch *)

Section Fetch.
Import ManagerApi.







(** Two runs: a short second page ends the loop; an endpoint that
    always has a full page is asked 50 times. *)
Definition record (n : Z) : json :=
  JObj [("id", JInt n); ("ItemCode", JStr "X-1"); ("ItemName", JStr "part")].

Definition two_pages : endpoint :=
  fun _ skip =>
    if skip =? 0 then Ok (JObj [("inventoryItems", JArr (repeat (record 1) 100))])
    else if skip =? 100 then Ok (JObj [("inventoryItems", JArr (repeat (record 2) 3))])
    else Raise RequestException.

Definition endless : endpoint :=
  fun _ skip => Ok (JArr (repeat (record skip) 100)).

Example fetch_two_pages :
  _fetch_all_inventory_items two_pages
  = Ok (repeat (record 1) 100 ++ repeat (record 2) 3)%list.
Proof. vm_compute. reflexivity. Qed.

Example fetch_endless :
  (fun s => (List.length (all_items s), iterations s, List.length (requests s)))
    <$> (match fetch_loop endless initial with Ok s => Some s | Raise _ => None end)
  = Some (5000%nat, 50, 50%nat).
Proof. vm_compute. reflexivity. Qed.

End Fetch.


(** ** Inventory: the sync *)

Section Sync.
Import ManagerApi.

Implicit Types (db : DB) (rows : list Product) (code : string).

(** *** The upsert *)

Lemma skus_cons p rows :
  omap sku (p :: rows)
  = match sku p with Some s => s :: omap sku rows | None => omap sku rows end.
Proof. reflexivity. Qed.

Lemma has_sku_some code p s : sku p = Some s -> has_sku code p = String.eqb s code.
Proof. unfold has_sku. by intros ->. Qed.

Lemma has_sku_none code p : sku p = None -> has_sku code p = false.
Proof. unfold has_sku. by intros ->. Qed.

Lemma filter_has_sku_none code rows :
  code ∉ omap sku rows -> List.filter (has_sku code) rows = [].
Proof.
  induction rows as [|p r IH]; [done|]. rewrite skus_cons. cbn [List.filter].
  destruct (sku p) as [s|] eqn:E.
  - rewrite (has_sku_some _ _ _ E). intros [Hne Hr]%not_elem_of_cons.
    destruct (String.eqb_spec s code) as [->|_]; [done|]. auto.
  - rewrite (has_sku_none _ _ E). auto.
Qed.

Lemma existsb_has_sku code rows :
  existsb (has_sku code) rows = true <-> code ∈ omap sku rows.
Proof.
  induction rows as [|p r IH]; [|rewrite skus_cons]; cbn [existsb].
  - split; [discriminate|]. by intros ?%elem_of_nil.
  - destruct (sku p) as [s|] eqn:E.
    + rewrite (has_sku_some _ _ _ E), elem_of_cons.
      destruct (String.eqb_spec s code) as [->|Hne]; cbn [orb].
      * tauto.
      * rewrite IH. split; [tauto|]. intros [->|?]; [done|tauto].
    + by rewrite (has_sku_none _ _ E).
Qed.

Lemma replace_sku_skus code new rows :
  sku new = Some code ->
  omap sku (replace_sku code new rows) = omap sku rows.
Proof.
  intros Hn. induction rows as [|p r IH]; [done|]. cbn [replace_sku].
  destruct (sku p) as [s|] eqn:E.
  - rewrite (has_sku_some _ _ _ E).
    destruct (String.eqb_spec s code) as [->|_]; rewrite !skus_cons.
    + by rewrite Hn, E.
    + by rewrite E, IH.
  - rewrite (has_sku_none _ _ E), !skus_cons. by rewrite E, IH.
Qed.

Lemma replace_sku_rows code new rows :
  sku new = Some code ->
  NoDup (omap sku rows) ->
  code ∈ omap sku rows ->
  List.filter (has_sku code) (replace_sku code new rows) = [new].
Proof.
  intros Hn. induction rows as [|p r IH]; [by intros _ ?%elem_of_nil|].
  cbn [replace_sku]. rewrite skus_cons.
  destruct (sku p) as [s|] eqn:E.
  - rewrite (has_sku_some _ _ _ E). intros [Hnotin Hnd]%NoDup_cons.
    destruct (String.eqb_spec s code) as [->|Hne]; cbn [List.filter].
    + intros _. rewrite (has_sku_some _ _ _ Hn), String.eqb_refl.
      by rewrite filter_has_sku_none.
    + intros [?|Hin]%elem_of_cons; [done|].
      rewrite (has_sku_some _ _ _ E).
      destruct (String.eqb_spec s code); [done|]. auto.
  - rewrite (has_sku_none _ _ E). cbn [List.filter].
    rewrite (has_sku_none _ _ E). auto.
Qed.

(** [update_or_create] leaves exactly one row with the sku, the one
    built from the defaults, and keeps the column unique. *)
Lemma update_or_create_one_row db code new db' created :
  sku new = Some code ->
  NoDup (skus db) ->
  update_or_create db code new = Ok (db', created) ->
  rows_with_sku db' code = [new]
  /\ NoDup (skus db')
  /\ brands db' = brands db /\ categories db' = categories db
  /\ (created = negb (existsb (has_sku code) (products db))).
Proof.
  unfold update_or_create, rows_with_sku, skus. intros Hn Hnd.
  destruct (not_null_violation new); [discriminate|].
  destruct (existsb (has_sku code) (products db)) eqn:Hex; intros [= <- <-];
    cbn [products with_products brands categories negb].
  - apply existsb_has_sku in Hex.
    rewrite replace_sku_rows, replace_sku_skus; done.
  - assert (Hnot : code ∉ omap sku (products db)).
    { intros Hin%existsb_has_sku. congruence. }
    rewrite List.filter_app, filter_has_sku_none by done.
    cbn [List.filter]. rewrite (has_sku_some _ _ _ Hn), String.eqb_refl.
    rewrite omap_app, skus_cons, Hn. cbn [omap list_omap app].
    repeat split; try done.
    apply NoDup_app. repeat split; [done| |apply NoDup_singleton].
    intros x Hx ->%list_elem_of_singleton. done.
Qed.

Lemma _get_or_create_category_products db code db' c :
  _get_or_create_category db code = Ok (db', c) ->
  products db' = products db /\ c = fst (category_for code).
Proof.
  unfold _get_or_create_category, get_or_create_category.
  destruct (category_for code) as [c0 n0]. cbn [fst].
  destruct (categories db !! c0); cbn [bind].
  - by intros [= <- <-].
  - destruct (name_taken db n0); cbn [bind]; [discriminate|]. by intros [= <- <-].
Qed.

(** *** One item *)

(** A record with a non-empty identifier and a non-empty code. *)
Definition identified (d : list (string * json)) (code : string) : Prop :=
  truthy (py_or (get d "id") (get d "Key")) = true
  /\ py_or (get d "ItemCode") (get_or d "Code" (JStr "")) = JStr code
  /\ code <> "".

(** The category rule of the code, on the upper-cased item code. *)
Definition category_rule (code : string) : string :=
  let u := upper code in
  if startswith u "FX" || startswith u "Q" then "PLC"
  else if startswith u "FR-" then "VFD"
  else if startswith u "MR-" || contains u "SERVO" then "SERVO"
  else if startswith u "GOT" || contains u "HMI" then "HMI"
  else "OTHER".

Lemma category_for_rule code : fst (category_for code) = category_rule code.
Proof.
  unfold category_for, category_rule. cbv zeta.
  repeat match goal with |- context [if ?b then _ else _] => destruct b end;
    reflexivity.
Qed.

Lemma startswith_contains s p : startswith s p = true -> contains s p = true.
Proof. unfold startswith. destruct s; cbn [contains]; intros ->; reflexivity. Qed.

(** The brand: Mitsubishi when the upper-cased code starts with a
    marker, the import brand when it contains none. *)
Lemma looks_mitsubishi_prefix code :
  existsb (startswith (upper code)) mitsubishi_markers = true ->
  looks_mitsubishi code = true.
Proof.
  unfold looks_mitsubishi. rewrite !existsb_exists.
  intros (m & Hin & Hm). exists m. split; [done|]. by apply startswith_contains.
Qed.

(** What a run of the [try] body that ends normally has done. *)
Lemma try_item_ok db d code db' o :
  identified d code ->
  try_item db (JObj d) = (db', Ok o) ->
  exists db1 new created,
    products db1 = products db
    /\ update_or_create db1 code new = Ok (db', created)
    /\ o = (if created then Created else Updated)
    /\ sku new = Some code
    /\ category new = Some (category_rule code)
    /\ brand new = (if looks_mitsubishi code then mitsubishi_brand else manager_brand)
    /\ is_from_api new = true.
Proof.
  intros (Hid & Hcode & Hne). unfold try_item. rewrite Hid, Hcode.
  assert (Ht : truthy (JStr code) = true) by (destruct code; done).
  rewrite Ht. cbn [negb orb].
  destruct (_safe_decimal _) as [quantity|]; [|discriminate].
  destruct (_extract_sales_price d) as [sales_price|]; [|discriminate].
  destruct (_get_or_create_category db code) as [[db1 cat]|] eqn:Hcat; [|discriminate].
  apply _get_or_create_category_products in Hcat as [Hprod ->].
  destruct (int_of_Decimal quantity) as [stock|]; [|discriminate].
  destruct (update_or_create db1 code _) as [[db2 created]|] eqn:Hup; [|discriminate].
  intros [= <- <-]. eexists db1, _, created.
  split; [done|]. split; [exact Hup|]. rewrite category_for_rule. by cbn.
Qed.

(** *** Classification and upsert *)

(** The classification as the specification words it: by prefixes of
    the code only. *)
Definition prefix_category (code : string) : string :=
  if startswith code "FX" || startswith code "Q" then "PLC"
  else if startswith code "FR-" then "VFD"
  else if startswith code "MR-" then "SERVO"
  else if startswith code "GOT" then "HMI"
  else "OTHER".

Definition prefix_mitsubishi (code : string) : bool :=
  existsb (startswith code) mitsubishi_markers.

Definition classified_by_prefix_and_upserted : Prop :=
  forall db d code,
    NoDup (skus db) -> identified d code ->
    exists db' o p,
      try_item db (JObj d) = (db', Ok o)
      /\ rows_with_sku db' code = [p]
      /\ category p = Some (prefix_category code)
      /\ brand p = (if prefix_mitsubishi code then mitsubishi_brand else manager_brand).

Definition no_tables : DB := {| brands := ∅; categories := ∅; products := [] |}.

(** A servo drive of another maker. *)
Definition servo_item : list (string * json) :=
  [("id", JStr "c7e1"); ("ItemCode", JStr "SERVO-100");
   ("ItemName", JStr "Servo drive 100W"); ("qtyOnHand", JInt 2)].

Example servo_item_category :
  (fun r => map category (products (fst r))) (try_item no_tables (JObj servo_item))
  = [Some "SERVO"]
  /\ prefix_category "SERVO-100" = "OTHER".
Proof. split; reflexivity. Qed.

(** C6 (counterexample).  The code SERVO-100 starts with none of the
    listed prefixes, yet the record is filed under SERVO, not OTHER:
    the category rule also looks for SERVO (and HMI) inside the code. *)
Lemma C6_servo_inside_code : ~ classified_by_prefix_and_upserted.
Proof.
  intros H.
  destruct (H no_tables servo_item "SERVO-100") as (db' & o & p & Ht & Hr & Hc & _).
  - constructor.
  - repeat split; done.
  - vm_compute in Ht. injection Ht as <- <-.
    vm_compute in Hr. injection Hr as <-.
    vm_compute in Hc. discriminate Hc.
Qed.

(** A run of the [try] body that raises has written no product row. *)
Lemma try_item_raise db d db' e :
  try_item db (JObj d) = (db', Raise e) -> products db' = products db.
Proof.
  unfold try_item.
  destruct (negb _ || negb _); [discriminate|].
  destruct (py_or (get d "ItemCode") _) as [| | | |code| |]; try by intros [= <- _].
  destruct (_safe_decimal _); [|by intros [= <- _]].
  destruct (_extract_sales_price d); [|by intros [= <- _]].
  destruct (_get_or_create_category db code) as [[db1 cat]|] eqn:Hcat;
    [|by intros [= <- _]].
  apply _get_or_create_category_products in Hcat as [Hprod _].
  destruct (int_of_Decimal _); [|by intros [= <- _]].
  destruct (update_or_create db1 code _) as [[db2 created]|]; [discriminate|].
  by intros [= <- _].
Qed.

(** C6 (amended).  For a record with a non-empty identifier and a
    non-empty code: when its processing raises nothing, exactly one
    product row carries the code as its sku afterwards, the row built
    from the record; its category follows the rule on the upper-cased
    code (PLC for a start with FX or Q, else VFD for FR-, else SERVO for a
    start with MR- or SERVO anywhere, else HMI for a start with GOT or HMI
    anywhere, else OTHER); its brand is Mitsubishi when the upper-cased
    code starts with one of FX, MR, QY, QX, FR-, and the import brand
    when it contains none of them; the row was created or updated, and
    the sku column stays unique.  When its processing raises, the product
    table is as before. *)
Theorem C6_item_classified_and_upserted db d code db' r :
  NoDup (skus db) ->
  identified d code ->
  try_item db (JObj d) = (db', r) ->
  match r with
  | Ok o =>
      exists p,
        rows_with_sku db' code = [p]
        /\ sku p = Some code
        /\ category p = Some (category_rule code)
        /\ (existsb (startswith (upper code)) mitsubishi_markers = true ->
            brand p = mitsubishi_brand)
        /\ (existsb (contains (upper code)) mitsubishi_markers = false ->
            brand p = manager_brand)
        /\ (o = Created \/ o = Updated)
        /\ NoDup (skus db')
  | Raise _ => products db' = products db
  end.
Proof.
  intros Hnd Hid Ht. destruct r as [o|e]; [|by eapply try_item_raise].
  destruct (try_item_ok _ _ _ _ _ Hid Ht)
    as (db1 & new & created & Hprod & Hup & -> & Hsku & Hcat & Hbrand & _).
  assert (Hnd1 : NoDup (skus db1)) by (unfold skus; by rewrite Hprod).
  destruct (update_or_create_one_row _ _ _ _ _ Hsku Hnd1 Hup) as (Hrows & Hnd' & _).
  exists new. repeat split; try done.
  - intros Hm. by rewrite Hbrand, (looks_mitsubishi_prefix _ Hm).
  - intros Hm. rewrite Hbrand.
    by replace (looks_mitsubishi code) with false by (symmetry; exact Hm).
  - destruct created; auto.
Qed.

(** The theorem at a Mitsubishi PLC on empty tables. *)
Definition plc_item : list (string * json) :=
  [("id", JStr "a1f0"); ("ItemCode", JStr "fx3u-32m");
   ("ItemName", JStr "PLC base unit"); ("qtyOnHand", JStr "4.0");
   ("salePrice", JObj [("value", JFloat (DFinite false 185005 (-1)))])].

Definition plc_row : Product :=
  {| sku := Some "fx3u-32m"; name := JStr "PLC base unit";
     brand := "Mitsubishi Electric"; model := "fx3u-32m";
     category := Some "PLC"; description := JStr "";
     price := Some (DFinite false 185005 (-1)); stock_quantity := 4;
     is_active := true; is_from_api := true; mitsubishi_api_id := JStr "a1f0" |}.

Definition plc_tables : DB :=
  {| brands := ∅;
     categories := {[ "PLC" := {| category_name := "Programmable Logic Controllers";
                                  category_is_active := true |} ]};
     products := [plc_row] |}.

Example plc_item_processed :
  try_item no_tables (JObj plc_item) = (plc_tables, Ok Created).
Proof. vm_compute. reflexivity. Qed.

Lemma C6_item_classified_and_upserted_witness :
  NoDup (skus no_tables)
  /\ identified plc_item "fx3u-32m"
  /\ try_item no_tables (JObj plc_item) = (plc_tables, Ok Created)
  /\ exists p,
       rows_with_sku plc_tables "fx3u-32m" = [p]
       /\ sku p = Some "fx3u-32m"
       /\ category p = Some (category_rule "fx3u-32m")
       /\ (existsb (startswith (upper "fx3u-32m")) mitsubishi_markers = true ->
           brand p = mitsubishi_brand)
       /\ (existsb (contains (upper "fx3u-32m")) mitsubishi_markers = false ->
           brand p = manager_brand)
       /\ (Created = Created \/ Created = Updated)
       /\ NoDup (skus plc_tables).
Proof.
  assert (H1 : NoDup (skus no_tables)) by constructor.
  assert (H2 : identified plc_item "fx3u-32m") by (repeat split; done).
  split; [exact H1|]. split; [exact H2|]. split; [exact plc_item_processed|].
  exact (C6_item_classified_and_upserted no_tables plc_item "fx3u-32m"
           plc_tables (Ok Created) H1 H2 plc_item_processed).
Defined.

(** *** The loop *)

Lemma sync_loop_app db n pre rest :
  sync_loop db n (pre ++ rest)
  = match sync_loop db n pre with
    | (db', Ok n') => sync_loop db' n' rest
    | (db', Raise e) => (db', Raise e)
    end.
Proof.
  revert db n. induction pre as [|item pre IH]; intros db n; [done|].
  cbn [app sync_loop].
  destruct (try_item db item) as [db1 [[| |]|e]]; try apply IH.
  destruct (handler item); [apply IH|done].
Qed.

(** The loop goes on after an item that raised, with the counts as they
    were. *)
Lemma sync_loop_skips db n pre d rest db0 n0 db1 e :
  sync_loop db n pre = (db0, Ok n0) ->
  try_item db0 (JObj d) = (db1, Raise e) ->
  sync_loop db n (pre ++ JObj d :: rest) = sync_loop db1 n0 rest.
Proof.
  intros Hpre Hitem. rewrite sync_loop_app, Hpre.
  cbn [sync_loop]. by rewrite Hitem.
Qed.

(** When the processing of an item that is a JSON object raises,
    [sync_products] goes on with the items after it, from the counts
    reached before it: the item adds to neither count, every item after
    it is processed, and the report carries the counts of that continued
    loop.  (The tables are those the interrupted processing left: a
    category row may already have been created.) *)
Lemma failing_object_item_skipped api db pre d rest db0 n0 db1 e :
  _fetch_all_inventory_items api = Ok (pre ++ JObj d :: rest)%list ->
  sync_loop (with_import_brands db) zero_counts pre = (db0, Ok n0) ->
  try_item db0 (JObj d) = (db1, Raise e) ->
  sync_products api db
  = report (pre ++ JObj d :: rest) (sync_loop db1 n0 rest).
Proof.
  intros Hfetch Hpre Hitem. unfold sync_products. rewrite Hfetch.
  rewrite (sync_loop_skips _ _ _ _ rest _ _ _ _ Hpre Hitem).
  by destruct pre.
Qed.

(** A record whose quantity is no number, between two good records. *)
Definition bad_item : list (string * json) :=
  [("id", JStr "b2"); ("ItemCode", JStr "GOT2000");
   ("ItemName", JStr "Operator panel"); ("qtyOnHand", JStr "n/a")].

Definition relay_item : list (string * json) :=
  [("id", JStr "c3"); ("ItemCode", JStr "RLY-24"); ("ItemName", JStr "Relay 24V")].

Example bad_item_raises :
  snd (try_item plc_tables (JObj bad_item)) = Raise InvalidOperation.
Proof. reflexivity. Qed.

(** A quantity spelled NaN is a Decimal, but no integer: the category
    row is already there when [int()] raises. *)
Definition nan_item : list (string * json) :=
  [("id", JStr "d4"); ("ItemCode", JStr "GOT1000");
   ("ItemName", JStr "Panel"); ("qtyOnHand", JStr "NaN")].

Example interrupted_item_leaves_category :
  (fun r => (fst <$> map_to_list (categories (fst r)), products (fst r), snd r))
    (try_item no_tables (JObj nan_item))
  = (["HMI"], [], Raise ValueError).
Proof. vm_compute. reflexivity. Qed.

Example three_items :
  (fun r => (map sku (products (fst r)), snd r))
    (sync_loop no_tables zero_counts [JObj plc_item; JObj bad_item; JObj relay_item])
  = ([Some "fx3u-32m"; Some "RLY-24"],
     Ok {| created_count := 2; updated_count := 0 |}).
Proof. vm_compute. reflexivity. Qed.

(** A list element that is not an object: [item.get] raises in the
    [try] body and again in the [except] clause, which ends the loop. *)
Example non_object_element :
  sync_loop no_tables zero_counts [JNull; JObj relay_item]
  = (no_tables, Raise AttributeError).
Proof. reflexivity. Qed.

Definition one_page : endpoint :=
  fun _ skip =>
    if skip =? 0
    then Ok (JObj [("inventoryItems",
                    JArr [JObj plc_item; JObj bad_item; JObj relay_item])])
    else Ok JNull.

Definition plc_tables_with_brands : DB :=
  {| brands := brands (with_import_brands no_tables);
     categories := categories plc_tables;
     products := products plc_tables |}.

(** The report of [sync_products] carries the counts of the loop. *)
Example sync_products_report :
  snd (sync_products one_page no_tables)
  = Ok {| created := 2; updated := 0; total_items := Some 3; message := None |}.
Proof. vm_compute. reflexivity. Qed.

Example failing_object_item_skipped_on_one_page :
  _fetch_all_inventory_items one_page
  = Ok ([JObj plc_item] ++ JObj bad_item :: [JObj relay_item])%list
  /\ sync_loop (with_import_brands no_tables) zero_counts [JObj plc_item]
     = (plc_tables_with_brands, Ok {| created_count := 1; updated_count := 0 |})
  /\ try_item plc_tables_with_brands (JObj bad_item)
     = (plc_tables_with_brands, Raise InvalidOperation)
  /\ sync_products one_page no_tables
     = report ([JObj plc_item] ++ JObj bad_item :: [JObj relay_item])
              (sync_loop plc_tables_with_brands
                         {| created_count := 1; updated_count := 0 |}
                         [JObj relay_item]).
Proof.
  assert (H0 : _fetch_all_inventory_items one_page
               = Ok ([JObj plc_item] ++ JObj bad_item :: [JObj relay_item])%list)
    by (vm_compute; reflexivity).
  assert (H1 : sync_loop (with_import_brands no_tables) zero_counts [JObj plc_item]
               = (plc_tables_with_brands,
                  Ok {| created_count := 1; updated_count := 0 |}))
    by (vm_compute; reflexivity).
  assert (H2 : try_item plc_tables_with_brands (JObj bad_item)
               = (plc_tables_with_brands, Raise InvalidOperation))
    by (vm_compute; reflexivity).
  split; [exact H0|]. split; [exact H1|]. split; [exact H2|].
  exact (failing_object_item_skipped one_page no_tables [JObj plc_item] bad_item
           [JObj relay_item] plc_tables_with_brands _ plc_tables_with_brands
           InvalidOperation H0 H1 H2).
Qed.

(** A page whose first element is null, and the page without it. *)
Definition null_first : endpoint :=
  fun _ skip =>
    if skip =? 0
    then Ok (JObj [("inventoryItems", JArr [JNull; JObj relay_item])])
    else Ok JNull.

Definition relay_only : endpoint :=
  fun _ skip =>
    if skip =? 0
    then Ok (JObj [("inventoryItems", JArr [JObj relay_item])])
    else Ok JNull.

(** C7 (the code at the failing input).  The fetched list is a null
    followed by a good record.  Processing the null raises
    ([item.get] on [None]); the [except] clause calls [item.get] as
    well, so the exception leaves the loop: [sync_products] raises, and
    the record after the null is not processed, although on its own it
    is created. *)
Theorem C7_non_object_item_ends_sync :
  _fetch_all_inventory_items null_first = Ok [JNull; JObj relay_item]
  /\ snd (try_item (with_import_brands no_tables) JNull) = Raise AttributeError
  /\ snd (sync_products null_first no_tables) = Raise AttributeError
  /\ products (fst (sync_products null_first no_tables)) = []
  /\ map sku (products (fst (sync_products relay_only no_tables))) = [Some "RLY-24"]
  /\ snd (sync_products relay_only no_tables)
     = Ok {| created := 1; updated := 0; total_items := Some 1; message := None |}.
Proof. repeat split; vm_compute; reflexivity. Qed.

End Sync.

(* ===================================================================== *)
(** ** Forms: normal forms of phone and email *)
(* ===================================================================== *)

Section ContactFormValues.
Import Forms.

(** No character of [s] is [c]. *)
Fixpoint free_of (c : ascii) (s : string) : bool :=
  match s with
  | EmptyString => true
  | String d r => negb (Ascii.eqb d c) && free_of c r
  end.

Lemma contains_char c s : contains s (String c EmptyString) = negb (free_of c s).
Proof.
  induction s as [|d r IH]; [reflexivity|].
  cbn [contains free_of String.prefix]. rewrite IH.
  destruct (ascii_dec c d) as [->|Hn].
  - rewrite Ascii.eqb_refl. destruct r; reflexivity.
  - destruct (Ascii.eqb_spec d c) as [->|_]; [congruence|]. reflexivity.
Qed.

Lemma remove_char_free c s : free_of c (remove_char c s) = true.
Proof.
  induction s as [|d r IH]; [reflexivity|].
  cbn [remove_char]. destruct (Ascii.eqb d c) eqn:E; [exact IH|].
  cbn [free_of]. rewrite E, IH. reflexivity.
Qed.

Lemma remove_char_keeps_free c d s :
  free_of d s = true -> free_of d (remove_char c s) = true.
Proof.
  induction s as [|e r IH]; [reflexivity|].
  cbn [free_of remove_char]. intros [He Hr]%andb_prop.
  destruct (Ascii.eqb e c); [auto|].
  cbn [free_of]. rewrite He, IH; auto.
Qed.

Lemma remove_char_id c s : free_of c s = true -> remove_char c s = s.
Proof.
  induction s as [|d r IH]; [reflexivity|].
  cbn [free_of remove_char]. intros [Hd Hr]%andb_prop.
  apply negb_true_iff in Hd. rewrite Hd, IH; auto.
Qed.

Lemma lstrip_char_free c d s :
  free_of d s = true -> free_of d (lstrip_char c s) = true.
Proof.
  induction s as [|e r IH]; [reflexivity|].
  intros H. cbn [lstrip_char]. destruct (Ascii.eqb e c); [|exact H].
  apply IH. cbn [free_of] in H. apply andb_prop in H. tauto.
Qed.

Lemma free_of_app c s t : free_of c (s ++ t) = free_of c s && free_of c t.
Proof.
  induction s as [|d r IH]; [reflexivity|].
  change (String d r ++ t) with (String d (r ++ t)).
  cbn [free_of]. rewrite IH, andb_assoc. reflexivity.
Qed.

(** What [clean_phone] returns for a non-empty value. *)
Lemma clean_phone_cases p :
  str_truthy p = true ->
  free_of " " (clean_phone p) = true
  /\ free_of "-" (clean_phone p) = true
  /\ startswith (clean_phone p) "+" = true.
Proof.
  intros Hp. unfold clean_phone. rewrite Hp.
  set (q := remove_char "-" (remove_char " " p)).
  assert (Hs : free_of " " q = true)
    by (apply remove_char_keeps_free, remove_char_free).
  assert (Hd : free_of "-" q = true) by apply remove_char_free.
  destruct (startswith q "+") eqn:E; cbn [negb].
  - auto.
  - rewrite !free_of_app. repeat split.
    + rewrite lstrip_char_free by exact Hs. reflexivity.
    + rewrite lstrip_char_free by exact Hd. reflexivity.
Qed.

Lemma startswith_truthy s p :
  startswith s p = true -> str_truthy p = true -> str_truthy s = true.
Proof. destruct s, p; cbn; congruence. Qed.

(** X1 (crm/forms.py, [ContactForm.clean_phone]): cleaning a phone value
    that has been cleaned already changes nothing. *)
Theorem clean_phone_idempotent p : clean_phone (clean_phone p) = clean_phone p.
Proof.
  destruct (str_truthy p) eqn:Hp.
  - destruct (clean_phone_cases p Hp) as (Hs & Hd & Hplus).
    set (v := clean_phone p) in *.
    unfold clean_phone at 1.
    rewrite (startswith_truthy v "+" Hplus eq_refl).
    rewrite (remove_char_id " " v Hs), (remove_char_id "-" v Hd), Hplus.
    reflexivity.
  - unfold clean_phone. rewrite Hp. cbn. rewrite Hp. reflexivity.
Qed.

(** X2 (crm/forms.py, [ContactForm.clean_phone]): a non-empty phone value
    is returned in international notation: the result starts with a
    plus sign and holds neither blanks nor dashes. *)
Theorem clean_phone_normal_form p :
  str_truthy p = true ->
  startswith (clean_phone p) "+" = true
  /\ contains (clean_phone p) " " = false
  /\ contains (clean_phone p) "-" = false.
Proof.
  intros Hp. destruct (clean_phone_cases p Hp) as (Hs & Hd & Hplus).
  rewrite !contains_char, Hs, Hd. auto.
Qed.

Lemma clean_phone_normal_form_witness :
  str_truthy "01712-345 678" = true
  /\ clean_phone "01712-345 678" = "+8801712345678"
  /\ startswith (clean_phone "01712-345 678") "+" = true
  /\ contains (clean_phone "01712-345 678") " " = false
  /\ contains (clean_phone "01712-345 678") "-" = false.
Proof.
  split; [reflexivity|]. split; [reflexivity|].
  exact (clean_phone_normal_form "01712-345 678" eq_refl).
Defined.

Lemma remove_char_app c s t :
  remove_char c (s ++ t) = remove_char c s ++ remove_char c t.
Proof.
  induction s as [|d r IH]; [reflexivity|].
  change (String d r ++ t) with (String d (r ++ t)).
  cbn [remove_char]. rewrite IH. destruct (Ascii.eqb d c); reflexivity.
Qed.

(** X3 (crm/forms.py, [ContactForm.clean_phone]): a number that is
    written with the country code 880 and without the plus sign gets
    the country code a second time. *)
Theorem clean_phone_repeats_country_code rest :
  clean_phone ("880" ++ rest)
  = "+880880" ++ remove_char "-" (remove_char " " rest).
Proof.
  unfold clean_phone. change (str_truthy ("880" ++ rest)) with true. cbn iota.
  rewrite !remove_char_app.
  change (remove_char " " "880") with "880".
  change (remove_char "-" "880") with "880".
  reflexivity.
Qed.

Lemma lower_ascii_idem c : lower_ascii (lower_ascii c) = lower_ascii c.
Proof. destruct c as [[] [] [] [] [] [] [] []]; reflexivity. Qed.

Lemma lower_idem s : lower (lower s) = lower s.
Proof.
  induction s as [|c r IH]; [reflexivity|].
  unfold lower in *. cbn [map_str]. rewrite lower_ascii_idem, IH. reflexivity.
Qed.

(** X4 (crm/forms.py, [ContactForm.clean_email] behind the email field):
    whatever the email field of the contact form returns is in lower
    case, so that cleaning it again gives the same address. *)
Theorem email_field_lower_case raw accepts v :
  email_field raw accepts = Ok v ->
  lower v = v /\ clean_email v = v.
Proof.
  unfold email_field. intros H.
  destruct (CharField_clean false 254 raw) as [w|] eqn:E; [|discriminate H].
  cbn [bind] in H.
  destruct (str_truthy w && negb accepts); [discriminate H|].
  cbn [bind] in H. injection H as <-.
  unfold clean_email. destruct (str_truthy w) eqn:Hw.
  - rewrite lower_idem. split; [reflexivity|].
    destruct (str_truthy (lower w)); reflexivity.
  - destruct w; [|discriminate Hw]. split; reflexivity.
Qed.

Lemma email_field_lower_case_witness :
  email_field " Rahim.Uddin@Example.COM " true = Ok "rahim.uddin@example.com"
  /\ lower "rahim.uddin@example.com" = "rahim.uddin@example.com"
  /\ clean_email "rahim.uddin@example.com" = "rahim.uddin@example.com".
Proof.
  split; [reflexivity|].
  exact (email_field_lower_case " Rahim.Uddin@Example.COM " true
           "rahim.uddin@example.com" eq_refl).
Defined.

End ContactFormValues.


Section ValidContactForm.
Import Forms.

(** X5 (crm/forms.py, [ContactForm] as a whole): every submission that
    the contact form accepts has a cleaned phone number, and that
    number starts with a plus sign, holds neither blanks nor dashes and
    has at most 20 characters. *)
Theorem valid_contact_phone s :
  is_valid s = true ->
  exists v,
    cleaned_phone (snd (full_clean s)) = Some v
    /\ startswith v "+" = true
    /\ contains v " " = false
    /\ contains v "-" = false
    /\ (String.length v <= 20)%nat.
Proof.
  unfold is_valid, full_clean. cbn [fst snd cleaned_phone].
  destruct (phone_field (posted_phone s)) as [v|e] eqn:Ep.
  - cbn [field_errors field_value app].
    set (errors := (field_errors "email" _ ++ _)%list). intros H.
    exists v. split; [reflexivity|].
    unfold phone_field in Ep.
    destruct (CharField_clean true 20 (posted_phone s)) as [raw|] eqn:Ec;
      [|discriminate Ep].
    cbn [bind] in Ep. injection Ep as <-.
    pose proof (CharField_clean_truthy _ _ _ _ Ec eq_refl) as Ht.
    destruct (clean_phone_cases raw Ht) as (Hs & Hd & Hplus).
    rewrite !contains_char, Hs, Hd.
    repeat split; try reflexivity; try exact Hplus.
    destruct (20 <? String.length (clean_phone raw))%nat eqn:El.
    + exfalso. subst errors. revert H.
      cbn [cleaned_phone field_value].
      destruct (field_errors "email" _) as [|? ?]; [|discriminate].
      cbn [app]. destruct (other_fields_pass s); cbn [app]; [|discriminate].
      destruct (ContactForm_clean _) as [?|[]]; cbn [app]; discriminate.
    + apply Nat.ltb_ge in El. exact El.
  - cbn [field_errors app]. destruct e; discriminate.
Qed.

Lemma valid_contact_phone_witness :
  is_valid phone_posted = true
  /\ exists v,
       cleaned_phone (snd (full_clean phone_posted)) = Some v
       /\ startswith v "+" = true
       /\ contains v " " = false
       /\ contains v "-" = false
       /\ (String.length v <= 20)%nat.
Proof.
  split; [reflexivity|].
  exact (valid_contact_phone phone_posted eq_refl).
Defined.

End ValidContactForm.


(* ===================================================================== *)
(** ** Uploads: the form, the validators and [Document.save] *)
(* ===================================================================== *)

Section Uploads.
Import Forms.

Lemma lower_ascii_dot c : Ascii.eqb (lower_ascii c) "." = Ascii.eqb c ".".
Proof. destruct c as [[] [] [] [] [] [] [] []]; reflexivity. Qed.

Lemma upper_lower_ascii c : upper_ascii (lower_ascii c) = upper_ascii c.
Proof. destruct c as [[] [] [] [] [] [] [] []]; reflexivity. Qed.

Lemma upper_lower s : upper (lower s) = upper s.
Proof.
  induction s as [|c r IH]; [reflexivity|].
  unfold upper, lower in *. cbn [map_str]. rewrite upper_lower_ascii, IH.
  reflexivity.
Qed.

(** Lower-casing moves no dot, so it commutes with taking what follows
    the last one. *)
Lemma contains_dot_lower s : contains (lower s) "." = contains s ".".
Proof.
  induction s as [|c r IH]; [reflexivity|].
  change (lower (String c r)) with (String (lower_ascii c) (lower r)).
  rewrite !contains_dot_cons, IH, lower_ascii_dot. reflexivity.
Qed.

Lemma after_last_dot_lower s : after_last_dot (lower s) = lower (after_last_dot s).
Proof.
  induction s as [|c r IH]; [reflexivity|].
  change (lower (String c r)) with (String (lower_ascii c) (lower r)).
  cbn [after_last_dot]. rewrite contains_dot_lower, lower_ascii_dot.
  destruct (contains r "."); [exact IH|].
  destruct (Ascii.eqb c "."); reflexivity.
Qed.

(** A name with a dot ends with the dot and what follows the last
    one. *)
Lemma endswith_refl s : endswith s s = true.
Proof. destruct s; cbn [endswith]; rewrite String.eqb_refl; reflexivity. Qed.

Lemma endswith_after_last_dot s :
  contains s "." = true -> endswith s ("." ++ after_last_dot s) = true.
Proof.
  induction s as [|c r IH]; [discriminate|].
  rewrite contains_dot_cons. intros H.
  cbn [after_last_dot]. destruct (contains r ".") eqn:Hr.
  - cbn [endswith]. rewrite (IH eq_refl). apply orb_true_r.
  - rewrite orb_false_r in H. rewrite H.
    apply Ascii.eqb_eq in H. subst c. apply endswith_refl.
Qed.

Lemma form_extension_allowed ext :
  In ("." ++ ext) allowed_extensions -> In ("." ++ ext) Validators.allowed_extensions.
Proof.
  unfold allowed_extensions, Validators.allowed_extensions.
  cbn [In]. intuition.
Qed.

(** What [clean_file] has checked when it returns for a named file. *)
Lemma clean_file_ok f r :
  clean_file (Some f) = Ok r ->
  file_truthy f = true ->
  size f <= size_limit
  /\ In ("." ++ after_last_dot (lower (file_name f))) allowed_extensions.
Proof.
  unfold clean_file. intros H Ht. rewrite Ht in H.
  destruct (size_limit <? size f) eqn:Hs; [discriminate H|].
  apply Z.ltb_ge in Hs. split; [exact Hs|].
  destruct (existsb (String.eqb ("." ++ file_ext f)) allowed_extensions) eqn:He;
    [|discriminate H].
  apply allowed_existsb in He. unfold allowed, file_ext in He.
  rewrite last_of_split_dot in He. exact He.
Qed.

(** X6 (crm/forms.py [DocumentUploadForm.clean_file], crm/validators.py
    [validate_file_size] and [validate_file_extension]): a file whose
    name has a dot and that the upload form accepts passes both file
    validators. *)
Theorem accepted_upload_passes_validators f r :
  clean_file (Some f) = Ok r ->
  contains (file_name f) "." = true ->
  Validators.validate_file_size f = Ok tt
  /\ Validators.validate_file_extension f = Ok tt.
Proof.
  intros H Hdot.
  assert (Ht : file_truthy f = true).
  { unfold file_truthy. destruct (file_name f); [discriminate Hdot|reflexivity]. }
  destruct (clean_file_ok f r H Ht) as [Hs He].
  split.
  - unfold Validators.validate_file_size, Validators.limit_mb.
    unfold size_limit in Hs.
    destruct (10 * 1024 * 1024 <? size f) eqn:E; [|reflexivity].
    apply Z.ltb_lt in E. lia.
  - unfold Validators.validate_file_extension.
    replace (existsb (fun ext => endswith (lower (file_name f)) ext)
                     Validators.allowed_extensions) with true; [reflexivity|].
    symmetry. apply existsb_exists.
    exists ("." ++ after_last_dot (lower (file_name f))). split.
    + apply form_extension_allowed, He.
    + apply endswith_after_last_dot. rewrite contains_dot_lower. exact Hdot.
Qed.

Lemma accepted_upload_passes_validators_witness :
  clean_file (Some {| file_name := "Quote.Final.PDF"; size := 482113 |})
  = Ok (Some {| file_name := "Quote.Final.PDF"; size := 482113 |})
  /\ contains "Quote.Final.PDF" "." = true
  /\ Validators.validate_file_size
       {| file_name := "Quote.Final.PDF"; size := 482113 |} = Ok tt
  /\ Validators.validate_file_extension
       {| file_name := "Quote.Final.PDF"; size := 482113 |} = Ok tt.
Proof.
  split; [reflexivity|]. split; [reflexivity|].
  exact (accepted_upload_passes_validators
           {| file_name := "Quote.Final.PDF"; size := 482113 |} _ eq_refl eq_refl).
Defined.

Lemma lower_app s t : lower (s ++ t) = lower s ++ lower t.
Proof.
  induction s as [|c r IH]; [reflexivity|].
  change (lower (String c r ++ t)) with (String (lower_ascii c) (lower (r ++ t))).
  rewrite IH. reflexivity.
Qed.

Lemma endswith_app s t : endswith (s ++ t) t = true.
Proof.
  induction s as [|c r IH]; [apply endswith_refl|].
  change (String c r ++ t) with (String c (r ++ t)).
  cbn [endswith]. rewrite IH. apply orb_true_r.
Qed.

Lemma contains_dot_app s t :
  contains (s ++ t) "." = contains s "." || contains t ".".
Proof.
  induction s as [|c r IH]; [reflexivity|].
  change (String c r ++ t) with (String c (r ++ t)).
  rewrite !contains_dot_cons, IH, orb_assoc. reflexivity.
Qed.

Lemma after_last_dot_app s t :
  contains t "." = false -> after_last_dot (s ++ "." ++ t) = t.
Proof.
  intros Ht. induction s as [|c r IH].
  - change ("" ++ "." ++ t) with (String "." t).
    cbn [after_last_dot]. rewrite Ht. reflexivity.
  - change (String c r ++ "." ++ t) with (String c (r ++ "." ++ t)).
    cbn [after_last_dot].
    replace (contains (r ++ "." ++ t) ".") with true; [exact IH|].
    rewrite contains_dot_app. change ("." ++ t) with (String "." t).
    rewrite contains_dot_cons. cbn. rewrite orb_true_r. reflexivity.
Qed.

(** X7 (crm/validators.py [validate_file_extension] against
    crm/forms.py [DocumentUploadForm.clean_file]): the two checks
    differ on text files: a name that ends in .txt passes the validator
    and is refused by the upload form, whatever precedes the
    extension. *)
Theorem txt_passes_validator_not_form stem sz :
  Validators.validate_file_extension {| file_name := stem ++ ".txt"; size := sz |}
  = Ok tt
  /\ raised (clean_file (Some {| file_name := stem ++ ".txt"; size := sz |})) = true.
Proof.
  split.
  - unfold Validators.validate_file_extension. cbn [file_name].
    replace (existsb (fun ext => endswith (lower (stem ++ ".txt")) ext)
                     Validators.allowed_extensions) with true; [reflexivity|].
    symmetry. apply existsb_exists. exists ".txt". split.
    + unfold Validators.allowed_extensions. cbn [In]. tauto.
    + rewrite lower_app. apply endswith_app.
  - unfold clean_file, file_truthy. cbn [file_name size].
    replace (str_truthy (stem ++ ".txt")) with true by (destruct stem; reflexivity).
    destruct (size_limit <? sz); [reflexivity|].
    unfold file_ext. cbn [file_name].
    rewrite last_of_split_dot, lower_app.
    change (lower ".txt") with ("." ++ "txt").
    rewrite after_last_dot_app by reflexivity.
    reflexivity.
Qed.

(** The file type that [Document.save] stores. *)
Lemma saved_file_type d :
  file_truthy (Documents.file d) = true ->
  Documents.file_type (Documents.Document_save_fields d)
  = upper (after_last_dot (lower (file_name (Documents.file d)))).
Proof.
  intros Ht. unfold Documents.Document_save_fields. rewrite Ht.
  cbn [Documents.file_type].
  rewrite last_of_split_dot, after_last_dot_lower, upper_lower. reflexivity.
Qed.




Definition stored_file_types : list string :=
  ["PDF"; "DOC"; "DOCX"; "XLS"; "XLSX"; "PNG"; "JPG"; "JPEG"].

(** X9 (crm/forms.py [DocumentUploadForm.clean_file] followed by
    crm/models.py [Document.save]): a document saved with a file that
    the upload form accepted gets one of eight file types. *)
Theorem accepted_upload_file_type d r :
  clean_file (Some (Documents.file d)) = Ok r ->
  file_truthy (Documents.file d) = true ->
  In (Documents.file_type (Documents.Document_save_fields d)) stored_file_types.
Proof.
  intros H Ht.
  destruct (clean_file_ok _ _ H Ht) as [_ He].
  rewrite (saved_file_type d Ht).
  unfold allowed_extensions in He. cbn [In] in He.
  unfold stored_file_types.
  generalize dependent (after_last_dot (lower (file_name (Documents.file d)))).
  intros e He. change ("." ++ e) with (String "." e) in He.
  repeat (destruct He as [He|He];
          [injection He as <-; cbn; tauto|]).
  destruct He.
Qed.

Definition plan_upload : Documents.Document :=
  {| Documents.file := {| file_name := "site plan.JPeg"; size := 2048 |};
     Documents.file_name := ""; Documents.file_type := "";
     Documents.file_size := 0 |}.

Lemma accepted_upload_file_type_witness :
  clean_file (Some (Documents.file plan_upload)) = Ok (Some (Documents.file plan_upload))
  /\ file_truthy (Documents.file plan_upload) = true
  /\ Documents.file_type (Documents.Document_save_fields plan_upload) = "JPEG"
  /\ In (Documents.file_type (Documents.Document_save_fields plan_upload))
        stored_file_types.
Proof.
  split; [reflexivity|]. split; [reflexivity|]. split; [reflexivity|].
  exact (accepted_upload_file_type plan_upload _ eq_refl eq_refl).
Defined.

(** X10 (crm/forms.py [LeadForm.clean_probability], crm/validators.py
    [validate_percentage]): the form check and the validator accept the
    same probabilities, the integers from 0 to 100, and the form hands
    an accepted value on as it is. *)
Theorem probability_checks_agree p :
  raised (LeadForms.clean_probability (Some p))
  = raised (Validators.validate_percentage p)
  /\ (0 <= p <= 100 <-> LeadForms.clean_probability (Some p) = Ok (Some p))
  /\ (p < 0 \/ 100 < p <-> raised (LeadForms.clean_probability (Some p)) = true).
Proof.
  unfold LeadForms.clean_probability, Validators.validate_percentage.
  destruct (p <? 0) eqn:E1; destruct (100 <? p) eqn:E2; cbn [orb raised];
    try apply Z.ltb_lt in E1; try apply Z.ltb_ge in E1;
    try apply Z.ltb_lt in E2; try apply Z.ltb_ge in E2;
    (split; [reflexivity|]); split; split; intros; try lia; try discriminate;
    reflexivity.
Qed.

End Uploads.


(* ===================================================================== *)
(** ** Leads: items, numbers and approval requests *)
(* ===================================================================== *)

Section LeadItemTotals.
Import LeadItems.

(** X11 (crm/models.py, [LeadProduct.save] up to its call of
    [super().save()]): for a unit price of at most twelve digits and a
    32-bit quantity, the product of the two has fewer than 28 digits, so
    the decimal context does not round it; when price and quantity are
    both non-zero the field block sets the total to that exact product,
    at the exponent of the unit price, and otherwise it leaves the item
    as it is, with the total that it had.  (Whether the write that
    follows accepts the total is up to the column, which holds twelve
    digits, and is not part of the statement.) *)
Theorem LeadProduct_save_total lp negative c e :
  unit_price lp = Some (PDecimal (DFinite negative c e)) ->
  (c < 10 ^ 12)%N ->
  - 2 ^ 31 <= quantity lp < 2 ^ 31 ->
  (c * Z.to_N (Z.abs (quantity lp)) < 10 ^ 28)%N
  /\ LeadProduct_save_fields lp
     = Ok (if (c =? 0)%N || (quantity lp =? 0) then lp
           else {| quantity := quantity lp;
                   unit_price := unit_price lp;
                   total_price :=
                     Some (PDecimal
                             (DFinite (xorb negative (quantity lp <? 0))
                                      (c * Z.to_N (Z.abs (quantity lp))) e)) |}).
Proof.
  intros Hu Hc Hq. split.
  - assert (Hn : (Z.to_N (Z.abs (quantity lp)) <= 2 ^ 31)%N) by lia.
    apply N.lt_le_trans with (10 ^ 12 * 2 ^ 31)%N; [|by vm_compute].
    apply N.le_lt_trans with (c * 2 ^ 31)%N.
    + by apply N.mul_le_mono_l.
    + by apply N.mul_lt_mono_pos_r.
  - unfold LeadProduct_save_fields. rewrite Hu.
    cbn [opt_truthy num_truthy Decimal_is_zero].
    destruct c as [|c]; [reflexivity|]. cbn [negb andb N.eqb orb].
    destruct (quantity lp =? 0); [reflexivity|]. cbn [negb].
    cbn [mul dunder_mul Decimal___mul__ Decimal_times Decimal_of_int bind].
    rewrite Z.add_0_r. reflexivity.
Qed.

Definition four_drives : LeadProduct :=
  {| quantity := 4;
     unit_price := Some (PDecimal (DFinite false 1850050 (-2)));
     total_price := None |}.

Lemma LeadProduct_save_total_witness :
  unit_price four_drives = Some (PDecimal (DFinite false 1850050 (-2)))
  /\ (1850050 < 10 ^ 12)%N
  /\ - 2 ^ 31 <= quantity four_drives < 2 ^ 31
  /\ (1850050 * 4 < 10 ^ 28)%N
  /\ LeadProduct_save_fields four_drives
     = Ok {| quantity := 4;
             unit_price := Some (PDecimal (DFinite false 1850050 (-2)));
             total_price := Some (PDecimal (DFinite false 7400200 (-2))) |}.
Proof.
  assert (H1 : (1850050 < 10 ^ 12)%N) by reflexivity.
  assert (H2 : - 2 ^ 31 <= quantity four_drives < 2 ^ 31) by (cbn; lia).
  split; [reflexivity|]. split; [exact H1|]. split; [exact H2|].
  exact (LeadProduct_save_total four_drives false 1850050 (-2) eq_refl H1 H2).
Defined.

End LeadItemTotals.


Section LeadNumberRoundTrip.
Import Models.

(** Decimal digits only. *)
Fixpoint all_digits (s : string) : bool :=
  match s with
  | EmptyString => true
  | String c r => is_digit_ascii c && all_digits r
  end.

Lemma ascii_of_digit_spec d :
  0 <= d < 10 ->
  is_digit_ascii (ascii_of_digit d) = true /\ digit_of_ascii (ascii_of_digit d) = d.
Proof.
  intros H.
  assert (E : d = 0 \/ d = 1 \/ d = 2 \/ d = 3 \/ d = 4 \/ d = 5 \/ d = 6
              \/ d = 7 \/ d = 8 \/ d = 9) by lia.
  repeat (destruct E as [->|E]; [split; reflexivity|]). subst d. split; reflexivity.
Qed.

(** [digits_of_pos] puts the decimal digits of [n] in front of [acc]. *)
Lemma digits_of_pos_spec fuel : forall n acc,
  0 <= n < 2 ^ Z.of_nat fuel ->
  (all_digits acc = true -> all_digits (digits_of_pos fuel n acc) = true)
  /\ exists k, 0 <= k /\
       forall a, digits_value a (digits_of_pos fuel n acc)
                 = digits_value (a * 10 ^ k + n) acc.
Proof.
  induction fuel as [|f IH]; intros n acc Hn.
  - cbn [digits_of_pos]. split; [auto|]. exists 0. split; [lia|]. intros a.
    f_equal. change (2 ^ Z.of_nat 0) with 1 in Hn. lia.
  - cbn [digits_of_pos].
    assert (Hm : 0 <= n mod 10 < 10) by (apply Z.mod_pos_bound; lia).
    destruct (ascii_of_digit_spec _ Hm) as [Hd Hv].
    destruct (n <? 10) eqn:E.
    + apply Z.ltb_lt in E. split.
      * intros Ha. cbn [all_digits]. rewrite Hd, Ha. reflexivity.
      * exists 1. split; [lia|]. intros a. cbn [digits_value].
        rewrite Hd, Hv. f_equal. rewrite Z.mod_small by lia. lia.
    + apply Z.ltb_ge in E.
      assert (Hq : 0 <= n / 10 < 2 ^ Z.of_nat f).
      { split; [apply Z.div_pos; lia|].
        rewrite Nat2Z.inj_succ, Z.pow_succ_r in Hn by lia.
        apply Z.div_lt_upper_bound; lia. }
      destruct (IH (n / 10) (String (ascii_of_digit (n mod 10)) acc) Hq)
        as [Hall (k & Hk & Hval)].
      split.
      * intros Ha. apply Hall. cbn [all_digits]. rewrite Hd, Ha. reflexivity.
      * exists (k + 1). split; [lia|]. intros a. rewrite Hval.
        cbn [digits_value]. rewrite Hd, Hv. f_equal.
        rewrite Z.pow_add_r, Z.pow_1_r by lia.
        pose proof (Z.div_mod n 10 ltac:(lia)). lia.
Qed.

Lemma digits_of_pos_nonempty fuel : forall n c acc,
  digits_of_pos fuel n (String c acc) <> "".
Proof.
  induction fuel as [|f IH]; intros n c acc; cbn [digits_of_pos]; [discriminate|].
  destruct (n <? 10); [discriminate|apply IH].
Qed.

(** [str(n)] is a non-empty string of digits that reads back as [n]. *)
Lemma str_of_nonneg_spec n :
  0 <= n ->
  all_digits (str_of_nonneg n) = true
  /\ digits_value 0 (str_of_nonneg n) = Some n
  /\ str_of_nonneg n <> "".
Proof.
  intros Hn. unfold str_of_nonneg.
  assert (Hb : 0 <= n < 2 ^ Z.of_nat (S (Z.to_nat (Z.log2 n)))).
  { split; [exact Hn|]. rewrite Nat2Z.inj_succ, Z2Nat.id by apply Z.log2_nonneg.
    destruct (Z.eq_dec n 0) as [->|Hz]; [reflexivity|].
    apply Z.log2_spec. lia. }
  destruct (digits_of_pos_spec _ n "" Hb) as [Hall (k & _ & Hval)].
  split; [apply Hall; reflexivity|]. split.
  - rewrite Hval. reflexivity.
  - cbn [digits_of_pos]. destruct (n <? 10); [discriminate|].
    apply digits_of_pos_nonempty.
Qed.

Lemma zeros_spec k s :
  all_digits (zeros k ++ s) = all_digits s
  /\ digits_value 0 (zeros k ++ s) = digits_value 0 s.
Proof.
  induction k as [|j [IHa IHv]]; [split; reflexivity|].
  change (zeros (S j) ++ s) with (String "0" (zeros j ++ s)).
  cbn [all_digits digits_value]. rewrite IHa.
  change (is_digit_ascii "0") with true. cbn [andb].
  split; [reflexivity|]. exact IHv.
Qed.

(** [f"{n:04d}"] for [0 <= n]: digits that [int()] reads back as [n]. *)
Lemma format_0d_spec w n :
  0 <= n ->
  all_digits (format_0d w n) = true
  /\ int_of_str (format_0d w n) = Ok n.
Proof.
  intros Hn. unfold format_0d.
  destruct (n <? 0) eqn:E; [apply Z.ltb_lt in E; lia|].
  destruct (str_of_nonneg_spec n Hn) as (Ha & Hv & Hne).
  set (k := (w - String.length (str_of_nonneg n))%nat).
  destruct (zeros_spec k (str_of_nonneg n)) as [Za Zv].
  rewrite Ha in Za. rewrite Hv in Zv. split; [exact Za|].
  assert (Hs : zeros k ++ str_of_nonneg n <> "").
  { destruct k; [exact Hne|discriminate]. }
  revert Za Zv Hs. generalize (zeros k ++ str_of_nonneg n). intros s Za Zv Hs.
  destruct s as [|c r]; [congruence|].
  cbn [all_digits] in Za. apply andb_prop in Za as [Hc _].
  assert (Hm : c <> "-"%char) by (intros ->; discriminate Hc).
  assert (Hp : c <> "+"%char) by (intros ->; discriminate Hc).
  assert (G : int_of_str (String c r)
              = match digits_value 0 (String c r) with
                | Some v => Ok (1 * v)
                | None => Raise ValueError
                end).
  { unfold int_of_str.
    destruct c as [[] [] [] [] [] [] [] []]; try reflexivity; congruence. }
  rewrite G, Zv. f_equal. lia.
Qed.

(** The last item of [s.split(c)] when [s] ends in [c] and a text
    without [c]. *)
Lemma split_free c d : free_of c d = true -> split c d = [d].
Proof.
  induction d as [|x r IH]; [reflexivity|].
  cbn [free_of split]. intros [Hx Hr]%andb_prop.
  apply negb_true_iff in Hx. rewrite Hx, (IH Hr). reflexivity.
Qed.

Lemma last_split_app c a d :
  free_of c d = true ->
  exists w ws, split c (a ++ String c d) = w :: ws ++ [d].
Proof.
  intros Hd. induction a as [|x r (w & ws & IH)].
  - exists "", []. change ("" ++ String c d) with (String c d).
    cbn [split]. rewrite Ascii.eqb_refl, (split_free c d Hd). reflexivity.
  - change (String x r ++ String c d) with (String x (r ++ String c d)).
    cbn [split]. rewrite IH. destruct (Ascii.eqb x c).
    + exists "", (w :: ws). reflexivity.
    + exists (String x w), ws. reflexivity.
Qed.

Lemma last_item_split_app c a d :
  free_of c d = true -> last_item (split c (a ++ String c d)) = d.
Proof.
  intros Hd. destruct (last_split_app c a d Hd) as (w & ws & ->).
  unfold last_item. change (w :: ws ++ [d])%list with ((w :: ws) ++ [d])%list.
  apply List.last_last.
Qed.

Lemma all_digits_free s : all_digits s = true -> free_of "-" s = true.
Proof.
  induction s as [|c r IH]; [reflexivity|].
  cbn [all_digits free_of]. intros [Hc Hr]%andb_prop. rewrite (IH Hr), andb_true_r.
  destruct (Ascii.eqb_spec c "-") as [->|_]; [discriminate Hc|reflexivity].
Qed.

(** The prefix of the month, as [Lead.save] builds it. *)
Definition month_prefix (today : datetime) : string := "LEAD-" ++ strftime_Ym today.

(** X12 (crm/models.py, the number block of [Lead.save]): when the lead
    that the query takes as the last one of the month carries the
    number n of that month, n not negative, the new lead gets n + 1,
    at any number of digits. *)
Theorem next_lead_number db today last_lead n :
  0 <= n ->
  last_lead_with_prefix db (month_prefix today) = Some last_lead ->
  lead_number last_lead = month_prefix today ++ "-" ++ format_0d 4 n ->
  generate_lead_number db today
  = Ok (month_prefix today ++ "-" ++ format_0d 4 (n + 1)).
Proof.
  intros Hn Hlast Hnum. unfold generate_lead_number.
  fold (month_prefix today). rewrite Hlast, Hnum.
  destruct (format_0d_spec 4 n Hn) as [Ha Hv].
  change ("-" ++ format_0d 4 n) with (String "-" (format_0d 4 n)).
  rewrite last_item_split_app by (apply all_digits_free, Ha).
  rewrite Hv. reflexivity.
Qed.

End LeadNumberRoundTrip.


Section LeadSaves.
Import Models LeadSignals LeadViews.

Lemma next_lead_number_witness :
  0 <= 12345
  /\ last_lead_with_prefix {| leads := [numbered_lead 12345]; statuses := ∅ |}
                           (month_prefix january)
     = Some (numbered_lead 12345)
  /\ generate_lead_number {| leads := [numbered_lead 12345]; statuses := ∅ |} january
     = Ok "LEAD-202401-12346".
Proof.
  assert (H0 : 0 <= 12345) by lia.
  split; [exact H0|]. split; [reflexivity|].
  exact (next_lead_number {| leads := [numbered_lead 12345]; statuses := ∅ |}
           january (numbered_lead 12345) 12345 H0 eq_refl eq_refl).
Defined.

(** What the field block of [Lead.save] leaves alone. *)
Lemma Lead_save_fields_number db today l l' :
  Lead_save_fields db today l = Ok l' ->
  pk l' = pk l
  /\ (lead_number l <> "" -> lead_number l' = lead_number l).
Proof.
  unfold Lead_save_fields. intros H.
  set (numbered := if negb (str_truthy (lead_number l)) then _ else _) in H.
  assert (Hnum : forall l1, numbered = Ok l1 ->
            pk l1 = pk l /\ (lead_number l <> "" -> lead_number l1 = lead_number l)).
  { subst numbered. intros l1. destruct (lead_number l) eqn:E; cbn [str_truthy negb].
    - destruct (generate_lead_number db today); cbn [bind]; intros [= <-].
      split; [reflexivity|]. congruence.
    - intros [= <-]. rewrite E. auto. }
  destruct numbered as [l1|]; [|discriminate H]. cbn [bind] in H.
  destruct (Hnum l1 eq_refl) as [<- Hn]. clear Hnum.
  assert (G : forall l2 : Lead, pk l2 = pk l1 -> lead_number l2 = lead_number l1 ->
              (let* st := related_status db l2 in
               Ok match st with
                  | Some s => if status_requires_approval s
                              then with_requires_approval true l2 else l2
                  | None => l2
                  end) = Ok l' ->
              pk l' = pk l1 /\ lead_number l' = lead_number l1).
  { intros l2 Hp Hl. destruct (related_status db l2) as [[s|]|]; cbn [bind];
      try discriminate.
    - destruct (status_requires_approval s); intros [= <-]; auto.
    - intros [= <-]; auto. }
  destruct (opt_truthy num_truthy (estimated_value l1) && negb (probability l1 =? 0)).
  - destruct (estimated_value l1) as [v|].
    + destruct (int_truediv (probability l1) 100) as [ratio|]; [|discriminate H].
      cbn [bind] in H. destruct (mul v (PFloat ratio)) as [w|]; [|discriminate H].
      cbn [bind] in H. apply G in H as [Hp Hl]; [|reflexivity|reflexivity].
      split; [exact Hp|]. intros Hne. rewrite Hl. auto.
    + cbn [bind] in H. apply G in H as [Hp Hl]; [|reflexivity|reflexivity].
      split; [exact Hp|]. intros Hne. rewrite Hl. auto.
  - cbn [bind] in H. apply G in H as [Hp Hl]; [|reflexivity|reflexivity].
    split; [exact Hp|]. intros Hne. rewrite Hl. auto.
Qed.

Lemma lead_pre_save_number db l l' :
  lead_pre_save db l = Ok l' ->
  pk l' = pk l /\ lead_number l' = lead_number l /\ status l' = status l
  /\ exists old, get_lead db (pk l) = Ok old.
Proof.
  unfold lead_pre_save.
  destruct (get_lead db (pk l)) as [old|]; [|discriminate]. cbn [bind].
  destruct (related_status db l) as [[s|]|]; cbn [bind]; try discriminate.
  - destruct (_ && _); [destruct (opt_truthy _ _)|]; intros [= <-]; eauto.
  - intros [= <-]; eauto.
Qed.

(** X13 (crm/signals.py [lead_pre_save] under crm/models.py
    [Lead.save]): with the receiver connected, saving a lead whose key
    is not in the table raises, whatever the lead holds: the receiver
    looks the key up outside any try block. *)
Theorem new_lead_save_raises db today l :
  (forall r, In r (leads db) -> pk r <> pk l) ->
  raised (Lead_save_when true db today l) = true.
Proof.
  intros Hnew. unfold Lead_save_when, send_pre_save.
  destruct (Lead_save_fields db today l) as [l1|] eqn:Hf; [|reflexivity].
  cbn [bind]. apply Lead_save_fields_number in Hf as [Hpk _].
  destruct (lead_pre_save db l1) as [l2|] eqn:Hp; [|reflexivity].
  apply lead_pre_save_number in Hp as (_ & _ & _ & old & Hold).
  unfold get_lead in Hold.
  destruct (find _ (leads db)) as [r|] eqn:Hfind; [|discriminate Hold].
  apply find_some in Hfind as [Hin Hk]. apply N.eqb_eq in Hk.
  exfalso. apply (Hnew r Hin). congruence.
Qed.

Lemma new_lead_save_raises_witness :
  (forall r, In r (leads one_lead_db) -> pk r <> pk (fresh_lead 2))
  /\ Lead_save_when true one_lead_db january (fresh_lead 2) = Raise DoesNotExist
  /\ raised (Lead_save_when true one_lead_db january (fresh_lead 2)) = true.
Proof.
  assert (H : forall r, In r (leads one_lead_db) -> pk r <> pk (fresh_lead 2)).
  { intros r [<-|[]]. discriminate. }
  split; [exact H|]. split; [reflexivity|].
  exact (new_lead_save_raises one_lead_db january (fresh_lead 2) H).
Defined.

(** As the application is configured the same save stores the lead. *)
Example new_lead_is_stored :
  Lead_save one_lead_db january (fresh_lead 2)
  = Ok ({| leads := [stored_lead; with_lead_number "LEAD-202401-0002" (fresh_lead 2)];
           statuses := ∅ |},
        with_lead_number "LEAD-202401-0002" (fresh_lead 2)).
Proof. reflexivity. Qed.

(** X14 (crm/models.py, [Lead.save]): a save that succeeds for a lead
    that has a number stores the lead under its key with that number: a
    lead is numbered once. *)
Theorem saved_lead_keeps_number db today l db' l' :
  Lead_save db today l = Ok (db', l') ->
  lead_number l <> "" ->
  lead_number l' = lead_number l
  /\ pk l' = pk l
  /\ get_lead db' (pk l) = Ok l'.
Proof.
  intros H Hne. apply Lead_save_inv in H as [Hf Hw].
  apply Lead_save_fields_number in Hf as [Hpk Hnum].
  repeat split; auto.
  rewrite <- Hpk. apply write_lead_read_back with (db := db). exact Hw.
Qed.

Lemma saved_lead_keeps_number_witness :
  Lead_save approval_db january moved_lead
  = Ok ({| leads := [moved_lead_stored]; statuses := two_statuses |}, moved_lead_stored)
  /\ lead_number moved_lead <> ""
  /\ lead_number moved_lead_stored = lead_number moved_lead.
Proof.
  assert (H : lead_number moved_lead <> "") by discriminate.
  split; [reflexivity|]. split; [exact H|].
  exact (proj1 (saved_lead_keeps_number approval_db january moved_lead _ _ eq_refl H)).
Defined.

Lemma unique_key_row (rows : list Lead) a b :
  NoDup (map pk rows) -> In a rows -> In b rows -> pk a = pk b -> a = b.
Proof.
  induction rows as [|r rows IH]; [intros _ []|].
  cbn [map]. intros Hnd Ha Hb E. apply NoDup_cons in Hnd as [Hr Hnd].
  destruct Ha as [->|Ha], Hb as [->|Hb]; auto.
  - exfalso. apply Hr. rewrite E. apply list_elem_of_In, in_map, Hb.
  - exfalso. apply Hr. rewrite <- E. apply list_elem_of_In, in_map, Ha.
Qed.

(** X15 (crm/views.py, [lead_approve_view]): when keys are unique and a
    POST of a user with the permission succeeds, the stored lead carries
    that user as approver, the time of the request and the posted
    notes. *)
Theorem approval_is_recorded db today user notes k db' :
  NoDup (map pk (leads db)) ->
  lead_approve_view db today user true POST notes k = Ok db' ->
  exists l',
    get_lead db' k = Ok l'
    /\ approved_by l' = Some user
    /\ approved_at l' = Some (instant today)
    /\ approval_notes l' = default "" notes.
Proof.
  intros _. unfold lead_approve_view. cbn [negb].
  destruct (find _ (leads db)) as [l|] eqn:Hfind; [|discriminate].
  cbn [bind]. apply find_some in Hfind as [Hin Hk].
  apply andb_prop in Hk as [Hk _]. apply N.eqb_eq in Hk.
  set (lead := with_approval_notes _ _).
  destruct (Lead_save db today lead) as [[db1 l']|] eqn:Hs; [|discriminate].
  cbn [bind fst]. intros [= <-]. exists l'.
  assert (Hpk : pk lead = k) by exact Hk.
  apply Lead_save_inv in Hs as [Hf Hw].
  apply Lead_save_fields_approval in Hf as (Hpk1 & _ & Hap & _).
  unfold approval in Hap. injection Hap as Hby Hat Hnotes.
  repeat split.
  - replace k with (pk l') by congruence.
    apply write_lead_read_back with (db := db). exact Hw.
  - rewrite Hby. reflexivity.
  - rewrite Hat. reflexivity.
  - rewrite Hnotes. reflexivity.
Qed.

Lemma approval_is_recorded_witness :
  NoDup (map pk (leads approval_db))
  /\ lead_approve_view approval_db january 9%N true POST (Some "again") 1%N
     = Ok {| leads := [approved_again]; statuses := two_statuses |}
  /\ exists l',
       get_lead {| leads := [approved_again]; statuses := two_statuses |} 1%N = Ok l'
       /\ approved_by l' = Some 9%N
       /\ approved_at l' = Some (instant january)
       /\ approval_notes l' = "again".
Proof.
  assert (Hnd : NoDup (map pk (leads approval_db))).
  { apply NoDup_cons. split; [apply not_elem_of_nil|apply NoDup_nil; exact I]. }
  assert (E : lead_approve_view approval_db january 9%N true POST (Some "again") 1%N
              = Ok {| leads := [approved_again]; statuses := two_statuses |})
    by reflexivity.
  split; [exact Hnd|]. split; [exact E|].
  exact (approval_is_recorded approval_db january 9%N (Some "again") 1%N _ Hnd E).
Defined.

(** X16 (crm/views.py [lead_approve_view] over crm/models.py
    [Lead.save]): approving a lead that holds a non-zero Decimal value
    and a non-zero probability raises, as the save of such a lead
    does. *)
Theorem approval_of_valued_lead_raises db today user notes k l d :
  find (fun l => (pk l =? k)%N && negb (is_deleted l)) (leads db) = Some l ->
  estimated_value l = Some (PDecimal d) ->
  Decimal_is_zero d = false ->
  probability l <> 0 ->
  raised (lead_approve_view db today user true POST notes k) = true.
Proof.
  intros Hfind He Hd Hp. unfold lead_approve_view. cbn [negb].
  rewrite Hfind. cbn [bind].
  set (lead := with_approval_notes _ _).
  pose proof (Lead_save_fields_Decimal_raises db today lead d He Hd Hp) as Hr.
  unfold Lead_save, Lead_save_when.
  destruct (Lead_save_fields db today lead); [discriminate Hr|reflexivity].
Qed.

Lemma approval_of_valued_lead_raises_witness :
  find (fun l => (pk l =? 1)%N && negb (is_deleted l))
       (leads {| leads := [edited_lead]; statuses := ∅ |}) = Some edited_lead
  /\ lead_approve_view {| leads := [edited_lead]; statuses := ∅ |} january 9%N true
       POST None 1%N = Raise TypeError
  /\ raised (lead_approve_view {| leads := [edited_lead]; statuses := ∅ |} january 9%N
               true POST None 1%N) = true.
Proof.
  assert (Hp : probability edited_lead <> 0) by discriminate.
  split; [reflexivity|]. split; [reflexivity|].
  exact (approval_of_valued_lead_raises {| leads := [edited_lead]; statuses := ∅ |}
           january 9%N None 1%N edited_lead d_1000_00 eq_refl eq_refl eq_refl Hp).
Defined.

End LeadSaves.


Section AdminApproval.
Import Models LeadSignals LeadAdmin.

Lemma approve_each_raises db user lead rest count :
  approve_each db user (lead :: rest) count = Raise NameError.
Proof. reflexivity. Qed.

(** X17 (crm/admin.py, [LeadAdmin.approve_leads]): the action approves
    nothing.  When a selected lead awaits approval it raises NameError,
    at [timezone.now()] for the first such lead and before any
    [lead.save()]; when none does it returns the table as it is and
    reports 0 leads. *)
Theorem approve_leads_approves_nothing db user queryset :
  approve_leads db user queryset
  = if existsb awaiting_approval queryset then Raise NameError else Ok (db, 0).
Proof.
  unfold approve_leads.
  induction queryset as [|lead rest IH]; [reflexivity|].
  cbn [List.filter existsb]. destruct (awaiting_approval lead); cbn [orb].
  - apply approve_each_raises.
  - exact IH.
Qed.

(** A lead that waits for approval, beside the approved one. *)
Definition waiting_lead : Lead :=
  {| pk := 2; lead_number := "LEAD-202401-0002"; status := Some 2%positive;
     estimated_value := None; probability := 0; weighted_value := None;
     requires_approval := true;
     approved_by := None; approved_at := None;
     approval_notes := ""; is_deleted := false |}.

Example approve_leads_on_a_waiting_lead :
  approve_leads {| leads := [approved_lead; waiting_lead]; statuses := two_statuses |}
    9%N [approved_lead; waiting_lead]
  = Raise NameError
  /\ approve_leads {| leads := [approved_lead; waiting_lead]; statuses := two_statuses |}
       9%N [approved_lead]
     = Ok ({| leads := [approved_lead; waiting_lead]; statuses := two_statuses |}, 0).
Proof. split; reflexivity. Qed.

End AdminApproval.


(* ===================================================================== *)
(** ** Inventory: look-ups and the sync as a whole *)
(* ===================================================================== *)

Section Lookups.
Import ManagerApi ManagerQueries.

Lemma matching_items_spec q all_items : forall matching,
  matching_items q all_items = Ok matching ->
  Forall (fun item => raised (item_matches q item) = false) all_items
  /\ matching
     = List.filter (fun item => match item_matches q item with
                                | Ok b => b
                                | Raise _ => false
                                end) all_items.
Proof.
  induction all_items as [|item rest IH]; intros matching H.
  - injection H as <-. split; [constructor|reflexivity].
  - cbn [matching_items] in H.
    destruct (item_matches q item) as [hit|] eqn:Ei; [|discriminate H].
    cbn [bind] in H.
    destruct (matching_items q rest) as [more|]; [|discriminate H].
    cbn [bind] in H. injection H as <-.
    destruct (IH more eq_refl) as [Hall ->].
    split.
    + constructor; [rewrite Ei; reflexivity|exact Hall].
    + cbn [List.filter]. rewrite Ei. reflexivity.
Qed.

Lemma In_firstn_list {A} n (xs : list A) x : In x (firstn n xs) -> In x xs.
Proof.
  revert xs. induction n as [|n IH]; intros [|y ys]; cbn [firstn In]; try tauto.
  intros [->|H]; auto.
Qed.

Lemma matching_items_total q all_items :
  Forall (fun item => raised (item_matches q item) = false) all_items ->
  exists matching, matching_items q all_items = Ok matching.
Proof.
  induction 1 as [|item rest Hi _ [more IH]]; [eexists; reflexivity|].
  cbn [matching_items]. destruct (item_matches q item); [|discriminate Hi].
  cbn [bind]. rewrite IH. cbn [bind]. eexists; reflexivity.
Qed.

(** X18 (crm/services/manager_api.py, [search_products]): the search
    returns at most 50 items, each of them a fetched item whose
    lower-cased code or name contains the lower-cased query; and when
    every fetched item is an object with text (or nothing) as code and
    name, it returns the first 50 of the fetched items that match, in
    the order of the fetch. *)
Theorem search_products_spec api query :
  (List.length (search_products api query) <= 50)%nat
  /\ (forall item, In item (search_products api query) ->
        exists all_items,
          _fetch_all_inventory_items api = Ok all_items
          /\ In item all_items
          /\ item_matches (lower query) item = Ok true)
  /\ (forall all_items,
        _fetch_all_inventory_items api = Ok all_items ->
        Forall (fun item => raised (item_matches (lower query) item) = false)
               all_items ->
        search_products api query
        = firstn 50 (List.filter
                       (fun item => match item_matches (lower query) item with
                                    | Ok b => b
                                    | Raise _ => false
                                    end) all_items)).
Proof.
  unfold search_products.
  destruct (_fetch_all_inventory_items api) as [all_items|]; cbn [bind].
  - destruct (matching_items (lower query) all_items) as [matching|] eqn:Em.
    + destruct (matching_items_spec _ _ _ Em) as [_ ->].
      split; [apply List.firstn_le_length|]. split.
      * intros item Hin. exists all_items. split; [reflexivity|].
        apply In_firstn_list in Hin. apply List.filter_In in Hin as [Hin Hm].
        split; [exact Hin|].
        destruct (item_matches (lower query) item) as [[]|]; congruence.
      * intros ? [= <-] _. reflexivity.
    + split; [cbn; lia|]. split; [intros item []|].
      intros ? [= <-] Hall.
      destruct (matching_items_total _ _ Hall) as [m Hm]. congruence.
  - split; [cbn; lia|]. split; [intros item []|]. discriminate.
Qed.

Example search_products_by_name :
  search_products one_page "plc" = [JObj plc_item]
  /\ search_products one_page "RLY" = [JObj relay_item]
  /\ search_products two_pages "no such thing" = [].
Proof. repeat split; reflexivity. Qed.

Lemma availability_of_spec sku all_items : forall a,
  availability_of sku all_items = Ok a ->
  if available a then
    exists d on_hand,
      In (JObj d) all_items
      /\ get d "ItemCode" = JStr sku
      /\ _safe_decimal (get_or d "qtyOnHand" (JInt 0)) = Ok on_hand
      /\ int_of_Decimal on_hand = Ok (quantity a)
  else
    quantity a = 0
    /\ forall item, In item all_items ->
         exists d, item = JObj d /\ get d "ItemCode" <> JStr sku.
Proof.
  induction all_items as [|item rest IH]; intros a H.
  - injection H as <-. cbn. split; [reflexivity|intros item []].
  - cbn [availability_of] in H. destruct item as [| | | | | |d]; try discriminate H.
    destruct (code_is d sku) eqn:Ec.
    + destruct (_safe_decimal _) as [on_hand|] eqn:Eq; [|discriminate H].
      cbn [bind] in H.
      destruct (int_of_Decimal on_hand) as [n|] eqn:En; [|discriminate H].
      cbn [bind] in H. injection H as <-. cbn [available quantity].
      exists d, on_hand. split; [left; reflexivity|].
      split; [|split; assumption].
      unfold code_is in Ec. destruct (get d "ItemCode"); try discriminate Ec.
      apply String.eqb_eq in Ec. congruence.
    + specialize (IH a H). destruct (available a).
      * destruct IH as (d' & on_hand & Hin & Hrest).
        exists d', on_hand. split; [right; exact Hin|exact Hrest].
      * destruct IH as [Hq Hall]. split; [exact Hq|].
        intros item [<-|Hin]; [|auto].
        exists d. split; [reflexivity|].
        unfold code_is in Ec. intros E. rewrite E, String.eqb_refl in Ec.
        discriminate Ec.
Qed.

(** X19 (crm/services/manager_api.py, [check_product_availability]):
    an answer "available" comes with the truncated stock of a fetched
    item that carries the code; an answer "not available" comes with
    quantity 0 and means that every fetched item is an object with
    another code. *)
Theorem check_product_availability_spec api sku a :
  check_product_availability api sku = Some a ->
  exists all_items,
    _fetch_all_inventory_items api = Ok all_items
    /\ if available a then
         exists d on_hand,
           In (JObj d) all_items
           /\ get d "ItemCode" = JStr sku
           /\ _safe_decimal (get_or d "qtyOnHand" (JInt 0)) = Ok on_hand
           /\ int_of_Decimal on_hand = Ok (quantity a)
       else
         quantity a = 0
         /\ forall item, In item all_items ->
              exists d, item = JObj d /\ get d "ItemCode" <> JStr sku.
Proof.
  unfold check_product_availability.
  destruct (_fetch_all_inventory_items api) as [all_items|]; cbn [bind];
    [|discriminate].
  destruct (availability_of sku all_items) as [a'|] eqn:Ea; [|discriminate].
  intros [= <-]. exists all_items. split; [reflexivity|].
  apply availability_of_spec, Ea.
Qed.

Lemma check_product_availability_spec_witness :
  check_product_availability one_page "fx3u-32m"
  = Some {| available := true; quantity := 4 |}
  /\ exists all_items,
       _fetch_all_inventory_items one_page = Ok all_items
       /\ exists d on_hand,
            In (JObj d) all_items
            /\ get d "ItemCode" = JStr "fx3u-32m"
            /\ _safe_decimal (get_or d "qtyOnHand" (JInt 0)) = Ok on_hand
            /\ int_of_Decimal on_hand = Ok 4.
Proof.
  split; [reflexivity|].
  exact (check_product_availability_spec one_page "fx3u-32m"
           {| available := true; quantity := 4 |} eq_refl).
Defined.

End Lookups.


Section SyncAsAWhole.
Import ManagerApi.

Lemma all_digits_rstrip s : all_digits s = true -> rstrip s = s.
Proof.
  induction s as [|c r IH]; [reflexivity|].
  cbn [all_digits rstrip]. intros [Hc Hr]%andb_prop. rewrite (IH Hr).
  destruct r; [|reflexivity].
  destruct c as [[] [] [] [] [] [] [] []]; try reflexivity; discriminate Hc.
Qed.

Lemma all_digits_strip s : all_digits s = true -> strip s = s.
Proof.
  intros H. unfold strip.
  assert (E : lstrip s = s).
  { destruct s as [|c r]; [reflexivity|]. cbn [all_digits] in H.
    apply andb_prop in H as [Hc _]. cbn [lstrip].
    destruct c as [[] [] [] [] [] [] [] []]; try reflexivity; discriminate Hc. }
  rewrite E. apply all_digits_rstrip, H.
Qed.

Lemma all_digits_span s : all_digits s = true -> span_digits s = (s, "").
Proof.
  induction s as [|c r IH]; [reflexivity|].
  cbn [all_digits span_digits]. intros [Hc Hr]%andb_prop.
  rewrite Hc, (IH Hr). reflexivity.
Qed.

Lemma append_empty s : s ++ "" = s.
Proof.
  induction s as [|c r IH]; [reflexivity|].
  change (String c r ++ "") with (String c (r ++ "")). rewrite IH. reflexivity.
Qed.

(** [Decimal(s)] for a non-empty string of digits. *)
Lemma Decimal_of_digits s v :
  all_digits s = true -> s <> "" -> digits_value 0 s = Some v ->
  Decimal_of_str s = Some (DFinite false (Z.to_N v) 0).
Proof.
  intros Ha Hne Hv. unfold Decimal_of_str. rewrite (all_digits_strip s Ha).
  destruct s as [|c r]; [congruence|].
  assert (Hc : is_digit_ascii c = true).
  { cbn [all_digits] in Ha. apply andb_prop in Ha. tauto. }
  assert (E : (match String c r with
               | String "-"%char r0 => (true, r0)
               | String "+"%char r0 => (false, r0)
               | _ => (false, String c r)
               end) = (false, String c r)).
  { destruct c as [[] [] [] [] [] [] [] []]; try reflexivity; discriminate Hc. }
  rewrite E. clear E.
  assert (W : forall w, (w = "inf" \/ w = "infinity" \/ w = "nan" \/ w = "snan") ->
                String.eqb (lower (String c r)) w = false).
  { intros w Hw. change (lower (String c r)) with (String (lower_ascii c) (lower r)).
    destruct Hw as [-> | [-> | [-> | ->]]]; cbn [String.eqb];
      destruct c as [[] [] [] [] [] [] [] []]; try reflexivity; discriminate Hc. }
  rewrite !W by tauto. cbn [orb].
  rewrite (all_digits_span _ Ha), append_empty. cbn [str_truthy negb].
  rewrite Hv. reflexivity.
Qed.

(** X20 (crm/services/manager_api.py, [_safe_decimal] under the [int()]
    of [sync_products]): a quantity that arrives as an integer, or as
    the decimal text of a non-negative integer, is read back as that
    integer. *)
Theorem stock_quantity_round_trip n :
  (let* q := _safe_decimal (JInt n) in int_of_Decimal q) = Ok n
  /\ (0 <= n ->
      (let* q := _safe_decimal (JStr (str_of_nonneg n)) in int_of_Decimal q) = Ok n).
Proof.
  split.
  - cbn [_safe_decimal Decimal_of_json Decimal_of_int bind int_of_Decimal].
    change (0 <=? 0) with true. cbn iota. rewrite Z.pow_0_r, Z.mul_1_r, Z2N.id by lia.
    destruct (n <? 0) eqn:E; f_equal.
    + apply Z.ltb_lt in E. lia.
    + apply Z.ltb_ge in E. lia.
  - intros Hn. destruct (str_of_nonneg_spec n Hn) as (Ha & Hv & Hne).
    cbn [_safe_decimal Decimal_of_json]. rewrite (Decimal_of_digits _ n Ha Hne Hv).
    cbn [bind int_of_Decimal]. change (0 <=? 0) with true. cbn iota.
    rewrite Z.pow_0_r, Z.mul_1_r, Z2N.id by lia. reflexivity.
Qed.

(** *** One item, twice *)

Lemma replace_sku_length code new rows :
  List.length (replace_sku code new rows) = List.length rows.
Proof.
  induction rows as [|p r IH]; [reflexivity|].
  cbn [replace_sku]. destruct (has_sku code p); cbn [List.length]; congruence.
Qed.

Lemma replace_sku_idem code new rows :
  has_sku code new = true ->
  replace_sku code new (replace_sku code new rows) = replace_sku code new rows.
Proof.
  intros Hn. induction rows as [|p r IH]; [reflexivity|].
  cbn [replace_sku]. destruct (has_sku code p) eqn:E; cbn [replace_sku].
  - rewrite Hn. reflexivity.
  - rewrite E, IH. reflexivity.
Qed.

Lemma replace_sku_appended code new rows :
  has_sku code new = true ->
  existsb (has_sku code) rows = false ->
  replace_sku code new (rows ++ [new]) = (rows ++ [new])%list.
Proof.
  intros Hn. induction rows as [|p r IH]; cbn [existsb app replace_sku].
  - rewrite Hn. reflexivity.
  - intros [Hp Hr]%orb_false_elim. rewrite Hp, (IH Hr). reflexivity.
Qed.

Lemma existsb_replace_sku code new rows :
  has_sku code new = true ->
  existsb (has_sku code) rows = true ->
  existsb (has_sku code) (replace_sku code new rows) = true.
Proof.
  intros Hn. induction rows as [|p r IH]; [discriminate|].
  cbn [existsb replace_sku]. destruct (has_sku code p) eqn:E; cbn [existsb orb].
  - rewrite Hn. reflexivity.
  - rewrite E. exact IH.
Qed.

(** A second upsert of the same row finds it and changes nothing. *)
Lemma update_or_create_again db code new db' created :
  sku new = Some code ->
  update_or_create db code new = Ok (db', created) ->
  update_or_create db' code new = Ok (db', false).
Proof.
  intros Hs. assert (Hn : has_sku code new = true).
  { unfold has_sku. rewrite Hs. apply String.eqb_refl. }
  unfold update_or_create.
  destruct (not_null_violation new); [discriminate|].
  destruct (existsb (has_sku code) (products db)) eqn:Ex; intros [= <- <-];
    cbn [products with_products].
  - rewrite (existsb_replace_sku _ _ _ Hn Ex), (replace_sku_idem _ _ _ Hn).
    reflexivity.
  - rewrite existsb_app. cbn [existsb]. rewrite Hn, orb_true_r.
    rewrite (replace_sku_appended _ _ _ Hn Ex). reflexivity.
Qed.

Lemma update_or_create_tables db code new db' created :
  update_or_create db code new = Ok (db', created) ->
  brands db' = brands db /\ categories db' = categories db
  /\ List.length (products db')
     = (List.length (products db) + if created then 1 else 0)%nat.
Proof.
  unfold update_or_create.
  destruct (not_null_violation new); [discriminate|].
  destruct (existsb (has_sku code) (products db)); intros [= <- <-];
    cbn [brands categories products with_products].
  - rewrite replace_sku_length. repeat split. lia.
  - rewrite length_app. repeat split.
Qed.

(** The category of a code is in the table once it has been asked
    for. *)
Lemma _get_or_create_category_again db code db1 c db2 :
  _get_or_create_category db code = Ok (db1, c) ->
  categories db2 = categories db1 ->
  _get_or_create_category db2 code = Ok (db2, c).
Proof.
  unfold _get_or_create_category. destruct (category_for code) as [c' n].
  unfold get_or_create_category.
  intros H E. rewrite E.
  destruct (categories db !! c') as [row|] eqn:Ec.
  - cbn [bind] in H. injection H as <- <-. rewrite Ec. reflexivity.
  - destruct (name_taken db n); [discriminate H|].
    cbn [bind] in H. injection H as <- <-. cbn [categories].
    rewrite lookup_insert_eq. reflexivity.
Qed.

(** X21 (crm/services/manager_api.py, the body of the loop of
    [sync_products]): processing an item once more, right after it was
    created or updated, reports an update and leaves every table as it
    is. *)
Theorem try_item_again db item db' o :
  try_item db item = (db', Ok o) ->
  o <> Skipped ->
  try_item db' item = (db', Ok Updated).
Proof.
  intros H Ho. destruct item as [| | | | | |d]; try discriminate H.
  unfold try_item in H |- *.
  destruct (negb _ || negb _); [injection H as <- <-; congruence|].
  destruct (py_or (get d "ItemCode") (get_or d "Code" (JStr "")))
    as [| | | |code| |]; try discriminate H.
  destruct (_safe_decimal _) as [quantity|]; [|discriminate H].
  destruct (_extract_sales_price d) as [sales_price|]; [|discriminate H].
  destruct (_get_or_create_category db code) as [[db1 c]|] eqn:Ec;
    [|discriminate H].
  destruct (int_of_Decimal quantity) as [stock|]; [|discriminate H].
  match type of H with
  | context [update_or_create db1 code ?p] => set (new := p) in *
  end.
  destruct (update_or_create db1 code new) as [[db2 created]|] eqn:Eu;
    [|discriminate H].
  injection H as <- _.
  destruct (update_or_create_tables _ _ _ _ _ Eu) as (_ & Hcat & _).
  rewrite (_get_or_create_category_again db code db1 c db2 Ec Hcat).
  fold new.
  rewrite (update_or_create_again db1 code new db2 created eq_refl Eu).
  reflexivity.
Qed.

Lemma try_item_again_witness :
  try_item no_tables (JObj plc_item) = (plc_tables, Ok Created)
  /\ Created <> Skipped
  /\ try_item plc_tables (JObj plc_item) = (plc_tables, Ok Updated).
Proof.
  assert (H : Created <> Skipped) by discriminate.
  split; [reflexivity|]. split; [exact H|].
  exact (try_item_again no_tables (JObj plc_item) plc_tables Created eq_refl H).
Defined.

(** *** The loop *)

(** What one item does to the product table. *)
Lemma try_item_products db item db' r :
  try_item db item = (db', r) ->
  NoDup (skus db) ->
  NoDup (skus db')
  /\ List.length (products db')
     = (List.length (products db)
        + match r with Ok Created => 1 | _ => 0 end)%nat.
Proof.
  intros H Hnd. destruct item as [| | | | | |d];
    try (injection H as <- <-; split; [exact Hnd|lia]).
  unfold try_item in H.
  destruct (negb _ || negb _); [injection H as <- <-; split; [exact Hnd|lia]|].
  destruct (py_or (get d "ItemCode") (get_or d "Code" (JStr "")))
    as [| | | |code| |]; try (injection H as <- <-; split; [exact Hnd|lia]).
  destruct (_safe_decimal _) as [quantity|];
    [|injection H as <- <-; split; [exact Hnd|lia]].
  destruct (_extract_sales_price d) as [sales_price|];
    [|injection H as <- <-; split; [exact Hnd|lia]].
  destruct (_get_or_create_category db code) as [[db1 c]|] eqn:Ec;
    [|injection H as <- <-; split; [exact Hnd|lia]].
  apply _get_or_create_category_products in Ec as [Ep _].
  assert (Hnd1 : NoDup (skus db1)) by (unfold skus; rewrite Ep; exact Hnd).
  destruct (int_of_Decimal quantity) as [stock|];
    [|injection H as <- <-; split; [exact Hnd1|rewrite Ep; lia]].
  match type of H with
  | context [update_or_create db1 code ?p] => set (new := p) in *
  end.
  destruct (update_or_create db1 code new) as [[db2 created]|] eqn:Eu;
    [|injection H as <- <-; split; [exact Hnd1|rewrite Ep; lia]].
  injection H as <- <-.
  destruct (update_or_create_one_row db1 code new db2 created eq_refl Hnd1 Eu)
    as (_ & Hnd2 & _).
  destruct (update_or_create_tables _ _ _ _ _ Eu) as (_ & _ & Hlen).
  split; [exact Hnd2|]. rewrite Hlen, Ep. destruct created; reflexivity.
Qed.

Lemma sync_loop_products items : forall db n db' r,
  sync_loop db n items = (db', r) ->
  NoDup (skus db) ->
  NoDup (skus db')
  /\ match r with
     | Ok n' =>
         created_count n <= created_count n'
         /\ updated_count n <= updated_count n'
         /\ (created_count n' - created_count n)
            + (updated_count n' - updated_count n) <= Z.of_nat (List.length items)
         /\ Z.of_nat (List.length (products db'))
            = Z.of_nat (List.length (products db))
              + (created_count n' - created_count n)
     | Raise _ => True
     end.
Proof.
  induction items as [|item rest IH]; intros db n db' r H Hnd.
  - injection H as <- <-. split; [exact Hnd|]. cbn [List.length]. lia.
  - cbn [sync_loop] in H.
    destruct (try_item db item) as [db1 [o|e]] eqn:Et;
      destruct (try_item_products _ _ _ _ Et Hnd) as [Hnd1 Hlen].
    + destruct o.
      * destruct (IH _ _ _ _ H Hnd1) as [Hnd' Hr]. split; [exact Hnd'|].
        destruct r as [n'|]; [|exact I]. cbn [created_count updated_count] in Hr.
        cbn [List.length]. lia.
      * destruct (IH _ _ _ _ H Hnd1) as [Hnd' Hr]. split; [exact Hnd'|].
        destruct r as [n'|]; [|exact I]. cbn [created_count updated_count] in Hr.
        cbn [List.length]. lia.
      * destruct (IH _ _ _ _ H Hnd1) as [Hnd' Hr]. split; [exact Hnd'|].
        destruct r as [n'|]; [|exact I]. cbn [List.length]. lia.
    + destruct (handler item).
      * destruct (IH _ _ _ _ H Hnd1) as [Hnd' Hr]. split; [exact Hnd'|].
        destruct r as [n'|]; [|exact I]. cbn [List.length]. lia.
      * injection H as <- <-. split; [exact Hnd1|exact I].
Qed.

Lemma with_import_brands_products db :
  products (with_import_brands db) = products db.
Proof.
  unfold with_import_brands, get_or_create_brand.
  repeat match goal with
         | |- context [match ?x with _ => _ end] => destruct x
         end; reflexivity.
Qed.

(** X22 (crm/services/manager_api.py, [sync_products]): a sync never
    leaves two product rows with one sku, whether it returns or
    raises. *)
Theorem sync_products_keeps_skus_unique api db :
  NoDup (skus db) ->
  NoDup (skus (fst (sync_products api db))).
Proof.
  intros Hnd.
  assert (Hb : NoDup (skus (with_import_brands db)))
    by (unfold skus; rewrite with_import_brands_products; exact Hnd).
  unfold sync_products.
  destruct (_fetch_all_inventory_items api) as [items|]; [|exact Hb].
  destruct items as [|item rest]; [exact Hb|].
  destruct (sync_loop (with_import_brands db) zero_counts (item :: rest))
    as [db' r] eqn:El.
  destruct (sync_loop_products _ _ _ _ _ El Hb) as [Hnd' _].
  unfold report. destruct r; exact Hnd'.
Qed.

Lemma sync_products_keeps_skus_unique_witness :
  NoDup (skus no_tables)
  /\ NoDup (skus (fst (sync_products one_page no_tables))).
Proof.
  assert (H : NoDup (skus no_tables)) by apply NoDup_nil_2.
  split; [exact H|].
  exact (sync_products_keeps_skus_unique one_page no_tables H).
Defined.

(** X23 (crm/services/manager_api.py, [sync_products]): the report of a
    sync that returns is an account of what happened to the product
    table: the table has grown by the number reported as created, and
    created and updated together do not exceed the number of items
    fetched. *)
Theorem sync_products_report_accounts api db db' s :
  NoDup (skus db) ->
  sync_products api db = (db', Ok s) ->
  0 <= created s /\ 0 <= updated s
  /\ Z.of_nat (List.length (products db'))
     = Z.of_nat (List.length (products db)) + created s
  /\ match total_items s with
     | Some total =>
         created s + updated s <= total
         /\ exists items, _fetch_all_inventory_items api = Ok items
                          /\ total = Z.of_nat (List.length items)
     | None => created s = 0 /\ updated s = 0
               /\ _fetch_all_inventory_items api = Ok []
     end.
Proof.
  intros Hnd.
  assert (Hb : NoDup (skus (with_import_brands db)))
    by (unfold skus; rewrite with_import_brands_products; exact Hnd).
  unfold sync_products.
  destruct (_fetch_all_inventory_items api) as [items|]; [|discriminate].
  destruct items as [|item rest].
  - intros [= <- <-]. cbn [created updated total_items].
    rewrite with_import_brands_products. repeat split; lia || reflexivity.
  - destruct (sync_loop (with_import_brands db) zero_counts (item :: rest))
      as [db1 r] eqn:El.
    destruct (sync_loop_products _ _ _ _ _ El Hb) as [_ Hr].
    unfold report. destruct r as [n'|]; [|discriminate].
    intros [= <- <-]. cbn [created updated total_items].
    cbn [zero_counts created_count updated_count] in Hr.
    rewrite with_import_brands_products in Hr.
    cbn [List.length] in Hr |- *.
    split; [lia|]. split; [lia|]. split; [lia|]. split; [lia|].
    exists (item :: rest). split; reflexivity.
Qed.

Lemma sync_products_report_accounts_witness :
  NoDup (skus no_tables)
  /\ snd (sync_products one_page no_tables)
     = Ok {| created := 2; updated := 0; total_items := Some 3; message := None |}
  /\ Z.of_nat (List.length (products (fst (sync_products one_page no_tables))))
     = Z.of_nat (List.length (products no_tables)) + 2.
Proof.
  assert (H : NoDup (skus no_tables)) by apply NoDup_nil_2.
  split; [exact H|]. split; [reflexivity|].
  exact (proj1 (proj2 (proj2
    (sync_products_report_accounts one_page no_tables
       (fst (sync_products one_page no_tables))
       {| created := 2; updated := 0; total_items := Some 3; message := None |}
       H eq_refl)))).
Defined.

End SyncAsAWhole.


(* ===================================================================== *)
(** ** Contacts and activities through the views *)
(* ===================================================================== *)

Section ContactsThroughTheViews.
Import Employment.

(** The history table after a current row of contact [who] has been
    saved under the fresh key. *)
Lemma history_save_new db who f employer desig today db' :
  history_save db
    {| h_pk := None;
       row := {| contact_id := who; company := employer; h_designation := desig;
                 start_date := Some today; end_date := None; is_current := true |};
       contact_cache := Some f |} = Ok db' ->
  let k := fresh (dom (histories db)) in
  contacts db' = contacts db
  /\ histories db' !! k
     = Some {| contact_id := who; company := employer; h_designation := desig;
               start_date := Some today; end_date := None; is_current := true |}
  /\ (forall j r, histories db' !! j = Some r -> j <> k -> histories db !! j = Some r).
Proof.
  intros H. apply history_save_writes_the_row in H as [Hc Hh].
  unfold instance_key in Hh. cbn [h_pk row] in Hh.
  cbn zeta. rewrite Hc, Hh. split; [reflexivity|]. split.
  - apply lookup_insert_eq.
  - intros j r Hj Hne. by rewrite lookup_insert_ne in Hj.
Qed.

Lemma history_save_returns db i :
  is_Some (contacts db !! contact_id (row i)) ->
  exists db', history_save db i = Ok db'.
Proof.
  intros [c Hc].
  unfold history_save, history_save_when, Apps.signals_imported, send_post_save.
  rewrite Hc. by eexists.
Qed.

Definition opened_row (who employer : N) (desig : option N) (today : Z) : History :=
  {| contact_id := who; company := employer; h_designation := desig;
     start_date := Some today; end_date := None; is_current := true |}.

(** X24 (crm/views.py, [ContactCreateView.form_valid]): creating a
    contact under a key that no history row refers to does not raise
    and stores the contact as the form gave it; with a company chosen,
    the history of the contact is one row, current, for that company
    and designation, starting today; without one, the history table is
    left as it is. *)
Theorem created_contact_employment db today who f :
  (forall j r, histories db !! j = Some r -> contact_id r <> who) ->
  exists db',
    ContactViews.form_valid db today who f = Ok db'
    /\ contacts db' !! who = Some f
    /\ match current_company f with
       | Some employer =>
           exists k,
             histories db' !! k = Some (opened_row who employer (designation f) today)
             /\ forall j r, histories db' !! j = Some r ->
                            contact_id r = who -> j = k
       | None => histories db' = histories db
       end.
Proof.
  intros Hnew. unfold ContactViews.form_valid.
  destruct (current_company f) as [employer|] eqn:Ec.
  - set (db1 := {| contacts := <[who := f]> (contacts db);
                   histories := histories db |}).
    assert (Hc : contacts db1 !! who = Some f) by apply lookup_insert_eq.
    destruct (history_save_returns db1
                {| h_pk := None;
                   row := opened_row who employer (designation f) today;
                   contact_cache := Some f |}) as [db' Hs]; [by eexists|].
    destruct (history_save_new db1 who f employer (designation f) today db' Hs)
      as (Hcon & Hk & Hother).
    exists db'. split; [exact Hs|]. split; [by rewrite Hcon|].
    exists (fresh (dom (histories db1))). split; [exact Hk|].
    intros j r Hj Hr.
    destruct (decide (j = fresh (dom (histories db1)))) as [|Hne]; [assumption|].
    exfalso. apply (Hnew j r (Hother j r Hj Hne)). exact Hr.
  - eexists. split; [reflexivity|]. cbn [contacts histories].
    split; [apply lookup_insert_eq|reflexivity].
Qed.

Lemma created_contact_employment_witness :
  (forall j r, histories employed !! j = Some r -> contact_id r <> 2%N)
  /\ exists db',
       ContactViews.form_valid employed 19800 2
         {| name := "S. Akter"; phone := "+8801812345678"; email := "";
            designation := Some 3%N; current_company := Some 20%N |} = Ok db'
       /\ contacts db' !! 2%N
          = Some {| name := "S. Akter"; phone := "+8801812345678"; email := "";
                    designation := Some 3%N; current_company := Some 20%N |}
       /\ exists k,
            histories db' !! k = Some (opened_row 2 20 (Some 3%N) 19800)
            /\ forall j r, histories db' !! j = Some r -> contact_id r = 2%N -> j = k.
Proof.
  assert (H : forall j r, histories employed !! j = Some r -> contact_id r <> 2%N).
  { intros j r Hj. cbn [histories employed] in Hj.
    apply lookup_singleton_Some in Hj as [_ <-]. discriminate. }
  split; [exact H|].
  exact (created_contact_employment employed 19800 2
           {| name := "S. Akter"; phone := "+8801812345678"; email := "";
              designation := Some 3%N; current_company := Some 20%N |} H).
Defined.

(** The current history rows of contact [who] are rows for the company
    that the contact's own row names. *)
Definition history_agrees (db : DB) (who : N) (stored : Contact) : Prop :=
  forall j r,
    histories db !! j = Some r -> contact_id r = who -> is_current r = true ->
    current_company stored = Some (company r).

(** X25 (crm/views.py, [ContactUpdateView.form_valid]): for a stored
    contact whose current history rows are for the company on the
    contact's row, a change of the company through the form does not
    raise, the contact is stored as the form gave it, and the contact
    has exactly one current history row afterwards: a new one for the
    new company, with the designation of the form, starting today. *)
Theorem company_change_opens_current_row db today changed who f stored employer :
  In "current_company" changed ->
  contacts db !! who = Some stored ->
  history_agrees db who stored ->
  current_company stored <> Some employer ->
  current_company f = Some employer ->
  exists db' k,
    form_valid db today changed who f = Ok db'
    /\ contacts db' !! who = Some f
    /\ histories db' !! k = Some (opened_row who employer (designation f) today)
    /\ forall j r, histories db' !! j = Some r ->
                   contact_id r = who -> is_current r = true -> j = k.
Proof.
  intros Hch Hst Hagree Hne Hf. unfold form_valid, form_valid_when.
  assert (E : existsb (String.eqb "current_company") changed = true).
  { apply existsb_exists. exists "current_company". split; [exact Hch|].
    apply String.eqb_refl. }
  rewrite E, Hst. cbn [bind].
  rewrite (bool_decide_eq_false_2 (current_company stored = current_company f))
    by congruence.
  cbn [negb]. rewrite Hf.
  set (db1 := match current_company stored with
              | Some oc => _
              | None => db
              end).
  assert (Hc : contacts db1 !! who = Some stored).
  { subst db1. destruct (current_company stored); exact Hst. }
  (* the employment has been ended: no row of the contact is current *)
  assert (Hended : forall j r, histories db1 !! j = Some r ->
                               contact_id r = who -> is_current r = false).
  { subst db1. intros j r. destruct (current_company stored) as [oc|] eqn:Eoc.
    - cbn [histories]. unfold end_current_employment. rewrite lookup_fmap.
      destruct (histories db !! j) as [r0|] eqn:E0; [|discriminate].
      cbn. intros [= <-] Hr.
      destruct (is_current r0) eqn:Ecur.
      + assert (Hco : company r0 = oc).
        { destruct (bool_decide (contact_id r0 = who) && bool_decide (company r0 = oc));
            cbn [andb] in Hr |- *.
          - specialize (Hagree j r0 E0 Hr Ecur). congruence.
          - specialize (Hagree j r0 E0 Hr Ecur). congruence. }
        rewrite (bool_decide_eq_true_2 _ Hco).
        destruct (bool_decide (contact_id r0 = who)) eqn:Ew; cbn [andb].
        * reflexivity.
        * apply bool_decide_eq_false_1 in Ew. cbn [andb] in Hr. contradiction.
      + rewrite andb_false_r. exact Ecur.
    - intros Hj Hr. destruct (is_current r) eqn:Ecur; [|reflexivity].
      specialize (Hagree j r Hj Hr Ecur). congruence. }
  change (history_save_when Apps.signals_imported) with history_save.
  destruct (history_save_returns db1
              {| h_pk := None;
                 row := opened_row who employer (designation f) today;
                 contact_cache := Some f |}) as [db2 Hs]; [by eexists|].
  unfold opened_row in Hs at 1. rewrite Hs.
  destruct (history_save_new db1 who f employer (designation f) today db2 Hs)
    as (Hcon & Hk & Hother).
  exists {| contacts := <[who := f]> (contacts db2); histories := histories db2 |},
         (fresh (dom (histories db1))).
  cbn [bind contacts histories].
  split; [reflexivity|]. split; [apply lookup_insert_eq|]. split; [exact Hk|].
  intros j r Hj Hr Hcur.
  destruct (decide (j = fresh (dom (histories db1)))) as [|Hn]; [assumption|].
  rewrite (Hended j r (Hother j r Hj Hn) Hr) in Hcur. discriminate Hcur.
Qed.

Lemma company_change_opens_current_row_witness :
  In "current_company" ["current_company"]
  /\ contacts employed !! 1%N
     = Some (with_employment (Some 10%N) None someone)
  /\ history_agrees employed 1 (with_employment (Some 10%N) None someone)
  /\ exists db' k,
       form_valid employed 19800 ["current_company"] 1
         {| name := "A. Rahman"; phone := "+8801712345678"; email := "";
            designation := Some 3%N; current_company := Some 20%N |} = Ok db'
       /\ contacts db' !! 1%N
          = Some {| name := "A. Rahman"; phone := "+8801712345678"; email := "";
                    designation := Some 3%N; current_company := Some 20%N |}
       /\ histories db' !! k = Some (opened_row 1 20 (Some 3%N) 19800)
       /\ forall j r, histories db' !! j = Some r ->
                      contact_id r = 1%N -> is_current r = true -> j = k.
Proof.
  assert (H1 : In "current_company" ["current_company"]) by (left; reflexivity).
  assert (H2 : contacts employed !! 1%N
               = Some (with_employment (Some 10%N) None someone)) by reflexivity.
  assert (H3 : history_agrees employed 1 (with_employment (Some 10%N) None someone)).
  { intros j r Hj _ _. cbn [histories employed] in Hj.
    apply lookup_singleton_Some in Hj as [_ <-]. reflexivity. }
  assert (H4 : current_company (with_employment (Some 10%N) None someone)
               <> Some 20%N) by discriminate.
  split; [exact H1|]. split; [exact H2|]. split; [exact H3|].
  exact (company_change_opens_current_row employed 19800 ["current_company"] 1
           {| name := "A. Rahman"; phone := "+8801712345678"; email := "";
              designation := Some 3%N; current_company := Some 20%N |}
           (with_employment (Some 10%N) None someone) 20 H1 H2 H3 H4 eq_refl).
Defined.

End ContactsThroughTheViews.

Section LeavingACompany.
Import Employment.

(** X26 (crm/views.py, [ContactUpdateView.form_valid]): when the form
    takes the company away from a stored contact, the update does not
    raise, the contact is stored as the form gave it, no history row is
    added, and the rows of the contact for the former company are all
    closed: not current, and those that were current end today. *)
Theorem company_removed_ends_employment db today changed who f stored former :
  In "current_company" changed ->
  contacts db !! who = Some stored ->
  current_company stored = Some former ->
  current_company f = None ->
  exists db',
    form_valid db today changed who f = Ok db'
    /\ contacts db' !! who = Some f
    /\ dom (histories db') = dom (histories db)
    /\ forall j r, histories db' !! j = Some r ->
         exists r0,
           histories db !! j = Some r0
           /\ (contact_id r0 = who -> company r0 = former ->
               is_current r = false
               /\ (is_current r0 = true -> end_date r = Some today))
           /\ (is_current r0 = false -> r = r0).
Proof.
  intros Hch Hst Hformer Hf. unfold form_valid, form_valid_when.
  assert (E : existsb (String.eqb "current_company") changed = true).
  { apply existsb_exists. exists "current_company". split; [exact Hch|].
    apply String.eqb_refl. }
  rewrite E, Hst. cbn [bind].
  rewrite (bool_decide_eq_false_2 (current_company stored = current_company f))
    by congruence.
  cbn [negb]. rewrite Hf, Hformer. cbn [bind contacts histories].
  eexists. split; [reflexivity|]. cbn [contacts histories].
  split; [apply lookup_insert_eq|]. split.
  - unfold end_current_employment. apply dom_fmap_L.
  - intros j r Hj. unfold end_current_employment in Hj.
    rewrite lookup_fmap in Hj.
    destruct (histories db !! j) as [r0|]; [|discriminate Hj].
    cbn in Hj. injection Hj as <-. exists r0. split; [reflexivity|].
    destruct (is_current r0) eqn:Ecur.
    + split; [|discriminate]. intros Hw Hc.
      rewrite (bool_decide_eq_true_2 _ Hw), (bool_decide_eq_true_2 _ Hc).
      cbn. auto.
    + rewrite andb_false_r. split; [|reflexivity]. intros _ _.
      split; [exact Ecur|discriminate].
Qed.

Lemma company_removed_ends_employment_witness :
  In "current_company" ["current_company"]
  /\ contacts employed !! 1%N = Some (with_employment (Some 10%N) None someone)
  /\ exists db',
       form_valid employed 19800 ["current_company"] 1 someone = Ok db'
       /\ contacts db' !! 1%N = Some someone
       /\ histories db' !! 1%positive = Some (ended 19800 (row (hired 10 None))).
Proof.
  assert (H1 : In "current_company" ["current_company"]) by (left; reflexivity).
  assert (H2 : contacts employed !! 1%N
               = Some (with_employment (Some 10%N) None someone)) by reflexivity.
  split; [exact H1|]. split; [exact H2|].
  destruct (company_removed_ends_employment employed 19800 ["current_company"] 1
              someone (with_employment (Some 10%N) None someone) 10 H1 H2
              eq_refl eq_refl) as (db' & Hv & Hc & _).
  exists db'. split; [exact Hv|]. split; [exact Hc|].
  assert (E : form_valid employed 19800 ["current_company"] 1 someone
              = Ok {| contacts := {[ 1%N := someone ]};
                      histories := {[ 1%positive := ended 19800 (row (hired 10 None)) ]} |})
    by reflexivity.
  rewrite E in Hv. injection Hv as <-. reflexivity.
Defined.

End LeavingACompany.


Section CompletingActivities.
Import Activities.

(** X27 (crm/views.py [activity_complete], crm/models.py
    [Activity.mark_complete]): for a stored activity, a POST of the
    assignee or of a superuser returns and stores the activity as
    completed by that user at that time, with the posted outcome, or
    the recorded one when none was posted, and the posted next action,
    or the recorded one, and leaves every other activity alone; any
    other request (a GET, an anonymous user, a user who is neither the
    assignee nor a superuser) returns and leaves the table as it
    is. *)
Theorem activity_complete_authorised db now user su method o na pk a :
  db !! pk = Some a ->
  (forall u,
      user = Some u -> assigned_to a = Some u \/ su = true ->
      method = LeadViews.POST ->
      exists db' a',
        activity_complete db now user su method o na pk = Ok db'
        /\ db' !! pk = Some a'
        /\ status a' = "completed"
        /\ completed_by a' = Some u
        /\ completed_at a' = Some now
        /\ assigned_to a' = assigned_to a
        /\ outcome a' = (if str_truthy (default "" o) then default "" o
                         else outcome a)
        /\ next_action a' = (if str_truthy (default "" na) then default "" na
                             else next_action a)
        /\ forall k, k <> pk -> db' !! k = db !! k)
  /\ (method = LeadViews.GET
      \/ user = None
      \/ (assigned_to a <> user /\ su = false) ->
      activity_complete db now user su method o na pk = Ok db).
Proof.
  intros Ea. unfold activity_complete. rewrite Ea. split.
  - intros u -> Hauth ->.
    assert (Eperm : negb (is_assignee a (Some u)) && negb su = false).
    { destruct Hauth as [Has| ->]; [|apply andb_false_r].
      unfold is_assignee. rewrite Has.
      rewrite bool_decide_eq_true_2 by reflexivity. reflexivity. }
    rewrite Eperm.
    destruct (str_truthy (default "" na)) eqn:Ena.
    + eexists _, _. split; [reflexivity|]. rewrite lookup_insert_eq.
      split; [reflexivity|]. cbn. repeat split.
      intros k Hk. rewrite !lookup_insert_ne by congruence. reflexivity.
    + eexists _, _. split; [reflexivity|]. rewrite lookup_insert_eq.
      split; [reflexivity|]. cbn. repeat split.
      intros k Hk. rewrite lookup_insert_ne by congruence. reflexivity.
  - intros [-> | [-> | [Hne ->]]].
    + destruct (negb _ && negb _); [reflexivity|]. destruct user; reflexivity.
    + unfold is_assignee. destruct (assigned_to a); reflexivity.
    + destruct user as [u|];
        [|unfold is_assignee; destruct (assigned_to a); reflexivity].
      assert (E : is_assignee a (Some u) = false).
      { unfold is_assignee. destruct (assigned_to a) as [x|]; [|reflexivity].
        apply bool_decide_eq_false_2. congruence. }
      rewrite E. reflexivity.
Qed.

Definition site_visit : Activity :=
  {| status := "scheduled"; assigned_to := Some 4%N; outcome := "";
     next_action := ""; completed_at := None; completed_by := None |}.

Definition visit_completed : Activity :=
  {| status := "completed"; assigned_to := Some 4%N;
     outcome := "order expected"; next_action := "";
     completed_at := Some 1704067200; completed_by := Some 4%N |}.

Lemma activity_complete_authorised_witness :
  ({[ 1%N := site_visit ]} : gmap N Activity) !! 1%N = Some site_visit
  /\ (exists db' a',
        activity_complete {[ 1%N := site_visit ]} 1704067200 (Some 4%N) false
          LeadViews.POST (Some "order expected") None 1 = Ok db'
        /\ db' !! 1%N = Some a'
        /\ status a' = "completed"
        /\ completed_by a' = Some 4%N
        /\ completed_at a' = Some 1704067200
        /\ assigned_to a' = Some 4%N
        /\ outcome a' = "order expected"
        /\ next_action a' = ""
        /\ forall k, k <> 1%N ->
             db' !! k = ({[ 1%N := site_visit ]} : gmap N Activity) !! k)
  /\ activity_complete {[ 1%N := site_visit ]} 1704067200 (Some 5%N) false
       LeadViews.POST (Some "order expected") None 1
     = Ok {[ 1%N := site_visit ]}.
Proof.
  assert (H : ({[ 1%N := site_visit ]} : gmap N Activity) !! 1%N = Some site_visit)
    by apply lookup_singleton_eq.
  split; [exact H|]. split.
  - exact (proj1 (activity_complete_authorised {[ 1%N := site_visit ]} 1704067200
                    (Some 4%N) false LeadViews.POST (Some "order expected") None 1
                    site_visit H)
             4%N eq_refl (or_introl eq_refl) eq_refl).
  - apply (proj2 (activity_complete_authorised {[ 1%N := site_visit ]} 1704067200
                    (Some 5%N) false LeadViews.POST (Some "order expected") None 1
                    site_visit H)).
    right. right. split; [discriminate|reflexivity].
Defined.

Example site_visit_completed :
  activity_complete {[ 1%N := site_visit ]} 1704067200 (Some 4%N) false
    LeadViews.POST (Some "order expected") None 1
  = Ok {[ 1%N := visit_completed ]}.
Proof.
  unfold activity_complete. rewrite lookup_singleton_eq. cbn.
  rewrite insert_singleton_eq. reflexivity.
Qed.

End CompletingActivities.
